(** * Cerberus-core ticket worker: lifecycle, timeout and job cancellation

    A shallow embedding of [worker/ticket.py].  Database rows are records,
    tables are finite maps or lists, and every worker function is a
    computation in a state-and-exception monad over the [World]: the
    database, the audit trail, the logger, the scheduler and the mail
    outbox.  Python exceptions are an explicit result, so that "does not
    raise" is a statement about the value a function returns. *)

From stdpp Require Import gmap strings list pretty.
From Stdlib Require Import ZArith Lia.

Open Scope Z_scope.

(** ** Strings *)

(** [str.lower()] on ASCII text: the letters A..Z move to a..z, every
    other character is kept. *)
Definition lower_ascii (c : Ascii.ascii) : Ascii.ascii :=
  let n := Ascii.N_of_ascii c in
  if ((65 <=? n) && (n <=? 90))%N then Ascii.ascii_of_N (n + 32) else c.

Fixpoint lower (s : string) : string :=
  match s with
  | EmptyString => EmptyString
  | String c r => String (lower_ascii c) (lower r)
  end.

(** Python truthiness of a string: the empty string is false. *)
Definition str_truthy (s : string) : bool :=
  match s with EmptyString => false | _ => true end.

(** [if x:] for [x] a string or [None]: the value when it is truthy. *)
Definition truthy_str (o : option string) : option string :=
  match o with
  | Some s => if str_truthy s then Some s else None
  | None => None
  end.

(** ** Module constants *)

Definition ASYNC_JOB_TO_CANCEL : list string :=
  [ "action.apply_if_no_reply"; "action.apply_then_close";
    "action.apply_action"; "ticket.timeout" ].

Definition WAITING : string := "WaitingAnswer".
Definition PAUSED : string := "Paused".
Definition ALARM : string := "Alarm".

Definition STATUS_SEQUENCE : list string := [WAITING; ALARM; WAITING].

(** ** Data model (the rows of [abuse.models] the worker touches) *)

(** A naive [datetime], as the number of microseconds since the epoch in
    local time. *)
Definition datetime := Z.

(** [mktime(d.timetuple())]: whole seconds, the microseconds are dropped. *)
Definition mktime (d : datetime) : Z := d / 1000000.

(** [(a - b).seconds]: a [timedelta] is normalised into days, seconds in
    [0, 86400) and microseconds; [.seconds] is the middle component only. *)
Definition timedelta_seconds (a b : datetime) : Z :=
  ((a - b) / 1000000) mod 86400.

(** [(a - b).days] and the whole elapsed seconds [days * 86400 + seconds]. *)
Definition timedelta_days (a b : datetime) : Z :=
  ((a - b) / 1000000) / 86400.

Definition elapsed_seconds (a b : datetime) : Z := (a - b) / 1000000.

Record Category := mkCategory { category_name : string }.

Record DefendantDetails := mkDetails { email : string; lang : string }.

Record Defendant := mkDefendant { details : DefendantDetails }.

Record Service := mkService { componentType : string }.

(** [Role.modelsAuthorizations]: a dict of dicts of flags. *)
Record Role := mkRole { modelsAuthorizations : gmap string (gmap string bool) }.

Record Operator := mkOperator { role : option Role }.

Record User := mkUser {
  user_id : Z;
  username : string;
  operator : option Operator
}.

Record ReportItem := mkItem {
  itemType : string;
  ip : option string;
  fqdnResolved : option string
}.

Record Report := mkReport {
  report_id : Z;
  report_ticket : option Z;
  reportItemRelatedReport : list ReportItem
}.

Record Action := mkAction { action_id : Z; action_name : string }.

Record ServiceActionJob := mkJob {
  job_ip : string;
  job_action : Action;
  asynchronousJobId : string;
  job_status : option string;
  creationDate : datetime
}.

Record History := mkHistory {
  history_date : datetime;
  actionType : string;
  ticketStatus : string
}.

(** The ticket row.  [defendant], [service] and [treatedBy] are nullable
    (the worker tests them); [category] is dereferenced without a test and
    is a plain value, as in the data model of the specification. *)
Record Ticket := mkTicket {
  ticket_id : Z;
  status : string;
  previousStatus : string;
  category : Category;
  defendant : option Defendant;
  service : option Service;
  treatedBy : option User;
  escalated : bool;
  snoozeStart : option datetime;
  snoozeDuration : option Z;
  pauseStart : option datetime;
  pauseDuration : option Z;
  ticket_action : option Action;
  resolution : option string;
  reportTicket : list Report;
  ticketHistory : list History
}.

Definition with_status (s : string) (t : Ticket) : Ticket :=
  mkTicket (ticket_id t) s (previousStatus t) (category t) (defendant t)
    (service t) (treatedBy t) (escalated t) (snoozeStart t) (snoozeDuration t)
    (pauseStart t) (pauseDuration t) (ticket_action t) (resolution t)
    (reportTicket t) (ticketHistory t).

Definition with_treatedBy (u : option User) (t : Ticket) : Ticket :=
  mkTicket (ticket_id t) (status t) (previousStatus t) (category t)
    (defendant t) (service t) u (escalated t) (snoozeStart t)
    (snoozeDuration t) (pauseStart t) (pauseDuration t) (ticket_action t)
    (resolution t) (reportTicket t) (ticketHistory t).

Definition with_escalated (b : bool) (t : Ticket) : Ticket :=
  mkTicket (ticket_id t) (status t) (previousStatus t) (category t)
    (defendant t) (service t) (treatedBy t) b (snoozeStart t)
    (snoozeDuration t) (pauseStart t) (pauseDuration t) (ticket_action t)
    (resolution t) (reportTicket t) (ticketHistory t).

Definition with_snooze (s : option datetime) (d : option Z) (t : Ticket)
  : Ticket :=
  mkTicket (ticket_id t) (status t) (previousStatus t) (category t)
    (defendant t) (service t) (treatedBy t) (escalated t) s d
    (pauseStart t) (pauseDuration t) (ticket_action t) (resolution t)
    (reportTicket t) (ticketHistory t).

Definition with_pause (s : option datetime) (d : option Z) (t : Ticket)
  : Ticket :=
  mkTicket (ticket_id t) (status t) (previousStatus t) (category t)
    (defendant t) (service t) (treatedBy t) (escalated t) (snoozeStart t)
    (snoozeDuration t) s d (ticket_action t) (resolution t)
    (reportTicket t) (ticketHistory t).

Definition with_action (a : option Action) (t : Ticket) : Ticket :=
  mkTicket (ticket_id t) (status t) (previousStatus t) (category t)
    (defendant t) (service t) (treatedBy t) (escalated t) (snoozeStart t)
    (snoozeDuration t) (pauseStart t) (pauseDuration t) a (resolution t)
    (reportTicket t) (ticketHistory t).

Definition with_resolution (r : option string) (t : Ticket) : Ticket :=
  mkTicket (ticket_id t) (status t) (previousStatus t) (category t)
    (defendant t) (service t) (treatedBy t) (escalated t) (snoozeStart t)
    (snoozeDuration t) (pauseStart t) (pauseDuration t) (ticket_action t) r
    (reportTicket t) (ticketHistory t).

Record Comment := mkComment { comment_user : User; comment_text : string }.

(** Values passed as keyword arguments to the audit log and to scheduled
    jobs. *)
Inductive PyVal :=
| VNone
| VBool (b : bool)
| VInt (z : Z)
| VStr (s : string)
| VUser (u : User).

Record AuditEntry := mkAudit {
  audit_ticket : option Z;
  audit_action : string;
  audit_kwargs : list (string * PyVal)
}.

Inductive Level := DEBUG | INFO | ERROR.

Record Email := mkEmail {
  mail_ticket : Z;
  mail_to : list string;
  mail_template : string;
  mail_lang : option string
}.

(** A job held by the rq scheduler. *)
Record SchedJob := mkSchedJob {
  sj_id : string;
  func_name : string;
  kwargs : gmap string PyVal;
  scheduled_time : datetime
}.

(** One condition of a business rule and the rule's configuration. *)
Record Cond := mkCond { cond_name : string; cond_value : PyVal }.

Record RuleConfig := mkRule {
  conditions_all : list Cond;
  rule_actions : list string
}.

(** ** The world the worker runs in *)

#[projections(primitive)]
Record World := mkWorld {
  db_ticket : gmap Z Ticket;
  db_ticket_jobs : gmap Z (list ServiceActionJob);
  db_ticket_tags : gmap Z (list string);
  db_tag : list string;
  db_comment : list Comment;
  db_ticketcomment : list (Z * Comment);
  db_contactedprovider : list (Z * string);
  db_report : gmap Z Report;
  db_user : gmap Z User;
  db_businessrules : gmap string RuleConfig;
  db_history : list AuditEntry;
  logger : list (Level * string);
  scheduler : list SchedJob;
  outbox : list Email;
  closed_threads : list Z
}.

(** Field updates. *)
Definition set_db_ticket (x : gmap Z Ticket) (w : World) : World :=
  mkWorld x (db_ticket_jobs w) (db_ticket_tags w) (db_tag w) (db_comment w)
    (db_ticketcomment w) (db_contactedprovider w) (db_report w) (db_user w)
    (db_businessrules w) (db_history w) (logger w) (scheduler w) (outbox w)
    (closed_threads w).

Definition set_db_ticket_jobs (x : gmap Z (list ServiceActionJob)) (w : World) : World :=
  mkWorld (db_ticket w) x (db_ticket_tags w) (db_tag w) (db_comment w)
    (db_ticketcomment w) (db_contactedprovider w) (db_report w) (db_user w)
    (db_businessrules w) (db_history w) (logger w) (scheduler w) (outbox w)
    (closed_threads w).

Definition set_db_ticket_tags (x : gmap Z (list string)) (w : World) : World :=
  mkWorld (db_ticket w) (db_ticket_jobs w) x (db_tag w) (db_comment w)
    (db_ticketcomment w) (db_contactedprovider w) (db_report w) (db_user w)
    (db_businessrules w) (db_history w) (logger w) (scheduler w) (outbox w)
    (closed_threads w).

Definition set_db_comment (x : list Comment) (w : World) : World :=
  mkWorld (db_ticket w) (db_ticket_jobs w) (db_ticket_tags w) (db_tag w) x
    (db_ticketcomment w) (db_contactedprovider w) (db_report w) (db_user w)
    (db_businessrules w) (db_history w) (logger w) (scheduler w) (outbox w)
    (closed_threads w).

Definition set_db_ticketcomment (x : list (Z * Comment)) (w : World) : World :=
  mkWorld (db_ticket w) (db_ticket_jobs w) (db_ticket_tags w) (db_tag w)
    (db_comment w) x (db_contactedprovider w) (db_report w) (db_user w)
    (db_businessrules w) (db_history w) (logger w) (scheduler w) (outbox w)
    (closed_threads w).

Definition set_db_history (x : list AuditEntry) (w : World) : World :=
  mkWorld (db_ticket w) (db_ticket_jobs w) (db_ticket_tags w) (db_tag w)
    (db_comment w) (db_ticketcomment w) (db_contactedprovider w) (db_report w)
    (db_user w) (db_businessrules w) x (logger w) (scheduler w) (outbox w)
    (closed_threads w).

Definition set_logger (x : list (Level * string)) (w : World) : World :=
  mkWorld (db_ticket w) (db_ticket_jobs w) (db_ticket_tags w) (db_tag w)
    (db_comment w) (db_ticketcomment w) (db_contactedprovider w) (db_report w)
    (db_user w) (db_businessrules w) (db_history w) x (scheduler w) (outbox w)
    (closed_threads w).

Definition set_scheduler (x : list SchedJob) (w : World) : World :=
  mkWorld (db_ticket w) (db_ticket_jobs w) (db_ticket_tags w) (db_tag w)
    (db_comment w) (db_ticketcomment w) (db_contactedprovider w) (db_report w)
    (db_user w) (db_businessrules w) (db_history w) (logger w) x (outbox w)
    (closed_threads w).

Definition set_outbox (x : list Email) (w : World) : World :=
  mkWorld (db_ticket w) (db_ticket_jobs w) (db_ticket_tags w) (db_tag w)
    (db_comment w) (db_ticketcomment w) (db_contactedprovider w) (db_report w)
    (db_user w) (db_businessrules w) (db_history w) (logger w) (scheduler w) x
    (closed_threads w).

Definition set_closed_threads (x : list Z) (w : World) : World :=
  mkWorld (db_ticket w) (db_ticket_jobs w) (db_ticket_tags w) (db_tag w)
    (db_comment w) (db_ticketcomment w) (db_contactedprovider w) (db_report w)
    (db_user w) (db_businessrules w) (db_history w) (logger w) (scheduler w)
    (outbox w) x.

(** ** Exceptions and the worker monad *)

Inductive Exn :=
| AttributeError
| KeyError
| ObjectDoesNotExist
| TypeError
| ValueError
| UnboundLocalError
| AssertionError.

Global Instance Exn_eq_dec : EqDecision Exn.
Proof. solve_decision. Defined.

(** The outcome of a call: a value, a raised exception, or [Blocked] when
    the polling loop of [_apply_timeout_action] has not seen the job finish
    within the polls it was allowed. *)
Inductive Res (A : Type) :=
| Ok (a : A)
| Raise (e : Exn)
| Blocked.

Arguments Ok {A} a.
Arguments Raise {A} e.
Arguments Blocked {A}.

(** Writes made before an exception stay: there is no transaction around a
    worker function. *)
Definition M (A : Type) : Type := World -> Res A * World.

Definition ret {A} (a : A) : M A := fun w => (Ok a, w).

Definition bind {A B} (c : M A) (k : A -> M B) : M B :=
  fun w =>
    match c w with
    | (Ok a, w') => k a w'
    | (Raise e, w') => (Raise e, w')
    | (Blocked, w') => (Blocked, w')
    end.

Definition raise {A} (e : Exn) : M A := fun w => (Raise e, w).

Definition gets {A} (f : World -> A) : M A := fun w => (Ok (f w), w).

Definition modify (f : World -> World) : M unit := fun w => (Ok tt, f w).

(** [try: c except (e1, e2, ...): h] *)
Definition try_except {A} (c : M A) (handled : list Exn) (h : Exn -> M A)
  : M A :=
  fun w =>
    match c w with
    | (Raise e, w') =>
        if bool_decide (e ∈ handled) then h e w' else (Raise e, w')
    | r => r
    end.

Definition Exn_name (e : Exn) : string :=
  match e with
  | AttributeError => "AttributeError"
  | KeyError => "KeyError"
  | ObjectDoesNotExist => "ObjectDoesNotExist"
  | TypeError => "TypeError"
  | ValueError => "ValueError"
  | UnboundLocalError => "UnboundLocalError"
  | AssertionError => "AssertionError"
  end.

Notation "'let*' x ':=' c 'in' k" := (bind c (fun x => k))
  (at level 10, x pattern, c at level 100, k at level 200).

Notation "c '>>' k" := (bind c (fun _ => k))
  (at level 100, k at level 200, right associativity).

(** Attribute access on a nullable reference: [None.attr] raises
    [AttributeError]. *)
Definition deref {A} (o : option A) : M A :=
  match o with
  | Some a => ret a
  | None => raise AttributeError
  end.

(** [d[k]] on a dict. *)
Definition getitem {V} (d : gmap string V) (k : string) : M V :=
  match d !! k with
  | Some v => ret v
  | None => raise KeyError
  end.

(** ** Logger *)

Definition Logger_log (lvl : Level) (msg : string) : M unit :=
  modify (fun w => set_logger (logger w ++ [(lvl, msg)]) w).

Definition Logger_error := Logger_log ERROR.
Definition Logger_info := Logger_log INFO.
Definition Logger_debug := Logger_log DEBUG.

(** ['%d' % n] *)
Definition fmt_d (n : Z) : string := pretty n.

(** ** ORM primitives *)

(** [Ticket.objects.get(id=...)] *)
Definition Ticket_objects_get (i : Z) : M Ticket :=
  fun w =>
    match db_ticket w !! i with
    | Some t => (Ok t, w)
    | None => (Raise ObjectDoesNotExist, w)
    end.

Definition Report_objects_get (i : Z) : M Report :=
  fun w =>
    match db_report w !! i with
    | Some r => (Ok r, w)
    | None => (Raise ObjectDoesNotExist, w)
    end.

Definition User_objects_get (i : Z) : M User :=
  fun w =>
    match db_user w !! i with
    | Some u => (Ok u, w)
    | None => (Raise ObjectDoesNotExist, w)
    end.

Definition BusinessRules_objects_get (name : string) : M RuleConfig :=
  fun w =>
    match db_businessrules w !! name with
    | Some r => (Ok r, w)
    | None => (Raise ObjectDoesNotExist, w)
    end.

(** [Tag.objects.get(name=...)] *)
Definition Tag_objects_get (name : string) : M string :=
  fun w =>
    if bool_decide (name ∈ db_tag w) then (Ok name, w)
    else (Raise ObjectDoesNotExist, w).

(** [ticket.save()] writes the fields of the in-memory object to its row. *)
Definition ticket_save (t : Ticket) : M unit :=
  modify (fun w => set_db_ticket (<[ticket_id t := t]> (db_ticket w)) w).

(** [ticket.jobs.all()] and [ticket.jobs.count()] query the relation. *)
Definition ticket_jobs (i : Z) (w : World) : list ServiceActionJob :=
  default [] (db_ticket_jobs w !! i).

Definition ticket_jobs_count (t : Ticket) : M Z :=
  gets (fun w => Z.of_nat (length (ticket_jobs (ticket_id t) w))).

(** [ticket.jobs.add(job)] writes the relation directly. *)
Definition ticket_jobs_add (t : Ticket) (j : ServiceActionJob) : M unit :=
  modify (fun w =>
    set_db_ticket_jobs
      (<[ticket_id t := ticket_jobs (ticket_id t) w ++ [j]]> (db_ticket_jobs w))
      w).

Definition ticket_tags (i : Z) (w : World) : list string :=
  default [] (db_ticket_tags w !! i).

(** [ticket.tags.add(tag)]: a many-to-many relation holds a tag once. *)
Definition ticket_tags_add (t : Ticket) (tag : string) : M unit :=
  modify (fun w =>
    let old := ticket_tags (ticket_id t) w in
    if bool_decide (tag ∈ old) then w
    else set_db_ticket_tags (<[ticket_id t := old ++ [tag]]> (db_ticket_tags w)) w).

Definition Comment_objects_create (u : User) (text : string) : M Comment :=
  fun w =>
    let c := mkComment u text in
    (Ok c, set_db_comment (db_comment w ++ [c]) w).

Definition TicketComment_objects_create (t : Ticket) (c : Comment) : M unit :=
  modify (fun w =>
    set_db_ticketcomment (db_ticketcomment w ++ [(ticket_id t, c)]) w).

(** Iteration of a loop body over a snapshot of rows; an exception in the
    body leaves the loop. *)
Fixpoint for_each {A} (l : list A) (body : A -> M unit) : M unit :=
  match l with
  | [] => ret tt
  | x :: r => body x >> for_each r body
  end.

(** ** The scheduler (rq-scheduler, seen through the calls the worker makes) *)

(** [job_id in utils.scheduler] *)
Definition in_scheduler (jid : string) (s : list SchedJob) : bool :=
  bool_decide (jid ∈ (sj_id <$> s)).

(** [utils.scheduler.cancel(job_id)]: removes the handle; an absent handle
    is not an error. *)
Definition scheduler_cancel (jid : string) : M unit :=
  modify (fun w =>
    set_scheduler (filter (fun j => sj_id j ≠ jid) (scheduler w)) w).

(** [a == n] for a keyword-argument value [a] and an integer [n]. *)
Definition py_eq_int (a : PyVal) (n : Z) : bool :=
  match a with
  | VInt z => z =? n
  | VBool b => (if b then 1 else 0) =? n
  | _ => false
  end.

(** ** Collaborators outside [worker/ticket.py] *)

(** Modelled from the spec: [database.log_action_on_ticket], absent from the
    sources; the audit log is append-only and never fails its caller. *)
Definition log_action_on_ticket (t : option Z) (action : string)
    (kw : list (string * PyVal)) : M unit :=
  modify (fun w => set_db_history (db_history w ++ [mkAudit t action kw]) w).

(** Modelled from the spec: [common.send_email], absent from the sources;
    the mailer contract is [send_email(ticket, recipient_list,
    template_codename, lang=?)]. *)
Definition send_email (t : Ticket) (recipients : list string)
    (template : string) (lg : option string) : M unit :=
  modify (fun w =>
    set_outbox (outbox w ++ [mkEmail (ticket_id t) recipients template lg]) w).

(** Modelled from the spec: [common.set_ticket_status], absent from the
    sources; a transition sets the status, resets the snooze fields when
    asked to, and is persisted. *)
Definition set_ticket_status (t : Ticket) (new_status : string)
    (reset_snooze : bool) : M Ticket :=
  let t1 := with_status new_status t in
  let t2 := if reset_snooze then with_snooze None None t1 else t1 in
  ticket_save t2 >> ret t2.

(** Modelled from the spec: a pending job is tied to a ticket when its handle
    is one of the ticket's jobs, or when its function name is one of the
    cancellable names and it was scheduled for that ticket id. *)
Definition scheduled_for_ticket (i : Z) (j : SchedJob) : bool :=
  bool_decide (func_name j ∈ ASYNC_JOB_TO_CANCEL)
  && match kwargs j !! "ticket_id" with
     | Some v => py_eq_int v i
     | None => false
     end.

Definition pending_job_of_ticket (i : Z) (handles : list string)
    (j : SchedJob) : bool :=
  bool_decide (sj_id j ∈ handles) || scheduled_for_ticket i j.

(** Modelled from the spec: [common.close_ticket], absent from the sources;
    closing cancels the still-pending jobs of the ticket and moves it to
    [Closed] with the given resolution. *)
Definition close_ticket (t : Ticket) (resolution_codename : string)
  : M Ticket :=
  modify (fun w =>
    let handles := asynchronousJobId <$> ticket_jobs (ticket_id t) w in
    set_scheduler
      (filter (fun j => pending_job_of_ticket (ticket_id t) handles j = false)
         (scheduler w)) w) >>
  set_ticket_status (with_resolution (Some resolution_codename) t) "Closed"
    false.

(** Modelled from the spec: [MailerServiceBase.close_thread], an external
    mailer operation. *)
Definition close_thread (t : Ticket) : M unit :=
  modify (fun w => set_closed_threads (closed_threads w ++ [ticket_id t]) w).

(** [settings.TAGS] and [settings.CODENAMES]: the entries the worker reads. *)
Record Settings := mkSettings {
  TAGS_phishing_autoclosed : string;
  TAGS_copyright_autoclosed : string;
  CODENAMES_fixed : string;
  CODENAMES_fixed_customer : string;
  CODENAMES_case_closed : string;
  CODENAMES_service_blocked : string;
  CODENAMES_ticket_closed : string
}.

(** What the worker is told by its surroundings: configuration, the action
    policy, the phishing checker, the clocks, the scheduler's answers for
    the job it dispatches, and the rule engine. *)
Record Env := mkEnv {
  (* django.conf.settings *)
  settings : Settings;
  (* common.BOT_USER *)
  BOT_USER : User;
  (* ActionServiceBase.get_action_for_timeout(ticket) *)
  get_action_for_timeout : Ticket -> option Action;
  (* phishing.is_all_down_for_ticket(ticket) *)
  is_all_down_for_ticket : Ticket -> bool;
  (* int(time()) at the start of a sweep *)
  time_now : Z;
  (* datetime.now() while the ticket of the given id is processed *)
  datetime_now : Z -> datetime;
  (* datetime.utcnow() *)
  datetime_utcnow : datetime;
  (* the id of the job returned by utils.scheduler.schedule *)
  new_job_id : string;
  (* async_job.is_finished at the n-th poll *)
  is_finished : nat -> bool;
  (* the truth value of async_job.result once the job is finished *)
  job_result : bool;
  (* workflows.engine.run on the report *)
  run : RuleConfig -> Report -> M bool
}.

(** ** [worker/ticket.py] *)

Section Worker.

Variable env : Env.

(** The name [ticket] read in an [except] clause whose [try] failed before
    assigning it: the local is unbound. *)
Definition unbound_local {A} : M A := raise UnboundLocalError.

Definition report_targets (rep : Report) : list string :=
  omap (fun itm => if bool_decide (itemType itm = "IP") then ip itm else None)
    (reportItemRelatedReport rep)
  ++ omap (fun itm =>
             if bool_decide (itemType itm ∈ ["FQDN"; "URL"])
             then fqdnResolved itm else None)
       (reportItemRelatedReport rep).

Definition get_ip_for_action (ticket : Ticket) : M (option string) :=
  let reports := reportTicket ticket in
  let ips := reports ≫= report_targets in
  let ips := remove_dups ips in
  if negb (length ips =? 1)%nat then
    Logger_error "Multiple or no IP on this ticket" >> ret None
  else ret (ips !! 0%nat).

Definition _check_timeout_ticket_conformance (ticket : Ticket) : M bool :=
  if negb (bool_decide (is_Some (defendant ticket)))
     || negb (bool_decide (is_Some (service ticket)))
  then
    Logger_error ("Ticket " +:+ fmt_d (ticket_id ticket)
                  +:+ " is invalid (no defendant/service), skipping...") >>
    ret false
  else if bool_decide (lower (status ticket) ∈ ["closed"; "answered"]) then
    Logger_error ("Ticket " +:+ fmt_d (ticket_id ticket)
      +:+ " is invalid (no defendant/service or not Alarm), Skipping...") >>
    ret false
  else if negb (bool_decide (lower (category_name (category ticket))
                               ∈ ["phishing"; "copyright"; "illegal"])) then
    Logger_error ("Ticket " +:+ fmt_d (ticket_id ticket)
      +:+ " is in wrong category (" +:+ category_name (category ticket)
      +:+ ", Skipping...") >>
    ret false
  else if bool_decide (is_Some (treatedBy ticket)) then
    Logger_error ("Ticket is " +:+ fmt_d (ticket_id ticket)
                  +:+ " assigned, skipping") >>
    ret false
  else
    let* n := ticket_jobs_count ticket in
    if negb (n =? 0) then
      Logger_error ("Ticket " +:+ fmt_d (ticket_id ticket)
                    +:+ " has existing jobs, exiting ...") >>
      ret false
    else ret true.

(** [while not async_job.is_finished: sleep(5)], with a bound on the number
    of polls; [k] counts the polls already made. *)
Fixpoint wait_finished (polls : nat) (k : nat) : M unit :=
  if is_finished env k then ret tt
  else match polls with
       | O => fun w => (Blocked, w)
       | S p => wait_finished p (S k)
       end.

(** The job handed to [utils.scheduler.schedule] by [_apply_timeout_action]:
    [action.apply_action], three seconds from now. *)
Definition scheduled_apply_action (ticket : Ticket) (ip_addr : string)
    (action : Action) : SchedJob :=
  mkSchedJob (new_job_id env) "action.apply_action"
    (list_to_map
       [("ticket_id", VInt (ticket_id ticket));
        ("action_id", VInt (action_id action));
        ("ip_addr", VStr ip_addr);
        ("user_id", VInt (user_id (BOT_USER env)))])
    (datetime_utcnow env + 3 * 1000000).

(** The row made by [ServiceActionJob.objects.create]. *)
Definition created_service_action_job (ticket : Ticket) (ip_addr : string)
    (action : Action) (async_job : SchedJob) : ServiceActionJob :=
  mkJob ip_addr action (sj_id async_job) None
    (datetime_now env (ticket_id ticket)).

Definition _apply_timeout_action (polls : nat) (ticket : Ticket)
    (ip_addr : string) (action : Action) : M (Ticket * bool) :=
  Logger_info ("Executing action " +:+ action_name action +:+ " for ticket "
               +:+ fmt_d (ticket_id ticket)) >>
  let ticket := with_action (Some action) ticket in
  log_action_on_ticket (Some (ticket_id ticket)) "set_action"
    [("action_name", VStr (action_name action))] >>
  ticket_save ticket >>
  let async_job := scheduled_apply_action ticket ip_addr action in
  modify (fun w => set_scheduler (scheduler w ++ [async_job]) w) >>
  Logger_info ("Task has " +:+ sj_id async_job +:+ " job id") >>
  let job := created_service_action_job ticket ip_addr action async_job in
  ticket_jobs_add ticket job >>
  wait_finished polls 0 >>
  ret (ticket, job_result env).

(** The [if]/[elif] at the head of [_add_timeout_tag]: the value of
    [tag_name]. *)
Definition timeout_tag_name (ticket : Ticket) : option string :=
  if bool_decide (lower (category_name (category ticket)) = "phishing")
  then Some (TAGS_phishing_autoclosed (settings env))
  else if bool_decide (lower (category_name (category ticket)) = "copyright")
  then Some (TAGS_copyright_autoclosed (settings env))
  else None.

Definition _add_timeout_tag (ticket : Ticket) : M unit :=
  let tag_name := timeout_tag_name ticket in
  match truthy_str tag_name with
  | Some name =>
      let* tag := Tag_objects_get name in
      ticket_tags_add ticket tag >>
      ticket_save ticket >>
      log_action_on_ticket (Some (ticket_id ticket)) "add_tag"
        [("tag_name", VStr name)]
  | None => ret tt
  end.

Definition _close_ticket (ticket : Ticket) (reason : string)
    (service_blocked : bool) : M unit :=
  let* providers_emails :=
    gets (fun w =>
      remove_dups
        (snd <$> filter (fun r => fst r = ticket_id ticket)
                   (db_contactedprovider w))) in
  send_email ticket providers_emails (CODENAMES_case_closed (settings env))
    None >>
  let template :=
    if service_blocked then CODENAMES_service_blocked (settings env)
    else CODENAMES_ticket_closed (settings env) in
  let* d := deref (defendant ticket) in
  send_email ticket [email (details d)] template (Some (lang (details d))) >>
  _add_timeout_tag ticket >>
  close_ticket ticket reason >>
  ret tt.

(** [timeout] once the ticket is loaded and has passed the conformance
    gate: the statements of [timeout] from the policy lookup on. *)
Definition timeout_after_gate (polls : nat) (ticket_id' : Z)
    (ticket : Ticket) : M unit :=
  match get_action_for_timeout env ticket with
  | None =>
      let* svc := deref (service ticket) in
      Logger_error ("Ticket " +:+ fmt_d ticket_id' +:+ " service "
        +:+ componentType svc +:+ ": action not found, exiting ...")
  | Some action =>
      if bool_decide (lower (category_name (category ticket)) = "phishing")
         && is_all_down_for_ticket env ticket
      then
        Logger_info ("All items are down for ticket " +:+ fmt_d ticket_id'
                     +:+ ", closing ticket") >>
        _close_ticket ticket (CODENAMES_fixed_customer (settings env)) false
      else
        let* ip_addr := get_ip_for_action ticket in
        match truthy_str ip_addr with
        | None =>
            Logger_error "Error while getting IP for action, exiting" >>
            let* ticket := set_ticket_status ticket "ActionError" true in
            let* comment :=
              Comment_objects_create (BOT_USER env)
                "None or multiple ip addresses for this ticket" in
            TicketComment_objects_create ticket comment >>
            log_action_on_ticket (Some (ticket_id ticket)) "add_comment" [] >>
            ticket_save ticket
        | Some addr =>
            let* (ticket, result) :=
              _apply_timeout_action polls ticket addr action in
            if negb result then
              Logger_debug "Error while executing service action, exiting"
            else
              Logger_info
                "All done, sending close notification to provider(s)" >>
              let* ticket := Ticket_objects_get (ticket_id ticket) in
              _close_ticket ticket (CODENAMES_fixed (settings env)) true
        end
  end.

Definition timeout (polls : nat) (ticket_id' : Z) : M unit :=
  let* found :=
    try_except
      (let* t := Ticket_objects_get ticket_id' in ret (Some t))
      [AttributeError; ObjectDoesNotExist; ValueError]
      (fun _ =>
         Logger_error ("Ticket " +:+ fmt_d ticket_id'
                       +:+ " cannot be found in DB. Skipping...") >>
         ret None) in
  match found with
  | None => ret tt
  | Some ticket =>
      let* conform := _check_timeout_ticket_conformance ticket in
      if negb conform then ret tt
      else timeout_after_gate polls ticket_id' ticket
  end.

(** The argument of [delay_jobs]: a [Ticket] instance or a ticket id. *)
Inductive TicketRef :=
| ByInstance (t : Ticket)
| ById (i : Z).

(** [utils.scheduler.change_execution_time(job, date)] *)
Definition change_execution_time (jid : string) (d : datetime) : M unit :=
  fun w =>
    if in_scheduler jid (scheduler w) then
      (Ok tt,
       set_scheduler
         ((fun j => if bool_decide (sj_id j = jid)
                    then mkSchedJob (sj_id j) (func_name j) (kwargs j) d
                    else j) <$> scheduler w) w)
    else (Raise ValueError, w).

Definition delay_jobs (ticket : TicketRef) (delay : option Z) (back : bool)
  : M unit :=
  match delay with
  | None => Logger_error "Missing delay. Skipping..."
  | Some 0 => Logger_error "Missing delay. Skipping..."
  | Some delay =>
    let* found :=
      match ticket with
      | ByInstance t => ret (Some t)
      | ById i =>
          try_except
            (let* t := Ticket_objects_get i in ret (Some t))
            [AttributeError; ObjectDoesNotExist; TypeError; ValueError]
            (fun _ =>
               Logger_error ("Ticket " +:+ fmt_d i
                             +:+ " cannot be found in DB. Skipping...") >>
               ret None)
      end in
    match found with
    | None => ret tt
    | Some ticket =>
      let* pending_jobs :=
        gets (fun w =>
          filter (fun j => scheduled_time j
                           <= datetime_utcnow env + 7 * 86400 * 1000000)
            (scheduler w)) in
      let pending_jobs : gmap string SchedJob :=
        foldl (fun m j => <[sj_id j := j]> m) ∅ pending_jobs in
      let* jobs := gets (ticket_jobs (ticket_id ticket)) in
      for_each jobs (fun job =>
        match pending_jobs !! asynchronousJobId job with
        | Some pending =>
            let current_date := scheduled_time pending in
            let new_date :=
              if back then current_date - delay else current_date + delay in
            change_execution_time (sj_id pending) new_date
        | None => ret tt
        end)
    end
  end.

Definition create_ticket_from_phishtocheck (report user : Z) : M unit :=
  let* report := Report_objects_get report in
  let* user := User_objects_get user in
  let* rule := BusinessRules_objects_get "phishing_up" in
  let conditions :=
    filter (fun cond => cond_name cond ∉ ["all_items_phishing"; "urls_down"])
      (conditions_all rule) in
  let config := mkRule conditions (rule_actions rule) in
  let* rule_applied := run env config report in
  if negb rule_applied then raise AssertionError
  else
    log_action_on_ticket (report_ticket report) "validate_phishtocheck"
      [("user", VUser user); ("report", VInt (report_id report))].

Definition with_job_status (s : string) (j : ServiceActionJob)
  : ServiceActionJob :=
  mkJob (job_ip j) (job_action j) (asynchronousJobId j) (Some s)
    (creationDate j).

(** [job.save()] for the [k]-th job of the ticket. *)
Definition job_save (i : Z) (k : nat) (j : ServiceActionJob) : M unit :=
  modify (fun w =>
    set_db_ticket_jobs
      (<[i := <[k := j]> (ticket_jobs i w)]> (db_ticket_jobs w)) w).

(** The first loop of [cancel_rq_scheduler_jobs], from the [k]-th job on. *)
Fixpoint cancel_ticket_jobs (i : Z) (status' : string) (k : nat)
    (jobs : list ServiceActionJob) : M unit :=
  match jobs with
  | [] => ret tt
  | job :: rest =>
      let* present :=
        gets (fun w => in_scheduler (asynchronousJobId job) (scheduler w)) in
      (if present then
         scheduler_cancel (asynchronousJobId job) >>
         job_save i k (with_job_status ("cancelled by " +:+ status') job)
       else ret tt) >>
      cancel_ticket_jobs i status' (S k) rest
  end.

(** The body of the second loop of [cancel_rq_scheduler_jobs]. *)
Definition cancel_pending_job (ticket : Ticket) (job : SchedJob) : M unit :=
  if bool_decide (func_name job ∈ ASYNC_JOB_TO_CANCEL) then
    let* tid := getitem (kwargs job) "ticket_id" in
    if py_eq_int tid (ticket_id ticket)
    then scheduler_cancel (sj_id job)
    else ret tt
  else ret tt.

Definition cancel_rq_scheduler_jobs (ticket_id' : Z) (status' : string)
  : M unit :=
  let* found :=
    try_except
      (let* t := Ticket_objects_get ticket_id' in ret (Some t))
      [AttributeError; ObjectDoesNotExist; TypeError; ValueError]
      (fun _ =>
         let* ticket := unbound_local (A := Ticket) in
         Logger_error ("Ticket " +:+ fmt_d (ticket_id ticket)
                       +:+ " cannot be found in DB. Skipping...") >>
         ret None) in
  match found with
  | None => ret tt
  | Some ticket =>
      let* jobs := gets (ticket_jobs (ticket_id ticket)) in
      cancel_ticket_jobs (ticket_id ticket) status' 0 jobs >>
      let* pending := gets scheduler in
      for_each pending (cancel_pending_job ticket)
  end.

Definition close_emails_thread (ticket_id' : Z) : M unit :=
  let* found :=
    try_except
      (let* t := Ticket_objects_get ticket_id' in ret (Some t))
      [AttributeError; ObjectDoesNotExist; TypeError; ValueError]
      (fun _ =>
         let* ticket := unbound_local (A := Ticket) in
         Logger_error ("Ticket " +:+ fmt_d (ticket_id ticket)
                       +:+ " cannot be found in DB. Skipping...") >>
         ret None) in
  match found with
  | None => ret tt
  | Some ticket => close_thread ticket
  end.

(** [order_by('-date')]: newest first; rows of equal date keep their
    relative order. *)
Fixpoint insert_by_date (h : History) (l : list History) : list History :=
  match l with
  | [] => [h]
  | x :: r =>
      if history_date x <=? history_date h then h :: l
      else x :: insert_by_date h r
  end.

Definition order_by_date_desc (l : list History) : list History :=
  foldr insert_by_date [] l.

(** The query at the head of [_check_auto_unassignation]. *)
Definition status_history (ticket : Ticket) : list string :=
  take 3
    (ticketStatus <$>
       order_by_date_desc
         (filter (fun h => actionType h = "ChangeStatus")
            (ticketHistory ticket))).

Definition _check_auto_unassignation (ticket : Ticket) : M Ticket :=
  let history := status_history ticket in
  try_except
    (let* user := deref (treatedBy ticket) in
     let* op :=
       match operator user with
       | Some o => ret o
       | None => raise ObjectDoesNotExist
       end in
     let* rl := deref (role op) in
     let* auth := getitem (modelsAuthorizations rl) "ticket" in
     let* unassigned_on_multiple_alarm :=
       getitem auth "unassignedOnMultipleAlarm" in
     if unassigned_on_multiple_alarm
        && (length history =? 3)%nat
        && forallb (fun i => bool_decide (STATUS_SEQUENCE !! i = history !! i))
             (seq 0 3)
     then
       log_action_on_ticket (Some (ticket_id ticket)) "change_treatedby"
         [("previous_value", VUser user)] >>
       log_action_on_ticket (Some (ticket_id ticket)) "update_property"
         [("property", VStr "escalated");
          ("previous_value", VBool (escalated ticket));
          ("new_value", VBool true)] >>
       let ticket := with_escalated true (with_treatedBy None ticket) in
       Logger_debug ("Unassigning ticket " +:+ fmt_d (ticket_id ticket)
                     +:+ " because of operator role configuration") >>
       ret ticket
     else ret ticket)
    [AttributeError; KeyError; ObjectDoesNotExist; ValueError]
    (fun _ => ret ticket).

(** An operand of [+] or [-]: arithmetic on [None] is a [TypeError]. *)
Definition operand (o : option Z) : M Z :=
  match o with
  | Some z => ret z
  | None => raise TypeError
  end.

(** [mktime(start.timetuple()) + duration] on nullable fields: [None] has no
    [timetuple] attribute, and a float plus [None] is a [TypeError]. *)
Definition deadline (start : option datetime) (duration : option Z) : M Z :=
  let* s := deref start in
  let* d := operand duration in
  ret (mktime s + d).

(** The body of the loop of [update_waiting]. *)
Definition update_waiting_ticket (now : Z) (ticket : Ticket) : M unit :=
  try_except
    (let* limit := deadline (snoozeStart ticket) (snoozeDuration ticket) in
     if now >? limit then
       Logger_debug ("Updating status for ticket "
                     +:+ fmt_d (ticket_id ticket) +:+ " ") >>
       let* ticket := _check_auto_unassignation ticket in
       set_ticket_status ticket ALARM true >>
       ret tt
     else ret tt)
    [AttributeError; ValueError]
    (fun ex =>
       Logger_debug ("Error while updating ticket "
                     +:+ fmt_d (ticket_id ticket) +:+ " : " +:+ Exn_name ex)).

(** [Ticket.objects.filter(status=...)], evaluated once. *)
Definition tickets_with_status (s : string) (w : World) : list Ticket :=
  filter (fun t => status t = s) (snd <$> map_to_list (db_ticket w)).

Definition update_waiting : M unit :=
  let now := time_now env in
  let* rows := gets (tickets_with_status WAITING) in
  for_each rows (update_waiting_ticket now).

(** Truthiness of a nullable integer field. *)
Definition truthy_int (o : option Z) : bool :=
  match o with
  | Some 0 => false
  | Some _ => true
  | None => false
  end.

(** The body of the loop of [update_paused]. *)
Definition update_paused_ticket (now : Z) (ticket : Ticket) : M unit :=
  try_except
    (let* limit := deadline (pauseStart ticket) (pauseDuration ticket) in
     if now >? limit then
       Logger_debug ("Updating status for ticket "
                     +:+ fmt_d (ticket_id ticket) +:+ " ") >>
       let* ticket :=
         if bool_decide (previousStatus ticket = WAITING)
            && truthy_int (snoozeDuration ticket)
            && bool_decide (is_Some (snoozeStart ticket))
         then
           let* d := operand (snoozeDuration ticket) in
           let* ps := operand (pauseStart ticket) in
           ret (with_snooze (snoozeStart ticket)
                  (Some (d + timedelta_seconds
                               (datetime_now env (ticket_id ticket)) ps))
                  ticket)
         else ret ticket in
       let* ticket := set_ticket_status ticket (previousStatus ticket) false in
       let ticket := with_pause None None ticket in
       ticket_save ticket
     else ret tt)
    [AttributeError; ValueError]
    (fun ex =>
       Logger_debug ("Error while updating ticket "
                     +:+ fmt_d (ticket_id ticket) +:+ " : " +:+ Exn_name ex)).

Definition update_paused : M unit :=
  let now := time_now env in
  let* rows := gets (tickets_with_status PAUSED) in
  for_each rows (update_paused_ticket now).

End Worker.

(** ** The presence sweep *)

(** The two columns that only [follow_the_sun] uses, kept beside the rows of
    the world, by id: [User.last_login] (no entry: no login recorded) and
    [Ticket.alarm] (no entry: the flag was never written). *)
Record Presence := mkPresence {
  last_login : gmap Z datetime;
  alarm : gmap Z bool
}.

(** Modelled from the spec: [user.ticketUser], the tickets of a user, that
    is the rows whose [treatedBy] is that user. *)
Definition ticketUser (user : User) (w : World) : list Ticket :=
  filter (fun t => user_id <$> treatedBy t = Some (user_id user))
    (snd <$> map_to_list (db_ticket w)).

(** The filter [where] of [follow_the_sun]: the status is none of [Open],
    [Reopened], [Paused] and [Closed]. *)
Definition sun_where (t : Ticket) : bool :=
  negb (bool_decide (status t = "Open"))
  && negb (bool_decide (status t = "Reopened"))
  && negb (bool_decide (status t = "Paused"))
  && negb (bool_decide (status t = "Closed")).

(** [queryset.update(alarm=b)] on the selected rows. *)
Definition update_alarm (rows : list Ticket) (b : bool) (p : Presence)
  : Presence :=
  mkPresence (last_login p)
    (foldr (fun t m => <[ticket_id t := b]> m) (alarm p) rows).

(** The body of the loop of [follow_the_sun]. *)
Definition follow_the_sun_user (now : Z) (user : User) (p : Presence)
  : M Presence :=
  let* ll := operand (last_login p !! user_id user : option datetime) in
  if now >? mktime (ll + 24 * 3600 * 1000000) then
    Logger_debug ("user " +:+ username user
                  +:+ " logged out, set alarm to True") >>
    let* rows := gets (ticketUser user) in
    ret (update_alarm (filter (fun t => sun_where t = true) rows) true p)
  else
    Logger_debug ("user " +:+ username user
                  +:+ " logged in, set alarm to False") >>
    let* rows := gets (ticketUser user) in
    ret (update_alarm (filter (fun t => sun_where t = true) rows) false p).

Fixpoint follow_the_sun_users (now : Z) (users : list User) (p : Presence)
  : M Presence :=
  match users with
  | [] => ret p
  | user :: rest =>
      let* p := follow_the_sun_user now user p in
      follow_the_sun_users now rest p
  end.

Definition follow_the_sun (env : Env) (p : Presence) : M Presence :=
  let now := time_now env in
  let* users :=
    gets (fun w =>
      filter (fun u => username u <> username (BOT_USER env))
        (snd <$> map_to_list (db_user w))) in
  follow_the_sun_users now users p.

(** * Specification-side notions *)

(** The target set of one item, in the words of the specification: the
    item's address when the item is an IP, the resolved address when it is
    an FQDN or a URL. *)
Definition item_target_set (itm : ReportItem) : gset string :=
  (if bool_decide (itemType itm = "IP")
   then from_option singleton ∅ (ip itm) else ∅)
  ∪ (if bool_decide (itemType itm = "FQDN" \/ itemType itm = "URL")
     then from_option singleton ∅ (fqdnResolved itm) else ∅).

(** The set of distinct target addresses over all the items of all the
    reports of a ticket. *)
Definition ticket_target_set (t : Ticket) : gset string :=
  ⋃ (item_target_set <$> (reportTicket t ≫= reportItemRelatedReport)).

(** The eligibility conditions of the gate, as the specification lists
    them. *)
Definition conformant (t : Ticket) (w : World) : Prop :=
  is_Some (defendant t) /\ is_Some (service t) /\
  (lower (status t) ∉ ["closed"; "answered"]) /\
  (lower (category_name (category t)) ∈ ["phishing"; "copyright"; "illegal"])
  /\ treatedBy t = None
  /\ ticket_jobs (ticket_id t) w = [].

Global Instance conformant_dec t w : Decision (conformant t w).
Proof. unfold conformant. apply _. Defined.

(** The comment [timeout] writes when no unique address is found. *)
Definition diagnostic_comment (env : Env) : Comment :=
  mkComment (BOT_USER env) "None or multiple ip addresses for this ticket".

(** The autoclose tag of a ticket, in the words of the specification: the
    phishing tag for a phishing ticket, the copyright tag for a copyright
    ticket, none for any other category. *)
Definition autoclose_tag (s : Settings) (t : Ticket) : option string :=
  if bool_decide (lower (category_name (category t)) = "phishing")
  then Some (TAGS_phishing_autoclosed s)
  else if bool_decide (lower (category_name (category t)) = "copyright")
  then Some (TAGS_copyright_autoclosed s)
  else None.

(** The two mails of [_close_ticket]: "case closed" to the distinct
    providers contacted about the ticket, and the closing template to the
    defendant. *)
Definition closing_mails (env : Env) (t : Ticket) (service_blocked : bool)
    (d : Defendant) (w : World) : list Email :=
  [ mkEmail (ticket_id t)
      (remove_dups
         (snd <$> filter (fun r => fst r = ticket_id t)
                    (db_contactedprovider w)))
      (CODENAMES_case_closed (settings env)) None;
    mkEmail (ticket_id t) [email (details d)]
      (if service_blocked then CODENAMES_service_blocked (settings env)
       else CODENAMES_ticket_closed (settings env))
      (Some (lang (details d))) ].

(** Every pending job with a cancellable function name was scheduled with
    a [ticket_id] keyword argument, as all the jobs this application
    schedules under those names are. *)
Definition scheduler_wf (s : list SchedJob) : Prop :=
  Forall (fun j => func_name j ∈ ASYNC_JOB_TO_CANCEL ->
                   is_Some (kwargs j !! "ticket_id")) s.

Global Instance scheduler_wf_dec s : Decision (scheduler_wf s).
Proof. unfold scheduler_wf. apply _. Defined.

(** [w'] differs from [w] at most in the jobs relation and in the
    scheduler. *)
Definition same_but_jobs_and_scheduler (w w' : World) : Prop :=
  set_db_ticket_jobs (db_ticket_jobs w) (set_scheduler (scheduler w) w') = w.

(** What [_apply_timeout_action] leaves behind once the job is seen
    finished. *)
Definition world_after_dispatch (env : Env) (t : Ticket) (addr : string)
    (action : Action) (w : World) : World :=
  set_db_ticket_jobs
    (<[ticket_id t :=
         ticket_jobs (ticket_id t) w
         ++ [created_service_action_job env t addr action
               (scheduled_apply_action env t addr action)]]>
       (db_ticket_jobs w))
    (set_scheduler (scheduler w ++ [scheduled_apply_action env t addr action])
       (set_db_ticket
          (<[ticket_id t := with_action (Some action) t]> (db_ticket w))
          (set_db_history
             (db_history w
              ++ [mkAudit (Some (ticket_id t)) "set_action"
                    [("action_name", VStr (action_name action))]])
             (set_logger
                (logger w
                 ++ [(INFO, "Executing action " +:+ action_name action
                            +:+ " for ticket " +:+ fmt_d (ticket_id t));
                     (INFO, "Task has " +:+ new_job_id env +:+ " job id")])
                w)))).

(** * Sample configuration and rows *)

Definition ex_settings : Settings :=
  mkSettings "phishing:autoclosed" "copyright:autoclosed" "fixed"
    "fixed_customer" "case_closed" "service_blocked" "ticket_closed".

Definition ex_bot : User := mkUser 0 "abuse.robot" None.

Definition ex_action : Action := mkAction 3 "block_service".

(** An environment whose policy always answers [ex_action], whose phishing
    checker answers [all_down], and whose dispatched job is seen finished at
    the third poll with the given result. *)
Definition ex_env (all_down result : bool) : Env :=
  mkEnv ex_settings ex_bot (fun _ => Some ex_action) (fun _ => all_down)
    1700000000 (fun _ => 1700000000 * 1000000) (1700000000 * 1000000)
    "job-1" (fun n => (2 <=? n)%nat) result (fun _ _ => ret true).

Definition ex_defendant : Defendant :=
  mkDefendant (mkDetails "customer@example.org" "EN").

(** Ticket 7, in [Alarm], unassigned, with one report holding the given
    items. *)
Definition ex_ticket (cat : string) (items : list ReportItem) : Ticket :=
  mkTicket 7 "Alarm" "Open" (mkCategory cat) (Some ex_defendant)
    (Some (mkService "HOSTING")) None false None None None None None None
    [mkReport 1 (Some 7) items] [].

Definition ex_world (t : Ticket) : World :=
  mkWorld {[ ticket_id t := t ]} ∅ ∅
    ["phishing:autoclosed"; "copyright:autoclosed"] [] []
    [(7, "abuse@isp.example")] ∅ ∅ ∅ [] [] [] [] [].

Definition one_ip : list ReportItem :=
  [mkItem "IP" (Some "1.2.3.4") None; mkItem "URL" None (Some "1.2.3.4")].

Definition two_ips : list ReportItem :=
  [mkItem "IP" (Some "1.2.3.4") None; mkItem "FQDN" None (Some "5.6.7.8")].

Definition ex_phishing_one : Ticket := ex_ticket "Phishing" one_ip.

Definition ex_copyright_two : Ticket := ex_ticket "Copyright" two_ips.

Definition ex_phishing_two : Ticket := ex_ticket "Phishing" two_ips.

(** An environment whose clocks all read [now] seconds after the epoch. *)
Definition ex_clock_env (now : Z) : Env :=
  mkEnv ex_settings ex_bot (fun _ => Some ex_action) (fun _ => false)
    now (fun _ => now * 1000000) (now * 1000000)
    "job-1" (fun n => (2 <=? n)%nat) true (fun _ _ => ret true).

(** Ticket 9: waiting for an answer with an hour of snooze when it was
    paused, at 1700000000, for twenty-five hours. *)
Definition ex_paused : Ticket :=
  mkTicket 9 "Paused" "WaitingAnswer" (mkCategory "Phishing")
    (Some ex_defendant) (Some (mkService "HOSTING")) None false
    (Some (1699990000 * 1000000)) (Some 3600)
    (Some (1700000000 * 1000000)) (Some 90000) None None [] [].

(** The flag [unassignedOnMultipleAlarm] of the role of the operator the
    ticket is assigned to, when every link of that chain exists. *)
Definition role_flag (t : Ticket) : option bool :=
  u ← treatedBy t;
  op ← operator u;
  r ← role op;
  auth ← modelsAuthorizations r !! "ticket";
  auth !! "unassignedOnMultipleAlarm".

(** Auto-unassignment is due: the three most recent status changes, newest
    first, are the alarm pattern and the role flag is set. *)
Definition auto_unassign_due (t : Ticket) : Prop :=
  status_history t = [WAITING; ALARM; WAITING] /\ role_flag t = Some true.

Global Instance auto_unassign_due_dec t : Decision (auto_unassign_due t).
Proof. unfold auto_unassign_due. apply _. Defined.

(** The two audit entries of an auto-unassignment. *)
Definition unassign_audit (t : Ticket) (u : User) : list AuditEntry :=
  [ mkAudit (Some (ticket_id t)) "change_treatedby"
      [("previous_value", VUser u)];
    mkAudit (Some (ticket_id t)) "update_property"
      [("property", VStr "escalated");
       ("previous_value", VBool (escalated t));
       ("new_value", VBool true)] ].

(** An operator whose role has the flag [unassignedOnMultipleAlarm] at the
    given value, and ticket 11 assigned to it, waiting, with a snooze of
    ten minutes started at 1700000000 and the given history. *)
Definition ex_operator (flag : bool) : User :=
  mkUser 4 "alice"
    (Some (mkOperator
             (Some (mkRole
                      {[ "ticket" := {[ "unassignedOnMultipleAlarm" := flag ]} ]})))).

Definition ex_waiting (flag : bool) (h : list History) : Ticket :=
  mkTicket 11 "WaitingAnswer" "Alarm" (mkCategory "Phishing")
    (Some ex_defendant) (Some (mkService "HOSTING"))
    (Some (ex_operator flag)) false
    (Some (1700000000 * 1000000)) (Some 600) None None None None [] h.

Definition ex_alarm_history : list History :=
  [ mkHistory 100 "ChangeStatus" "WaitingAnswer";
    mkHistory 300 "ChangeStatus" "WaitingAnswer";
    mkHistory 250 "AddComment" "";
    mkHistory 200 "ChangeStatus" "Alarm";
    mkHistory 50 "ChangeStatus" "Open" ].

(** Ticket 7 with two jobs, one whose handle the scheduler still holds and
    one whose handle is gone; the scheduler also holds a timeout job for
    ticket 7, one for ticket 8, and a job of another kind. *)
Definition ex_cancel_world : World :=
  mkWorld {[ 7 := ex_phishing_one ]}
    {[ 7 := [ mkJob "1.2.3.4" ex_action "job-a" None 1700000000;
              mkJob "1.2.3.4" ex_action "job-gone" None 1690000000 ] ]}
    ∅ [] [] [] [] ∅ ∅ ∅ [] []
    [ mkSchedJob "job-a" "action.apply_action" {[ "ticket_id" := VInt 7 ]}
        1700000003;
      mkSchedJob "job-t" "ticket.timeout" {[ "ticket_id" := VInt 7 ]}
        1700003600;
      mkSchedJob "job-x" "ticket.timeout" {[ "ticket_id" := VInt 8 ]}
        1700003600;
      mkSchedJob "job-y" "report.archive" ∅ 1700007200 ]
    [] [].

(** The row the sweep of waiting tickets saves for [t], if any: the ticket
    in [Alarm] with its snooze reset, unassigned when auto-unassignment is
    due. *)
Definition alarm_row (t : Ticket) : Ticket :=
  with_snooze None None
    (with_status ALARM
       (if decide (auto_unassign_due t)
        then with_escalated true (with_treatedBy None t) else t)).

Definition waiting_row_after (now : Z) (t : Ticket) : option Ticket :=
  match snoozeStart t, snoozeDuration t with
  | Some ss, Some sd =>
      if now >? mktime ss + sd then Some (alarm_row t) else None
  | _, _ => None
  end.

(** A started snooze has a duration. *)
Definition snooze_well_formed (t : Ticket) : Prop :=
  snoozeStart t = None \/ is_Some (snoozeDuration t).

(** Every row is stored under its own id. *)
Definition keys_consistent (w : World) : Prop :=
  forall i t, db_ticket w !! i = Some t -> ticket_id t = i.

(** * Notions and rows for the further properties *)

(** An environment whose policy has no action for any ticket. *)
Definition ex_env_no_policy : Env :=
  mkEnv ex_settings ex_bot (fun _ => None) (fun _ => true)
    1700000000 (fun _ => 1700000000 * 1000000) (1700000000 * 1000000)
    "job-1" (fun n => (2 <=? n)%nat) true (fun _ _ => ret true).

(** An environment whose dispatched job is never seen finished. *)
Definition ex_env_never_finished : Env :=
  mkEnv ex_settings ex_bot (fun _ => Some ex_action) (fun _ => false)
    1700000000 (fun _ => 1700000000 * 1000000) (1700000000 * 1000000)
    "job-1" (fun _ => false) true (fun _ _ => ret true).

(** The "case closed" mail of [_close_ticket] to the providers contacted
    about the ticket. *)
Definition provider_mail (env : Env) (t : Ticket) (w : World) : Email :=
  mkEmail (ticket_id t)
    (remove_dups
       (snd <$> filter (fun r => fst r = ticket_id t)
                  (db_contactedprovider w)))
    (CODENAMES_case_closed (settings env)) None.

(** The world of [ex_world] with an empty tag table. *)
Definition ex_world_no_tags (t : Ticket) : World :=
  mkWorld {[ ticket_id t := t ]} ∅ ∅ [] [] []
    [(7, "abuse@isp.example")] ∅ ∅ ∅ [] [] [] [] [].

(** Ticket 7 without a defendant. *)
Definition ex_no_defendant : Ticket :=
  mkTicket 7 "Alarm" "Open" (mkCategory "Phishing") None
    (Some (mkService "HOSTING")) None false None None None None None None
    [mkReport 1 (Some 7) one_ip] [].

(** The row [cancel_rq_scheduler_jobs] leaves for a job of the ticket, given
    the pending jobs [s] it started from: marked as cancelled, with the
    reason, when the handle of the job was pending. *)
Definition cancelled_row (status' : string) (s : list SchedJob)
    (job : ServiceActionJob) : ServiceActionJob :=
  if in_scheduler (asynchronousJobId job) s
  then with_job_status ("cancelled by " +:+ status') job
  else job.

(** [ex_cancel_world] with one more pending job: a timeout job scheduled
    without a [ticket_id] argument. *)
Definition ex_cancel_world_bad_job : World :=
  set_scheduler
    (scheduler ex_cancel_world ++ [mkSchedJob "job-z" "ticket.timeout" ∅ 0])
    ex_cancel_world.

(** The horizon of [delay_jobs]: it asks the scheduler for the jobs due
    within seven days. *)
Definition delay_horizon (env : Env) : datetime :=
  datetime_utcnow env + 7 * 86400 * 1000000.

(** What [delay_jobs] makes of a pending job, given the handles recorded on
    the ticket: a job of the ticket due within the horizon is moved by the
    delay, earlier when [back] is set and later otherwise; any other job is
    kept. *)
Definition delayed_job (env : Env) (handles : list string) (delay : Z)
    (back : bool) (j : SchedJob) : SchedJob :=
  if bool_decide (sj_id j ∈ handles)
     && bool_decide (scheduled_time j <= delay_horizon env)
  then mkSchedJob (sj_id j) (func_name j) (kwargs j)
         (if back then scheduled_time j - delay else scheduled_time j + delay)
  else j.

(** Ticket 7 with one job, whose handle the scheduler holds, due one hour
    after the clock of [ex_env]; the scheduler also holds a job of ticket
    8. *)
Definition ex_delay_world : World :=
  mkWorld {[ 7 := ex_phishing_one ]}
    {[ 7 := [ mkJob "1.2.3.4" ex_action "job-a" None 1700000000 ] ]}
    ∅ [] [] [] [] ∅ ∅ ∅ [] []
    [ mkSchedJob "job-a" "action.apply_action" {[ "ticket_id" := VInt 7 ]}
        (1700003600 * 1000000);
      mkSchedJob "job-x" "ticket.timeout" {[ "ticket_id" := VInt 8 ]}
        (1700003600 * 1000000) ]
    [] [].

(** A started pause has a duration. *)
Definition pause_well_formed (t : Ticket) : Prop :=
  pauseStart t = None \/ is_Some (pauseDuration t).

(** The row the sweep of paused tickets saves for a ticket paused since
    [ps] whose pause is over: the previous status is restored and the pause
    fields are cleared; a ticket that was waiting with a running snooze has
    its snooze extended by the [seconds] component of the time elapsed
    since [ps]. *)
Definition unpaused_row (env : Env) (ps : datetime) (t : Ticket) : Ticket :=
  with_pause None None
    (with_status (previousStatus t)
       (match snoozeDuration t with
        | Some d =>
            if bool_decide (previousStatus t = WAITING)
               && truthy_int (Some d)
               && bool_decide (is_Some (snoozeStart t))
            then with_snooze (snoozeStart t)
                   (Some (d + timedelta_seconds
                                (datetime_now env (ticket_id t)) ps)) t
            else t
        | None => t
        end)).

Definition paused_row_after (env : Env) (now : Z) (t : Ticket)
  : option Ticket :=
  match pauseStart t, pauseDuration t with
  | Some ps, Some pd =>
      if now >? mktime ps + pd then Some (unpaused_row env ps t) else None
  | _, _ => None
  end.

(** Ticket 11 waiting with a snooze that has a start and no duration, and
    ticket 9 paused with a pause that has a start and no duration. *)
Definition ex_waiting_no_duration : Ticket :=
  mkTicket 11 "WaitingAnswer" "Alarm" (mkCategory "Phishing")
    (Some ex_defendant) (Some (mkService "HOSTING")) None false
    (Some (1700000000 * 1000000)) None None None None None [] [].

Definition ex_paused_no_duration : Ticket :=
  mkTicket 9 "Paused" "WaitingAnswer" (mkCategory "Phishing")
    (Some ex_defendant) (Some (mkService "HOSTING")) None false
    None None (Some (1700000000 * 1000000)) None None None [] [].

(** Every user row is stored under its own id. *)
Definition users_consistent (w : World) : Prop :=
  forall k u, db_user w !! k = Some u -> user_id u = k.

(** The user whose presence decides the alarm of a ticket, if any: the
    operator the ticket is assigned to, when its row exists and is not the
    bot's and the status of the ticket is one the sweep looks at. *)
Definition sun_user (env : Env) (w : World) (t : Ticket) : option User :=
  u0 ← treatedBy t;
  u ← db_user w !! user_id u0;
  if bool_decide (username u <> username (BOT_USER env)) && sun_where t
  then Some u else None.

(** Alice (user 4) and the bot (user 0); ticket 11 is Alice's and waiting,
    ticket 12 is Alice's and open, ticket 13 is the bot's. *)
Definition ex_sun_world : World :=
  mkWorld
    {[ 11 := ex_waiting true [];
       12 := mkTicket 12 "Open" "" (mkCategory "Phishing") None None
               (Some (ex_operator true)) false None None None None None None
               [] [];
       13 := mkTicket 13 "Alarm" "" (mkCategory "Phishing") None None
               (Some ex_bot) false None None None None None None [] [] ]}
    ∅ ∅ [] [] [] [] ∅
    {[ 0 := ex_bot; 4 := ex_operator true ]}
    ∅ [] [] [] [] [].

(** Alice logged in at 1700000000; ticket 12 carries a stale alarm. *)
Definition ex_presence : Presence :=
  mkPresence {[ 4 := 1700000000 * 1000000 ]} {[ 12 := true ]}.

(** A condition the validation of a PhishToCheck report leaves out. *)
Definition skipped_condition (c : Cond) : Prop :=
  cond_name c = "all_items_phishing" \/ cond_name c = "urls_down".

(** An environment whose rule engine applies a rule only when it has no
    [urls_down] condition. *)
Definition ex_env_strict : Env :=
  mkEnv ex_settings ex_bot (fun _ => Some ex_action) (fun _ => false)
    1700000000 (fun _ => 1700000000 * 1000000) (1700000000 * 1000000)
    "job-1" (fun n => (2 <=? n)%nat) true
    (fun cfg _ =>
       ret (forallb (fun c => negb (bool_decide (cond_name c = "urls_down")))
              (conditions_all cfg))).

(** Report 1 of ticket 7, the bot user, and a rule [phishing_up] with three
    conditions, two of which the validation leaves out. *)
Definition ex_phish_world : World :=
  mkWorld {[ 7 := ex_phishing_one ]} ∅ ∅ [] [] [] []
    {[ 1 := mkReport 1 (Some 7) one_ip ]}
    {[ 0 := ex_bot ]}
    {[ "phishing_up" :=
         mkRule [ mkCond "all_items_phishing" (VBool true);
                  mkCond "has_defendant" (VBool true);
                  mkCond "urls_down" (VBool false) ]
           ["attach_report_to_ticket"] ]}
    [] [] [] [] [].

(** The configuration [create_ticket_from_phishtocheck] hands to the rule
    engine: the stored rule without the conditions it leaves out. *)
Definition validation_config (rule : RuleConfig) : RuleConfig :=
  mkRule (filter (fun c => ~ skipped_condition c) (conditions_all rule))
    (rule_actions rule).

(** Ticket 9 again, paused at 1700000000 for half an hour while it was
    waiting with an hour of snooze started 1000 seconds earlier. *)
Definition ex_paused_short : Ticket :=
  mkTicket 9 "Paused" "WaitingAnswer" (mkCategory "Phishing")
    (Some ex_defendant) (Some (mkService "HOSTING")) None false
    (Some (1699999000 * 1000000)) (Some 3600)
    (Some (1700000000 * 1000000)) (Some 1800) None None [] [].

(** * Properties *)

(** ** Running computations *)

(** Reduces the field updates of a world to the constructor, innermost
    update first, unfolding nothing else. *)
Ltac world_fields :=
  cbv [set_db_ticket set_db_ticket_jobs set_db_ticket_tags set_db_comment
       set_db_ticketcomment set_db_history set_logger set_scheduler
       set_outbox set_closed_threads
       db_ticket db_ticket_jobs db_ticket_tags db_tag db_comment
       db_ticketcomment db_contactedprovider db_report db_user
       db_businessrules db_history logger scheduler outbox closed_threads
       fst snd].

(** Runs the primitive steps of the worker monad. *)
Ltac run_steps :=
  cbv [bind ret gets modify raise deref operand getitem
       Logger_error Logger_info Logger_debug Logger_log
       ticket_save ticket_jobs_add ticket_jobs_count
       Comment_objects_create TicketComment_objects_create
       log_action_on_ticket send_email set_ticket_status close_thread
       scheduler_cancel job_save];
  world_fields.

(** Closed instances are settled by evaluating the decision procedure. *)
Ltac by_evaluation :=
  match goal with
  | |- ?P => apply (bool_decide_eq_true_1 P); vm_compute; reflexivity
  end.

Lemma bind_ok {A B} (c : M A) (k : A -> M B) w a w' :
  c w = (Ok a, w') -> bind c k w = k a w'.
Proof. intros H. unfold bind. now rewrite H. Qed.

Lemma bind_raise {A B} (c : M A) (k : A -> M B) w e w' :
  c w = (Raise e, w') -> bind c k w = (Raise e, w').
Proof. intros H. unfold bind. now rewrite H. Qed.

Lemma try_except_ok {A} (c : M A) handled h w a w' :
  c w = (Ok a, w') -> try_except c handled h w = (Ok a, w').
Proof. intros H. unfold try_except. now rewrite H. Qed.

Lemma Ticket_objects_get_found i t w :
  db_ticket w !! i = Some t -> Ticket_objects_get i w = (Ok t, w).
Proof. intros H. unfold Ticket_objects_get. now rewrite H. Qed.

Lemma Ticket_objects_get_missing i w :
  db_ticket w !! i = None ->
  Ticket_objects_get i w = (Raise ObjectDoesNotExist, w).
Proof. intros H. unfold Ticket_objects_get. now rewrite H. Qed.

(** ** The conformance gate *)

Lemma gate_accepts t w :
  conformant t w -> _check_timeout_ticket_conformance t w = (Ok true, w).
Proof.
  intros (Hd & Hs & Hst & Hc & Ht & Hj).
  unfold _check_timeout_ticket_conformance.
  rewrite !bool_decide_eq_true_2 by assumption. simpl.
  rewrite (bool_decide_eq_false_2 _ Hst).
  rewrite (bool_decide_eq_true_2 _ Hc). simpl.
  rewrite Ht. simpl.
  unfold bind, ticket_jobs_count, gets. rewrite Hj. reflexivity.
Qed.

Lemma gate_rejects t w :
  ~ conformant t w ->
  exists msg,
    _check_timeout_ticket_conformance t w
    = (Ok false, set_logger (logger w ++ [(ERROR, msg)]) w).
Proof.
  intros Hn. unfold _check_timeout_ticket_conformance.
  destruct (decide (is_Some (defendant t))) as [Hd|Hd];
    [rewrite (bool_decide_eq_true_2 _ Hd)
    |rewrite (bool_decide_eq_false_2 _ Hd); simpl; eauto].
  destruct (decide (is_Some (service t))) as [Hs|Hs];
    [rewrite (bool_decide_eq_true_2 _ Hs)
    |rewrite (bool_decide_eq_false_2 _ Hs); simpl; eauto].
  simpl.
  destruct (decide (lower (status t) ∈ ["closed"; "answered"])) as [Hst|Hst];
    [rewrite (bool_decide_eq_true_2 _ Hst); eauto
    |rewrite (bool_decide_eq_false_2 _ Hst)].
  destruct (decide (lower (category_name (category t))
                      ∈ ["phishing"; "copyright"; "illegal"])) as [Hc|Hc];
    [rewrite (bool_decide_eq_true_2 _ Hc)
    |rewrite (bool_decide_eq_false_2 _ Hc); simpl; eauto].
  simpl.
  destruct (treatedBy t) as [u|] eqn:Ht.
  { rewrite bool_decide_eq_true_2 by eauto. eauto. }
  rewrite bool_decide_eq_false_2 by (intros [? ?]; discriminate).
  unfold bind, ticket_jobs_count, gets.
  destruct (ticket_jobs (ticket_id t) w) as [|j js] eqn:Hj.
  { exfalso. apply Hn. unfold conformant. rewrite Ht, Hj. tauto. }
  simpl. eauto.
Qed.

Lemma loads_ticket i t w handled h :
  db_ticket w !! i = Some t ->
  try_except (let* t0 := Ticket_objects_get i in ret (Some t0)) handled h w
  = (Ok (Some t), w).
Proof.
  intros Hrow. apply try_except_ok.
  now rewrite (bind_ok _ _ _ _ _ (Ticket_objects_get_found _ _ _ Hrow)).
Qed.

Lemma timeout_passes_gate env polls i t w :
  db_ticket w !! i = Some t -> conformant t w ->
  timeout env polls i w = timeout_after_gate env polls i t w.
Proof.
  intros Hrow Hc. unfold timeout.
  rewrite (bind_ok _ _ _ _ _ (loads_ticket i t w _ _ Hrow)).
  now rewrite (bind_ok _ _ _ _ _ (gate_accepts t w Hc)).
Qed.

Lemma timeout_stops_at_gate env polls i t w :
  db_ticket w !! i = Some t -> ~ conformant t w ->
  exists msg,
    timeout env polls i w
    = (Ok tt, set_logger (logger w ++ [(ERROR, msg)]) w).
Proof.
  intros Hrow Hc. destruct (gate_rejects t w Hc) as [msg Hm].
  exists msg. unfold timeout.
  rewrite (bind_ok _ _ _ _ _ (loads_ticket i t w _ _ Hrow)).
  now rewrite (bind_ok _ _ _ _ _ Hm).
Qed.

(** C1. Timeout processing passes the conformance gate exactly when the
    ticket has a defendant and a service, a status that is neither closed
    nor answered, a category among phishing, copyright and illegal, no
    assigned operator and no job; a conformant ticket continues with the
    statements after the gate, and for any other ticket [timeout] returns
    normally and the world differs from the initial one by one logged
    error only. *)
Theorem timeout_conformance_gate env polls i t w :
  db_ticket w !! i = Some t ->
  (fst (_check_timeout_ticket_conformance t w) = Ok true <-> conformant t w)
  /\ (conformant t w ->
      timeout env polls i w = timeout_after_gate env polls i t w)
  /\ (~ conformant t w ->
      exists msg,
        timeout env polls i w
        = (Ok tt, set_logger (logger w ++ [(ERROR, msg)]) w)).
Proof.
  intros Hrow. split; [|split].
  - split.
    + intros Hok. destruct (decide (conformant t w)) as [Hc|Hc]; [exact Hc|].
      destruct (gate_rejects t w Hc) as [msg Hm]. rewrite Hm in Hok.
      discriminate.
    + intros Hc. now rewrite (gate_accepts t w Hc).
  - now apply timeout_passes_gate.
  - now apply timeout_stops_at_gate.
Qed.

Lemma timeout_conformance_gate_witness :
  db_ticket (ex_world (ex_ticket "Phishing" one_ip)) !! 7
  = Some (ex_ticket "Phishing" one_ip)
  /\ ((fst (_check_timeout_ticket_conformance (ex_ticket "Phishing" one_ip)
             (ex_world (ex_ticket "Phishing" one_ip))) = Ok true
       <-> conformant (ex_ticket "Phishing" one_ip)
             (ex_world (ex_ticket "Phishing" one_ip)))
      /\ (conformant (ex_ticket "Phishing" one_ip)
            (ex_world (ex_ticket "Phishing" one_ip)) ->
          timeout (ex_env false true) 2 7
            (ex_world (ex_ticket "Phishing" one_ip))
          = timeout_after_gate (ex_env false true) 2 7
              (ex_ticket "Phishing" one_ip)
              (ex_world (ex_ticket "Phishing" one_ip)))
      /\ (~ conformant (ex_ticket "Phishing" one_ip)
              (ex_world (ex_ticket "Phishing" one_ip)) ->
          exists msg,
            timeout (ex_env false true) 2 7
              (ex_world (ex_ticket "Phishing" one_ip))
            = (Ok tt,
               set_logger
                 (logger (ex_world (ex_ticket "Phishing" one_ip))
                  ++ [(ERROR, msg)])
                 (ex_world (ex_ticket "Phishing" one_ip))))).
Proof.
  split; [reflexivity|].
  apply (timeout_conformance_gate (ex_env false true) 2 7
           (ex_ticket "Phishing" one_ip)
           (ex_world (ex_ticket "Phishing" one_ip))).
  reflexivity.
Defined.

(** The rejections listed by the specification, one condition at a time:
    no defendant, status [Closed], category [spam], an assigned operator,
    an existing job.  Each leaves [timeout] with one logged error. *)
Example gate_rejections :
  fst (_check_timeout_ticket_conformance
         (mkTicket 7 "Alarm" "Open" (mkCategory "Phishing") None
            (Some (mkService "HOSTING")) None false None None None None None
            None [] [])
         (ex_world ex_phishing_one)) = Ok false
  /\ fst (_check_timeout_ticket_conformance
            (with_status "Closed" ex_phishing_one)
            (ex_world ex_phishing_one)) = Ok false
  /\ fst (_check_timeout_ticket_conformance (ex_ticket "spam" one_ip)
            (ex_world ex_phishing_one)) = Ok false
  /\ fst (_check_timeout_ticket_conformance
            (with_treatedBy (Some ex_bot) ex_phishing_one)
            (ex_world ex_phishing_one)) = Ok false
  /\ fst (_check_timeout_ticket_conformance ex_phishing_one ex_cancel_world)
     = Ok false
  /\ timeout (ex_env false true) 2 7 ex_cancel_world
     = (Ok tt,
        set_logger [(ERROR, "Ticket 7 has existing jobs, exiting ...")]
          ex_cancel_world).
Proof. repeat split. Qed.

(** ** Resolution of the target address *)

Lemma elem_of_report_targets rep x :
  x ∈ report_targets rep <->
  exists itm, itm ∈ reportItemRelatedReport rep /\ x ∈ item_target_set itm.
Proof.
  unfold report_targets, item_target_set.
  rewrite elem_of_app, !list_elem_of_omap. split.
  - intros [(itm & Hin & Hf)|(itm & Hin & Hf)]; exists itm; split; try done.
    + destruct (decide (itemType itm = "IP")) as [Hty|Hty].
      * rewrite (bool_decide_eq_true_2 _ Hty) in Hf |- *. rewrite Hf.
        set_solver.
      * now rewrite (bool_decide_eq_false_2 _ Hty) in Hf.
    + destruct (decide (itemType itm ∈ ["FQDN"; "URL"])) as [Hty|Hty].
      * rewrite (bool_decide_eq_true_2 _ Hty) in Hf.
        assert (Hor : itemType itm = "FQDN" \/ itemType itm = "URL")
          by set_solver.
        rewrite (bool_decide_eq_true_2 _ Hor), Hf. set_solver.
      * now rewrite (bool_decide_eq_false_2 _ Hty) in Hf.
  - intros (itm & Hin & Hx). apply elem_of_union in Hx as [Hx|Hx].
    + left. exists itm. split; [done|].
      destruct (decide (itemType itm = "IP")) as [Hty|Hty].
      * rewrite (bool_decide_eq_true_2 _ Hty) in Hx |- *.
        destruct (ip itm); set_solver.
      * rewrite (bool_decide_eq_false_2 _ Hty) in Hx. set_solver.
    + right. exists itm. split; [done|].
      destruct (decide (itemType itm = "FQDN" \/ itemType itm = "URL"))
        as [Hor|Hor].
      * rewrite (bool_decide_eq_true_2 _ Hor) in Hx.
        assert (Hty : itemType itm ∈ ["FQDN"; "URL"]) by set_solver.
        rewrite (bool_decide_eq_true_2 _ Hty).
        destruct (fqdnResolved itm); set_solver.
      * rewrite (bool_decide_eq_false_2 _ Hor) in Hx. set_solver.
Qed.

Lemma elem_of_ticket_targets t x :
  x ∈ reportTicket t ≫= report_targets <-> x ∈ ticket_target_set t.
Proof.
  unfold ticket_target_set.
  rewrite list_elem_of_bind, elem_of_union_list. split.
  - intros (rep & Hx & Hrep).
    apply elem_of_report_targets in Hx as (itm & Hitm & Hx).
    exists (item_target_set itm). split; [|done].
    apply list_elem_of_fmap. exists itm. split; [done|].
    apply list_elem_of_bind. eauto.
  - intros (X & HX & Hx).
    apply list_elem_of_fmap in HX as (itm & -> & Hitm).
    apply list_elem_of_bind in Hitm as (rep & Hitm & Hrep).
    exists rep. split; [|done]. apply elem_of_report_targets. eauto.
Qed.

Lemma remove_dups_singleton (l : list string) a :
  remove_dups l = [a] <-> (forall x, x ∈ l <-> x = a).
Proof.
  split.
  - intros Hl x. rewrite <- elem_of_remove_dups, Hl. set_solver.
  - intros Hl.
    assert (Hnd := NoDup_remove_dups l).
    assert (Hin : forall x, x ∈ remove_dups l <-> x = a).
    { intros x. now rewrite elem_of_remove_dups. }
    destruct (remove_dups l) as [|b [|c r]].
    + exfalso. apply (not_elem_of_nil a). now apply Hin.
    + f_equal. apply Hin. set_solver.
    + exfalso. assert (b = a) by (apply Hin; set_solver).
      assert (c = a) by (apply Hin; set_solver). subst.
      apply NoDup_cons in Hnd as [Hnd _]. set_solver.
Qed.

Lemma target_set_singleton t a :
  ticket_target_set t = {[a]} <->
  remove_dups (reportTicket t ≫= report_targets) = [a].
Proof.
  rewrite remove_dups_singleton. split.
  - intros Hs x. rewrite elem_of_ticket_targets, Hs. set_solver.
  - intros Hl. apply set_eq. intros x.
    rewrite <- elem_of_ticket_targets, Hl. set_solver.
Qed.

Lemma target_set_size t :
  size (ticket_target_set t) = 1%nat <->
  exists a, remove_dups (reportTicket t ≫= report_targets) = [a].
Proof.
  split.
  - intros Hs. apply size_1_elem_of in Hs as [a Ha].
    exists a. apply target_set_singleton. now apply leibniz_equiv.
  - intros [a Ha]. apply target_set_singleton in Ha. rewrite Ha.
    apply size_singleton.
Qed.

(** What [get_ip_for_action] returns, by the shape of the deduplicated
    list. *)
Lemma get_ip_for_action_one t w a :
  remove_dups (reportTicket t ≫= report_targets) = [a] ->
  get_ip_for_action t w = (Ok (Some a), w).
Proof. intros H. unfold get_ip_for_action. now rewrite H. Qed.

Lemma get_ip_for_action_none t w :
  (forall a, remove_dups (reportTicket t ≫= report_targets) <> [a]) ->
  get_ip_for_action t w
  = (Ok None,
     set_logger (logger w ++ [(ERROR, "Multiple or no IP on this ticket")]) w).
Proof.
  intros H. unfold get_ip_for_action.
  destruct (remove_dups (reportTicket t ≫= report_targets)) as [|b [|c r]];
    try reflexivity.
  now destruct (H b).
Qed.

(** C4. [get_ip_for_action] returns an address exactly when the set of
    distinct target addresses of the ticket (the address of every IP item,
    the resolved address of every FQDN or URL item) is a singleton, and then
    it returns the element of that set; it returns [None] exactly when that
    set has zero or at least two elements; it never raises. *)
Theorem get_ip_for_action_unique t w :
  (forall addr,
     fst (get_ip_for_action t w) = Ok (Some addr)
     <-> ticket_target_set t = {[addr]})
  /\ (fst (get_ip_for_action t w) = Ok None
      <-> size (ticket_target_set t) <> 1%nat)
  /\ (exists r, fst (get_ip_for_action t w) = Ok r).
Proof.
  destruct (decide (size (ticket_target_set t) = 1%nat)) as [Hs|Hs].
  - destruct (proj1 (target_set_size t) Hs) as [a Ha].
    rewrite (get_ip_for_action_one t w a Ha). simpl.
    split; [|split].
    + intros addr. rewrite target_set_singleton, Ha. split; congruence.
    + split; [discriminate|congruence].
    + eauto.
  - assert (Hn : forall a,
               remove_dups (reportTicket t ≫= report_targets) <> [a]).
    { intros a Ha. apply Hs, target_set_size. eauto. }
    rewrite (get_ip_for_action_none t w Hn). simpl.
    split; [|split].
    + intros addr. split; [discriminate|].
      intros Ha. apply target_set_singleton in Ha. now destruct (Hn addr).
    + tauto.
    + eauto.
Qed.

(** The two cases of the specification: one address, reported twice, is
    resolved; two distinct addresses are not. *)
Example get_ip_for_action_samples :
  fst (get_ip_for_action ex_phishing_one (ex_world ex_phishing_one))
  = Ok (Some "1.2.3.4")
  /\ fst (get_ip_for_action ex_phishing_two (ex_world ex_phishing_two))
     = Ok None.
Proof. split; reflexivity. Qed.

(** ** Timeout without a unique target *)

Lemma no_shortcut_test env t :
  ~ (lower (category_name (category t)) = "phishing"
     /\ is_all_down_for_ticket env t = true) ->
  bool_decide (lower (category_name (category t)) = "phishing")
  && is_all_down_for_ticket env t = false.
Proof.
  intros H. case_bool_decide as Hp; [|reflexivity]. simpl.
  destruct (is_all_down_for_ticket env t); [|reflexivity]. tauto.
Qed.

Lemma timeout_ambiguous_target_world env polls i t w action :
  db_ticket w !! i = Some t ->
  conformant t w ->
  get_action_for_timeout env t = Some action ->
  ~ (lower (category_name (category t)) = "phishing"
     /\ is_all_down_for_ticket env t = true) ->
  size (ticket_target_set t) <> 1%nat ->
  timeout env polls i w
  = (Ok tt,
     set_db_ticket
       (<[ticket_id t := with_snooze None None (with_status "ActionError" t)]>
          (db_ticket w))
       (set_db_history
          (db_history w ++ [mkAudit (Some (ticket_id t)) "add_comment" []])
          (set_db_ticketcomment
             (db_ticketcomment w ++ [(ticket_id t, diagnostic_comment env)])
             (set_db_comment (db_comment w ++ [diagnostic_comment env])
                (set_logger
                   (logger w
                    ++ [(ERROR, "Multiple or no IP on this ticket");
                        (ERROR, "Error while getting IP for action, exiting")])
                   w))))).
Proof.
  intros Hrow Hc Hact Hshort Hsize.
  rewrite (timeout_passes_gate env polls i t w Hrow Hc).
  unfold timeout_after_gate. rewrite Hact, (no_shortcut_test env t Hshort).
  assert (Hn : forall a,
             remove_dups (reportTicket t ≫= report_targets) <> [a]).
  { intros a Ha. apply Hsize, target_set_size. eauto. }
  rewrite (bind_ok _ _ _ _ _ (get_ip_for_action_none t w Hn)).
  unfold diagnostic_comment. cbn. run_steps.
  rewrite insert_insert_eq, <- app_assoc. reflexivity.
Qed.

(** C5. For a ticket that passed the gate, has a policy action and is not
    closed by the all-down shortcut: when the distinct target addresses
    are none or several, [timeout] returns normally; the ticket is saved
    with status [ActionError]; one diagnostic comment by the bot user is
    created and attached to the ticket, and an [add_comment] entry for the
    ticket ends the audit trail; processing stops there: no job is
    scheduled, none is attached to the ticket, no mail is sent and the
    ticket is neither closed nor tagged. *)
Theorem timeout_ambiguous_target env polls i t w action :
  db_ticket w !! i = Some t ->
  conformant t w ->
  get_action_for_timeout env t = Some action ->
  ~ (lower (category_name (category t)) = "phishing"
     /\ is_all_down_for_ticket env t = true) ->
  size (ticket_target_set t) <> 1%nat ->
  exists w' t',
    timeout env polls i w = (Ok tt, w')
    /\ db_ticket w' !! ticket_id t = Some t'
    /\ status t' = "ActionError"
    /\ db_comment w' = db_comment w ++ [diagnostic_comment env]
    /\ db_ticketcomment w'
       = db_ticketcomment w ++ [(ticket_id t, diagnostic_comment env)]
    /\ last (db_history w')
       = Some (mkAudit (Some (ticket_id t)) "add_comment" [])
    /\ scheduler w' = scheduler w
    /\ db_ticket_jobs w' = db_ticket_jobs w
    /\ db_ticket_tags w' = db_ticket_tags w
    /\ outbox w' = outbox w.
Proof.
  intros Hrow Hc Hact Hshort Hsize.
  eexists. eexists. split.
  { apply (timeout_ambiguous_target_world env polls i t w action);
      assumption. }
  world_fields. split; [apply lookup_insert_eq|].
  split; [reflexivity|]. repeat split. apply last_snoc.
Qed.

Lemma timeout_ambiguous_target_witness :
  db_ticket (ex_world ex_copyright_two) !! 7 = Some ex_copyright_two
  /\ conformant ex_copyright_two (ex_world ex_copyright_two)
  /\ get_action_for_timeout (ex_env false false) ex_copyright_two
     = Some ex_action
  /\ ~ (lower (category_name (category ex_copyright_two)) = "phishing"
        /\ is_all_down_for_ticket (ex_env false false) ex_copyright_two = true)
  /\ size (ticket_target_set ex_copyright_two) <> 1%nat
  /\ fst (timeout (ex_env false false) 2 7 (ex_world ex_copyright_two))
     = Ok tt
  /\ status <$> db_ticket (snd (timeout (ex_env false false) 2 7
                                  (ex_world ex_copyright_two))) !! 7
     = Some "ActionError".
Proof.
  assert (H1 : db_ticket (ex_world ex_copyright_two) !! 7
               = Some ex_copyright_two) by reflexivity.
  assert (H2 : conformant ex_copyright_two (ex_world ex_copyright_two))
    by by_evaluation.
  assert (H3 : get_action_for_timeout (ex_env false false) ex_copyright_two
               = Some ex_action) by reflexivity.
  assert (H4 : ~ (lower (category_name (category ex_copyright_two))
                  = "phishing"
                  /\ is_all_down_for_ticket (ex_env false false)
                       ex_copyright_two = true)) by by_evaluation.
  assert (H5 : size (ticket_target_set ex_copyright_two) <> 1%nat)
    by by_evaluation.
  repeat (split; [assumption|]).
  destruct (timeout_ambiguous_target (ex_env false false) 2 7
              ex_copyright_two (ex_world ex_copyright_two) ex_action
              H1 H2 H3 H4 H5) as (w' & t' & Hrun & Hrow & Hst & _).
  rewrite Hrun. split; [reflexivity|]. cbn [snd].
  change 7 with (ticket_id ex_copyright_two). now rewrite Hrow, <- Hst.
Defined.

(** ** Timeout when the dispatched action fails *)

Lemma wait_finished_done env polls : forall k n w,
  (k <= n <= k + polls)%nat -> is_finished env n = true ->
  wait_finished env polls k w = (Ok tt, w).
Proof.
  induction polls as [|p IH]; intros k n w Hn Hfin; simpl.
  - assert (n = k) by lia. subst. now rewrite Hfin.
  - destruct (is_finished env k) eqn:Hk; [reflexivity|].
    apply (IH (S k) n). 2: exact Hfin.
    assert (n <> k) by congruence. lia.
Qed.

Lemma wait_finished_blocked env polls : forall k w,
  (forall n, (k <= n <= k + polls)%nat -> is_finished env n = false) ->
  wait_finished env polls k w = (Blocked, w).
Proof.
  induction polls as [|p IH]; intros k w Hn; simpl.
  - now rewrite Hn by lia.
  - rewrite Hn by lia. apply IH. intros n Hk. apply Hn. lia.
Qed.

Lemma unique_target_found t w addr :
  ticket_target_set t = {[addr]} -> addr <> "" ->
  get_ip_for_action t w = (Ok (Some addr), w)
  /\ truthy_str (Some addr) = Some addr.
Proof.
  intros Hs Hne. split.
  - apply get_ip_for_action_one. now apply target_set_singleton.
  - simpl. destruct addr; [congruence|reflexivity].
Qed.

Lemma apply_timeout_action_finished env polls t addr action w n :
  (n <= polls)%nat -> is_finished env n = true ->
  _apply_timeout_action env polls t addr action w
  = (Ok (with_action (Some action) t, job_result env),
     world_after_dispatch env t addr action w).
Proof.
  intros Hn Hfin. unfold _apply_timeout_action. run_steps.
  rewrite (wait_finished_done env polls 0 n) by (try lia; assumption).
  unfold world_after_dispatch. run_steps.
  rewrite <- app_assoc. reflexivity.
Qed.

Lemma timeout_action_failure_world env polls i t w action addr n :
  db_ticket w !! i = Some t ->
  conformant t w ->
  get_action_for_timeout env t = Some action ->
  ~ (lower (category_name (category t)) = "phishing"
     /\ is_all_down_for_ticket env t = true) ->
  ticket_target_set t = {[addr]} ->
  addr <> "" ->
  (n <= polls)%nat ->
  is_finished env n = true ->
  job_result env = false ->
  timeout env polls i w
  = (Ok tt,
     set_logger
       (logger (world_after_dispatch env t addr action w)
        ++ [(DEBUG, "Error while executing service action, exiting")])
       (world_after_dispatch env t addr action w)).
Proof.
  intros Hrow Hc Hact Hshort Hset Hne Hn Hfin Hres.
  rewrite (timeout_passes_gate env polls i t w Hrow Hc).
  unfold timeout_after_gate. rewrite Hact, (no_shortcut_test env t Hshort).
  destruct (unique_target_found t w addr Hset Hne) as [Hget Htruthy].
  rewrite (bind_ok _ _ _ _ _ Hget), Htruthy.
  rewrite (bind_ok _ _ _ _ _
             (apply_timeout_action_finished env polls t addr action w n
                Hn Hfin)).
  rewrite Hres. reflexivity.
Qed.

(** C6 (as the code has it). When the dispatched job is seen finished with a
    failure result, [timeout] returns normally and its last act is to log the
    failure at debug level.  Exactly one job was scheduled (there is no
    retry); the ticket is neither closed nor moved to another status, no tag
    or comment is added and no mail is sent.  The ticket does keep what was
    recorded before the dispatch: its row differs from the initial one by
    the [action] field, a [set_action] entry is in the audit trail, and one
    [ServiceActionJob] is attached to it. *)
Theorem timeout_action_failure env polls i t w action addr n :
  db_ticket w !! i = Some t ->
  conformant t w ->
  get_action_for_timeout env t = Some action ->
  ~ (lower (category_name (category t)) = "phishing"
     /\ is_all_down_for_ticket env t = true) ->
  ticket_target_set t = {[addr]} ->
  addr <> "" ->
  (n <= polls)%nat ->
  is_finished env n = true ->
  job_result env = false ->
  exists w',
    timeout env polls i w = (Ok tt, w')
    /\ logger w'
       = logger w
         ++ [(INFO, "Executing action " +:+ action_name action
                    +:+ " for ticket " +:+ fmt_d (ticket_id t));
             (INFO, "Task has " +:+ new_job_id env +:+ " job id");
             (DEBUG, "Error while executing service action, exiting")]
    /\ scheduler w'
       = scheduler w ++ [scheduled_apply_action env t addr action]
    /\ db_ticket w'
       = <[ticket_id t := with_action (Some action) t]> (db_ticket w)
    /\ status (with_action (Some action) t) = status t
    /\ ticket_jobs (ticket_id t) w'
       = [created_service_action_job env t addr action
            (scheduled_apply_action env t addr action)]
    /\ db_history w'
       = db_history w
         ++ [mkAudit (Some (ticket_id t)) "set_action"
               [("action_name", VStr (action_name action))]]
    /\ db_ticket_tags w' = db_ticket_tags w
    /\ db_comment w' = db_comment w
    /\ db_ticketcomment w' = db_ticketcomment w
    /\ outbox w' = outbox w.
Proof.
  intros Hrow Hc Hact Hshort Hset Hne Hn Hfin Hres.
  eexists. split.
  { apply (timeout_action_failure_world env polls i t w action addr n);
      assumption. }
  destruct Hc as (_ & _ & _ & _ & _ & Hjobs).
  unfold world_after_dispatch. world_fields.
  repeat split.
  - now rewrite <- app_assoc.
  - unfold ticket_jobs. world_fields. rewrite lookup_insert_eq.
    exact (f_equal
             (fun l =>
                l ++ [created_service_action_job env t addr action
                        (scheduled_apply_action env t addr action)])
             Hjobs).
Qed.

(** When the job succeeds, the ticket is loaded again and closed on the
    remediation path: reason [fixed], service blocked. *)
Lemma timeout_action_success env polls i t w action addr n :
  db_ticket w !! i = Some t ->
  conformant t w ->
  get_action_for_timeout env t = Some action ->
  ~ (lower (category_name (category t)) = "phishing"
     /\ is_all_down_for_ticket env t = true) ->
  ticket_target_set t = {[addr]} ->
  addr <> "" ->
  (n <= polls)%nat ->
  is_finished env n = true ->
  job_result env = true ->
  timeout env polls i w
  = _close_ticket env (with_action (Some action) t)
      (CODENAMES_fixed (settings env)) true
      (set_logger
         (logger (world_after_dispatch env t addr action w)
          ++ [(INFO, "All done, sending close notification to provider(s)")])
         (world_after_dispatch env t addr action w)).
Proof.
  intros Hrow Hc Hact Hshort Hset Hne Hn Hfin Hres.
  rewrite (timeout_passes_gate env polls i t w Hrow Hc).
  unfold timeout_after_gate. rewrite Hact, (no_shortcut_test env t Hshort).
  destruct (unique_target_found t w addr Hset Hne) as [Hget Htruthy].
  rewrite (bind_ok _ _ _ _ _ Hget), Htruthy.
  rewrite (bind_ok _ _ _ _ _
             (apply_timeout_action_finished env polls t addr action w n
                Hn Hfin)).
  rewrite Hres. cbn [negb]. unfold bind at 1, Logger_info, Logger_log, modify.
  unfold bind at 1, Ticket_objects_get.
  assert (Hget2 : db_ticket
                    (set_logger
                       (logger (world_after_dispatch env t addr action w)
                        ++ [(INFO,
                             "All done, sending close notification to provider(s)")])
                       (world_after_dispatch env t addr action w))
                    !! ticket_id (with_action (Some action) t)
                  = Some (with_action (Some action) t)).
  { unfold world_after_dispatch. world_fields. apply lookup_insert_eq. }
  rewrite Hget2. reflexivity.
Qed.

Lemma timeout_action_failure_witness :
  db_ticket (ex_world ex_phishing_one) !! 7 = Some ex_phishing_one
  /\ conformant ex_phishing_one (ex_world ex_phishing_one)
  /\ get_action_for_timeout (ex_env false false) ex_phishing_one
     = Some ex_action
  /\ ~ (lower (category_name (category ex_phishing_one)) = "phishing"
        /\ is_all_down_for_ticket (ex_env false false) ex_phishing_one = true)
  /\ ticket_target_set ex_phishing_one = {["1.2.3.4"]}
  /\ "1.2.3.4" <> ""
  /\ (2 <= 2)%nat
  /\ is_finished (ex_env false false) 2 = true
  /\ job_result (ex_env false false) = false
  /\ fst (timeout (ex_env false false) 2 7 (ex_world ex_phishing_one)) = Ok tt
  /\ status <$> db_ticket (snd (timeout (ex_env false false) 2 7
                                  (ex_world ex_phishing_one))) !! 7
     = Some "Alarm".
Proof.
  assert (H1 : db_ticket (ex_world ex_phishing_one) !! 7
               = Some ex_phishing_one) by reflexivity.
  assert (H2 : conformant ex_phishing_one (ex_world ex_phishing_one))
    by by_evaluation.
  assert (H3 : get_action_for_timeout (ex_env false false) ex_phishing_one
               = Some ex_action) by reflexivity.
  assert (H4 : ~ (lower (category_name (category ex_phishing_one))
                  = "phishing"
                  /\ is_all_down_for_ticket (ex_env false false)
                       ex_phishing_one = true)) by by_evaluation.
  assert (H5 : ticket_target_set ex_phishing_one = {["1.2.3.4"]})
    by by_evaluation.
  assert (H6 : "1.2.3.4" <> "") by discriminate.
  assert (H7 : (2 <= 2)%nat) by lia.
  assert (H8 : is_finished (ex_env false false) 2 = true) by reflexivity.
  assert (H9 : job_result (ex_env false false) = false) by reflexivity.
  repeat (split; [assumption|]).
  destruct (timeout_action_failure (ex_env false false) 2 7 ex_phishing_one
              (ex_world ex_phishing_one) ex_action "1.2.3.4" 2
              H1 H2 H3 H4 H5 H6 H7 H8 H9) as (w' & Hrun & _ & _ & Hdb & _).
  rewrite Hrun. split; [reflexivity|]. cbn [snd]. rewrite Hdb. reflexivity.
Defined.

(** C6 (as stated) fails: on ticket 7 the job finishes with a failure
    result, [timeout] returns normally, and yet the saved row of the ticket
    differs from the initial one (its [action] is now set) and the ticket
    owns a job it did not own before. *)
Lemma timeout_action_failure_modifies_ticket :
  job_result (ex_env false false) = false
  /\ fst (timeout (ex_env false false) 2 7 (ex_world ex_phishing_one)) = Ok tt
  /\ db_ticket (snd (timeout (ex_env false false) 2 7
                       (ex_world ex_phishing_one))) !! 7
     <> db_ticket (ex_world ex_phishing_one) !! 7
  /\ ticket_jobs 7 (snd (timeout (ex_env false false) 2 7
                           (ex_world ex_phishing_one)))
     <> ticket_jobs 7 (ex_world ex_phishing_one).
Proof.
  split; [reflexivity|]. split; [reflexivity|]. split.
  - intros H. vm_compute in H. discriminate H.
  - intros H. vm_compute in H. discriminate H.
Qed.

(** ** Closing a ticket *)

Lemma bind_ok_inv {A B} (c : M A) (k : A -> M B) w b w' :
  bind c k w = (Ok b, w') ->
  exists a w1, c w = (Ok a, w1) /\ k a w1 = (Ok b, w').
Proof.
  unfold bind. destruct (c w) as [[a|e|] w1]; intros H;
    [eauto | discriminate | discriminate].
Qed.

Lemma truthy_str_nonempty s : s <> "" -> truthy_str (Some s) = Some s.
Proof. intros H. destruct s; [congruence|reflexivity]. Qed.

(** With non-empty tag names in the settings, [tag_name] is truthy exactly
    when the category has an autoclose tag. *)
Lemma add_timeout_tag_name env t :
  TAGS_phishing_autoclosed (settings env) <> "" ->
  TAGS_copyright_autoclosed (settings env) <> "" ->
  truthy_str (timeout_tag_name env t) = autoclose_tag (settings env) t.
Proof.
  intros Hp Hc. unfold autoclose_tag, timeout_tag_name.
  repeat case_bool_decide; auto using truthy_str_nonempty.
Qed.

(** [_add_timeout_tag], by the value of [tag_name]: falsy, the tag row
    exists, or the tag row is missing. *)
Lemma add_timeout_tag_none env t w :
  truthy_str (timeout_tag_name env t) = None ->
  _add_timeout_tag env t w = (Ok tt, w).
Proof. intros Hn. unfold _add_timeout_tag. now rewrite Hn. Qed.

Lemma add_timeout_tag_some env t w name :
  truthy_str (timeout_tag_name env t) = Some name ->
  name ∈ db_tag w ->
  _add_timeout_tag env t w
  = (Ok tt,
     set_db_history
       (db_history w
        ++ [mkAudit (Some (ticket_id t)) "add_tag" [("tag_name", VStr name)]])
       (set_db_ticket (<[ticket_id t := t]> (db_ticket w))
          (snd (ticket_tags_add t name w)))).
Proof.
  intros Hn Hin. unfold _add_timeout_tag. rewrite Hn.
  unfold bind at 1. unfold Tag_objects_get.
  rewrite (bool_decide_eq_true_2 _ Hin).
  unfold ticket_tags_add. run_steps.
  destruct (bool_decide (name ∈ ticket_tags (ticket_id t) w)); reflexivity.
Qed.

Lemma add_timeout_tag_missing env t w name :
  truthy_str (timeout_tag_name env t) = Some name ->
  name ∉ db_tag w ->
  _add_timeout_tag env t w = (Raise ObjectDoesNotExist, w).
Proof.
  intros Hn Hin. unfold _add_timeout_tag. rewrite Hn.
  unfold bind at 1. unfold Tag_objects_get.
  now rewrite (bool_decide_eq_false_2 _ Hin).
Qed.

Lemma ticket_tags_add_elem t name w x :
  x ∈ ticket_tags (ticket_id t) (snd (ticket_tags_add t name w))
  <-> x ∈ ticket_tags (ticket_id t) w \/ x = name.
Proof.
  unfold ticket_tags_add, modify. simpl.
  case_bool_decide as Hin.
  - split; [auto|]. intros [H| ->]; assumption.
  - unfold ticket_tags at 1. simpl. rewrite lookup_insert_eq. simpl.
    rewrite elem_of_app, list_elem_of_singleton. reflexivity.
Qed.

Lemma add_timeout_tag_frame env t w w' :
  _add_timeout_tag env t w = (Ok tt, w') ->
  outbox w' = outbox w /\ db_comment w' = db_comment w
  /\ db_ticketcomment w' = db_ticketcomment w
  /\ scheduler w' = scheduler w /\ db_tag w' = db_tag w.
Proof.
  intros H. destruct (truthy_str (timeout_tag_name env t)) as [name|] eqn:Hn.
  - destruct (decide (name ∈ db_tag w)) as [Hin|Hin].
    + rewrite (add_timeout_tag_some env t w name Hn Hin) in H.
      injection H as <-. unfold ticket_tags_add, modify. simpl.
      case_bool_decide; simpl; auto.
    + rewrite (add_timeout_tag_missing env t w name Hn Hin) in H.
      discriminate.
  - rewrite (add_timeout_tag_none env t w Hn) in H. injection H as <-. auto.
Qed.

Lemma add_timeout_tag_tags env t w w' :
  _add_timeout_tag env t w = (Ok tt, w') ->
  forall x,
    x ∈ ticket_tags (ticket_id t) w'
    <-> x ∈ ticket_tags (ticket_id t) w
        \/ truthy_str (timeout_tag_name env t) = Some x.
Proof.
  intros H x.
  destruct (truthy_str (timeout_tag_name env t)) as [name|] eqn:Hn.
  - destruct (decide (name ∈ db_tag w)) as [Hin|Hin].
    + rewrite (add_timeout_tag_some env t w name Hn Hin) in H.
      injection H as <-.
      change (x ∈ ticket_tags (ticket_id t) (snd (ticket_tags_add t name w))
              <-> x ∈ ticket_tags (ticket_id t) w \/ Some name = Some x).
      rewrite ticket_tags_add_elem. split; intros [?|?]; auto.
      * right. congruence.
      * right. congruence.
    + rewrite (add_timeout_tag_missing env t w name Hn Hin) in H.
      discriminate.
  - rewrite (add_timeout_tag_none env t w Hn) in H. injection H as <-.
    split; [auto|]. intros [?|?]; [assumption|discriminate].
Qed.

(** [_close_ticket] up to the tagging step: the two mails are sent, unless
    the ticket has no defendant to write to. *)
Lemma close_ticket_mails env t reason sb w d :
  defendant t = Some d ->
  _close_ticket env t reason sb w
  = (_add_timeout_tag env t >> close_ticket t reason >> ret tt)
      (set_outbox (outbox w ++ closing_mails env t sb d w) w).
Proof.
  intros Hd. unfold _close_ticket.
  unfold bind at 1. cbn -[_add_timeout_tag close_ticket remove_dups filter].
  unfold bind at 1. cbn -[_add_timeout_tag close_ticket remove_dups filter].
  rewrite Hd.
  unfold bind at 1. cbn -[_add_timeout_tag close_ticket remove_dups filter].
  unfold bind at 1. cbn -[_add_timeout_tag close_ticket remove_dups filter].
  unfold closing_mails, set_outbox.
  cbn -[_add_timeout_tag close_ticket remove_dups filter bind].
  rewrite <- app_assoc. reflexivity.
Qed.

Lemma close_ticket_no_defendant env t reason sb w :
  defendant t = None ->
  fst (_close_ticket env t reason sb w) = Raise AttributeError.
Proof.
  intros Hd. unfold _close_ticket.
  unfold bind at 1. cbn -[_add_timeout_tag close_ticket remove_dups filter].
  unfold bind at 1. cbn -[_add_timeout_tag close_ticket remove_dups filter].
  now rewrite Hd.
Qed.

(** [_close_ticket] returns normally exactly when the ticket has a
    defendant and the tagging step succeeds; the final world is then the one
    [close_ticket] makes of the world after tagging. *)
Lemma close_ticket_run env t reason sb w d w3 :
  defendant t = Some d ->
  _add_timeout_tag env t
    (set_outbox (outbox w ++ closing_mails env t sb d w) w) = (Ok tt, w3) ->
  _close_ticket env t reason sb w
  = (Ok tt, snd (close_ticket t reason w3)).
Proof.
  intros Hd Htag. rewrite (close_ticket_mails env t reason sb w d Hd).
  now rewrite (bind_ok _ _ _ _ _ Htag).
Qed.

Lemma close_ticket_run_inv env t reason sb w w' :
  _close_ticket env t reason sb w = (Ok tt, w') ->
  exists d w3,
    defendant t = Some d
    /\ _add_timeout_tag env t
         (set_outbox (outbox w ++ closing_mails env t sb d w) w) = (Ok tt, w3)
    /\ w' = snd (close_ticket t reason w3).
Proof.
  intros H. destruct (defendant t) as [d|] eqn:Hd.
  - rewrite (close_ticket_mails env t reason sb w d Hd) in H.
    apply bind_ok_inv in H as ([] & w3 & Htag & H).
    exists d, w3. split; [reflexivity|]. split; [exact Htag|].
    injection H as <-. reflexivity.
  - apply (f_equal fst) in H.
    rewrite (close_ticket_no_defendant env t reason sb w Hd) in H.
    discriminate.
Qed.

(** Whatever its outcome, the tagging step writes no comment and no mail,
    and the only row it may write is the ticket's own, unchanged. *)
Lemma add_timeout_tag_any env t w :
  db_comment (snd (_add_timeout_tag env t w)) = db_comment w
  /\ db_ticketcomment (snd (_add_timeout_tag env t w)) = db_ticketcomment w
  /\ outbox (snd (_add_timeout_tag env t w)) = outbox w
  /\ (forall j t0,
        db_ticket (snd (_add_timeout_tag env t w)) !! j = Some t0 ->
        db_ticket w !! j = Some t0 \/ t0 = t).
Proof.
  destruct (truthy_str (timeout_tag_name env t)) as [name|] eqn:Hn.
  - destruct (decide (name ∈ db_tag w)) as [Hin|Hin].
    + rewrite (add_timeout_tag_some env t w name Hn Hin).
      unfold ticket_tags_add, modify. world_fields.
      case_bool_decide; world_fields; repeat split; try reflexivity.
      * intros j t0. rewrite lookup_insert. case_decide; [|auto].
        intros [= <-]. now right.
      * intros j t0. rewrite lookup_insert. case_decide; [|auto].
        intros [= <-]. now right.
    + rewrite (add_timeout_tag_missing env t w name Hn Hin). auto.
  - rewrite (add_timeout_tag_none env t w Hn). auto.
Qed.

Lemma close_ticket_row t reason w :
  db_ticket (snd (close_ticket t reason w)) !! ticket_id t
  = Some (with_status "Closed" (with_resolution (Some reason) t)).
Proof.
  unfold close_ticket, set_ticket_status, bind, modify, ticket_save, ret.
  simpl. apply lookup_insert_eq.
Qed.

Lemma close_ticket_frame t reason w :
  db_ticket_tags (snd (close_ticket t reason w)) = db_ticket_tags w
  /\ outbox (snd (close_ticket t reason w)) = outbox w
  /\ db_comment (snd (close_ticket t reason w)) = db_comment w
  /\ db_ticketcomment (snd (close_ticket t reason w)) = db_ticketcomment w.
Proof. repeat split. Qed.

(** Whatever its outcome, [_close_ticket] writes no comment, and a row it
    leaves behind is a row that was there, the ticket as it was given, or
    the ticket closed with the given reason. *)
Lemma close_ticket_any env t reason sb w r w' :
  _close_ticket env t reason sb w = (r, w') ->
  db_comment w' = db_comment w
  /\ db_ticketcomment w' = db_ticketcomment w
  /\ (forall j t0,
        db_ticket w' !! j = Some t0 ->
        db_ticket w !! j = Some t0 \/ t0 = t
        \/ t0 = with_status "Closed" (with_resolution (Some reason) t)).
Proof.
  intros H. destruct (defendant t) as [d|] eqn:Hd.
  - rewrite (close_ticket_mails env t reason sb w d Hd) in H.
    set (w2 := set_outbox (outbox w ++ closing_mails env t sb d w) w) in H.
    destruct (add_timeout_tag_any env t w2) as (Hcom & Htc & _ & Hrows).
    unfold bind at 1 in H.
    destruct (_add_timeout_tag env t w2) as [[[]|e|] w3]; cbn [snd] in *.
    + assert (Hcl : close_ticket t reason w3
                    = (Ok (with_status "Closed"
                             (with_resolution (Some reason) t)),
                       snd (close_ticket t reason w3))) by reflexivity.
      unfold bind at 1 in H. rewrite Hcl in H. cbv [ret] in H.
      injection H as <- <-. world_fields.
      split; [exact Hcom|]. split; [exact Htc|].
      intros j t0 Hj. rewrite lookup_insert in Hj. case_decide.
      * injection Hj as <-. auto.
      * destruct (Hrows j t0 Hj); auto.
    + injection H as <- <-. split; [exact Hcom|]. split; [exact Htc|].
      intros j t0 Hj. destruct (Hrows j t0 Hj); auto.
    + injection H as <- <-. split; [exact Hcom|]. split; [exact Htc|].
      intros j t0 Hj. destruct (Hrows j t0 Hj); auto.
  - revert H. unfold _close_ticket. run_steps. rewrite Hd.
    intros [= <- <-]. world_fields. auto.
Qed.

(** C8. Every close that [_close_ticket] carries through leaves the ticket
    with the autoclose tag of its category: the phishing tag when the
    category is phishing, the copyright tag when it is copyright, and no
    new tag for any other category; this holds for every reason and for
    both values of [service_blocked], hence on the remediation path
    ([fixed], service blocked) and on the all-down path ([fixed_customer],
    no service block).  The ticket is saved as [Closed] with the given
    reason.  The tag names of the settings are taken to be non-empty. *)
Theorem close_ticket_applies_autoclose_tag env t reason service_blocked w w' :
  TAGS_phishing_autoclosed (settings env) <> "" ->
  TAGS_copyright_autoclosed (settings env) <> "" ->
  _close_ticket env t reason service_blocked w = (Ok tt, w') ->
  (forall x,
     x ∈ ticket_tags (ticket_id t) w'
     <-> x ∈ ticket_tags (ticket_id t) w
         \/ autoclose_tag (settings env) t = Some x)
  /\ (lower (category_name (category t)) = "phishing" ->
      TAGS_phishing_autoclosed (settings env) ∈ ticket_tags (ticket_id t) w')
  /\ (lower (category_name (category t)) = "copyright" ->
      TAGS_copyright_autoclosed (settings env) ∈ ticket_tags (ticket_id t) w')
  /\ (lower (category_name (category t)) <> "phishing" ->
      lower (category_name (category t)) <> "copyright" ->
      ticket_tags (ticket_id t) w' = ticket_tags (ticket_id t) w)
  /\ db_ticket w' !! ticket_id t
     = Some (with_status "Closed" (with_resolution (Some reason) t)).
Proof.
  intros Hp Hc Hrun.
  apply close_ticket_run_inv in Hrun as (d & w3 & Hd & Htag & ->).
  assert (Htags : forall x,
             x ∈ ticket_tags (ticket_id t) (snd (close_ticket t reason w3))
             <-> x ∈ ticket_tags (ticket_id t) w
                 \/ autoclose_tag (settings env) t = Some x).
  { intros x. rewrite <- (add_timeout_tag_name env t Hp Hc).
    rewrite <- (add_timeout_tag_tags env t _ w3 Htag x). reflexivity. }
  split; [exact Htags|]. split; [|split; [|split]].
  - intros Hcat. apply Htags. right. unfold autoclose_tag.
    now rewrite (bool_decide_eq_true_2 _ Hcat).
  - intros Hcat. apply Htags. right. unfold autoclose_tag.
    rewrite (bool_decide_eq_true_2 _ Hcat).
    case_bool_decide as Hph; [|reflexivity]. congruence.
  - intros Hnp Hnc.
    assert (Hnone : truthy_str (timeout_tag_name env t) = None).
    { rewrite (add_timeout_tag_name env t Hp Hc). unfold autoclose_tag.
      now rewrite (bool_decide_eq_false_2 _ Hnp),
        (bool_decide_eq_false_2 _ Hnc). }
    rewrite (add_timeout_tag_none env t _ Hnone) in Htag.
    injection Htag as <-. reflexivity.
  - apply close_ticket_row.
Qed.

Lemma close_ticket_applies_autoclose_tag_witness :
  TAGS_phishing_autoclosed (settings (ex_env true true)) <> ""
  /\ TAGS_copyright_autoclosed (settings (ex_env true true)) <> ""
  /\ _close_ticket (ex_env true true) ex_phishing_one "fixed" true
       (ex_world ex_phishing_one)
     = (Ok tt,
        snd (_close_ticket (ex_env true true) ex_phishing_one "fixed" true
               (ex_world ex_phishing_one)))
  /\ "phishing:autoclosed"
     ∈ ticket_tags 7
         (snd (_close_ticket (ex_env true true) ex_phishing_one "fixed" true
                 (ex_world ex_phishing_one))).
Proof.
  assert (H1 : TAGS_phishing_autoclosed (settings (ex_env true true)) <> "")
    by discriminate.
  assert (H2 : TAGS_copyright_autoclosed (settings (ex_env true true)) <> "")
    by discriminate.
  assert (H3 : _close_ticket (ex_env true true) ex_phishing_one "fixed" true
                 (ex_world ex_phishing_one)
               = (Ok tt,
                  snd (_close_ticket (ex_env true true) ex_phishing_one
                         "fixed" true (ex_world ex_phishing_one))))
    by (vm_compute; reflexivity).
  repeat (split; [assumption|]).
  apply (close_ticket_applies_autoclose_tag (ex_env true true) ex_phishing_one
           "fixed" true (ex_world ex_phishing_one) _ H1 H2 H3).
  reflexivity.
Defined.

(** ** Timeout of a phishing ticket whose items are all down *)

Lemma shortcut_test env t :
  lower (category_name (category t)) = "phishing" ->
  is_all_down_for_ticket env t = true ->
  bool_decide (lower (category_name (category t)) = "phishing")
  && is_all_down_for_ticket env t = true.
Proof. intros Hp ->. now rewrite (bool_decide_eq_true_2 _ Hp). Qed.

(** The shortcut is taken before any look at the report items. *)
Lemma timeout_all_down_path env polls i t w action :
  db_ticket w !! i = Some t ->
  conformant t w ->
  get_action_for_timeout env t = Some action ->
  lower (category_name (category t)) = "phishing" ->
  is_all_down_for_ticket env t = true ->
  timeout env polls i w
  = _close_ticket env t (CODENAMES_fixed_customer (settings env)) false
      (set_logger
         (logger w
          ++ [(INFO, "All items are down for ticket " +:+ fmt_d i
                     +:+ ", closing ticket")]) w).
Proof.
  intros Hrow Hc Hact Hp Hdown.
  rewrite (timeout_passes_gate env polls i t w Hrow Hc).
  unfold timeout_after_gate.
  now rewrite Hact, (shortcut_test env t Hp Hdown).
Qed.

(** C10 (as the code has it). The all-down check of a phishing ticket comes
    before the resolution of the target address.  For a phishing ticket that
    passed the gate, has a policy action and whose items are all reported
    down, whatever its report items are: [timeout] never moves the ticket
    to [ActionError] (its row keeps its status or becomes [Closed]) and
    writes no diagnostic comment.  Whether the ticket is closed depends on
    the tag table.  The phishing tag named by the settings being in the tag
    table, [timeout] returns normally, the saved row is [Closed] with reason
    [fixed_customer], the defendant receives the "ticket closed" template
    and not the "service blocked" one, and the phishing tag is on the
    ticket.  That tag having no row in the tag table, [timeout] raises
    [ObjectDoesNotExist] once the closing mails are sent: the ticket rows
    and the tags are as they were, so the ticket is not closed.  The
    settings naming no tag (an empty name), the ticket is closed in the same
    way and no tag is added. *)
Theorem timeout_all_down_closes env polls i t w action :
  db_ticket w !! i = Some t ->
  conformant t w ->
  get_action_for_timeout env t = Some action ->
  lower (category_name (category t)) = "phishing" ->
  is_all_down_for_ticket env t = true ->
  (forall t',
     db_ticket (snd (timeout env polls i w)) !! i = Some t' ->
     status t' = status t \/ status t' = "Closed")
  /\ db_comment (snd (timeout env polls i w)) = db_comment w
  /\ db_ticketcomment (snd (timeout env polls i w)) = db_ticketcomment w
  /\ (TAGS_phishing_autoclosed (settings env) <> "" ->
      TAGS_phishing_autoclosed (settings env) ∈ db_tag w ->
      exists d w',
        defendant t = Some d
        /\ timeout env polls i w = (Ok tt, w')
        /\ db_ticket w' !! ticket_id t
           = Some (with_status "Closed"
                     (with_resolution
                        (Some (CODENAMES_fixed_customer (settings env))) t))
        /\ outbox w' = outbox w ++ closing_mails env t false d w
        /\ TAGS_phishing_autoclosed (settings env)
           ∈ ticket_tags (ticket_id t) w')
  /\ (TAGS_phishing_autoclosed (settings env) <> "" ->
      (TAGS_phishing_autoclosed (settings env) ∉ db_tag w) ->
      exists d,
        defendant t = Some d
        /\ fst (timeout env polls i w) = Raise ObjectDoesNotExist
        /\ db_ticket (snd (timeout env polls i w)) = db_ticket w
        /\ db_ticket_tags (snd (timeout env polls i w)) = db_ticket_tags w
        /\ outbox (snd (timeout env polls i w))
           = outbox w ++ closing_mails env t false d w)
  /\ (TAGS_phishing_autoclosed (settings env) = "" ->
      exists d w',
        defendant t = Some d
        /\ timeout env polls i w = (Ok tt, w')
        /\ db_ticket w' !! ticket_id t
           = Some (with_status "Closed"
                     (with_resolution
                        (Some (CODENAMES_fixed_customer (settings env))) t))
        /\ outbox w' = outbox w ++ closing_mails env t false d w
        /\ db_ticket_tags w' = db_ticket_tags w).
Proof.
  intros Hrow Hc Hact Hp Hdown.
  rewrite (timeout_all_down_path env polls i t w action Hrow Hc Hact Hp Hdown).
  set (w1 := set_logger
               (logger w
                ++ [(INFO, "All items are down for ticket " +:+ fmt_d i
                           +:+ ", closing ticket")]) w).
  split; [|split; [|split; [|split; [|split]]]].
  - intros t' Hrow'.
    destruct (_close_ticket env t (CODENAMES_fixed_customer (settings env))
                false w1) as [r w'] eqn:Hrun.
    destruct (close_ticket_any env t _ false w1 r w' Hrun) as (_ & _ & Hrows).
    destruct (Hrows i t' Hrow') as [Hold|[->| ->]].
    + left. change (db_ticket w !! i = Some t') in Hold. congruence.
    + now left.
    + now right.
  - destruct (_close_ticket env t (CODENAMES_fixed_customer (settings env))
                false w1) as [r w'] eqn:Hrun.
    destruct (close_ticket_any env t _ false w1 r w' Hrun) as (Hcom & _).
    exact Hcom.
  - destruct (_close_ticket env t (CODENAMES_fixed_customer (settings env))
                false w1) as [r w'] eqn:Hrun.
    destruct (close_ticket_any env t _ false w1 r w' Hrun) as (_ & Htc & _).
    exact Htc.
  - intros Hne Htag.
    destruct Hc as (Hd & Hrest). destruct Hd as [d Hd].
    assert (Hname : truthy_str (timeout_tag_name env t)
                    = Some (TAGS_phishing_autoclosed (settings env))).
    { unfold timeout_tag_name. rewrite (bool_decide_eq_true_2 _ Hp).
      now apply truthy_str_nonempty. }
    pose (w2 := set_outbox (outbox w1 ++ closing_mails env t false d w1) w1).
    assert (Hin2 : TAGS_phishing_autoclosed (settings env) ∈ db_tag w2)
      by exact Htag.
    pose proof (add_timeout_tag_some env t w2 _ Hname Hin2) as Hrun.
    match type of Hrun with _ = (_, ?W) => set (w3 := W) in Hrun end.
    destruct (add_timeout_tag_frame env t w2 w3 Hrun) as (Hout & _).
    pose proof (add_timeout_tag_tags env t w2 w3 Hrun) as Htags.
    destruct (close_ticket_frame t (CODENAMES_fixed_customer (settings env))
                w3) as (Ftags & Fout & _).
    exists d,
      (snd (close_ticket t (CODENAMES_fixed_customer (settings env)) w3)).
    split; [exact Hd|]. split.
    { apply (close_ticket_run env t _ false w1 d w3 Hd Hrun). }
    split; [apply close_ticket_row|].
    split; [rewrite Fout, Hout; reflexivity|].
    unfold ticket_tags. rewrite Ftags. apply Htags. now right.
  - intros Hne Hmiss.
    destruct Hc as (Hd & Hrest). destruct Hd as [d Hd].
    assert (Hname : truthy_str (timeout_tag_name env t)
                    = Some (TAGS_phishing_autoclosed (settings env))).
    { unfold timeout_tag_name. rewrite (bool_decide_eq_true_2 _ Hp).
      now apply truthy_str_nonempty. }
    pose (w2 := set_outbox (outbox w1 ++ closing_mails env t false d w1) w1).
    assert (Hout2 : (TAGS_phishing_autoclosed (settings env) ∉ db_tag w2))
      by exact Hmiss.
    exists d. split; [exact Hd|].
    rewrite (close_ticket_mails env t _ false w1 d Hd).
    rewrite (bind_raise _ _ _ _ _
               (add_timeout_tag_missing env t w2 _ Hname Hout2)).
    repeat split.
  - intros Hempty.
    destruct Hc as (Hd & Hrest). destruct Hd as [d Hd].
    assert (Hname : truthy_str (timeout_tag_name env t) = None).
    { unfold timeout_tag_name. rewrite (bool_decide_eq_true_2 _ Hp).
      now rewrite Hempty. }
    pose (w2 := set_outbox (outbox w1 ++ closing_mails env t false d w1) w1).
    pose proof (add_timeout_tag_none env t w2 Hname) as Hrun.
    exists d,
      (snd (close_ticket t (CODENAMES_fixed_customer (settings env)) w2)).
    split; [exact Hd|]. split.
    { apply (close_ticket_run env t _ false w1 d w2 Hd Hrun). }
    split; [apply close_ticket_row|].
    repeat split.
Qed.

Lemma timeout_all_down_closes_witness :
  db_ticket (ex_world ex_phishing_two) !! 7 = Some ex_phishing_two
  /\ conformant ex_phishing_two (ex_world ex_phishing_two)
  /\ get_action_for_timeout (ex_env true false) ex_phishing_two
     = Some ex_action
  /\ lower (category_name (category ex_phishing_two)) = "phishing"
  /\ is_all_down_for_ticket (ex_env true false) ex_phishing_two = true
  /\ size (ticket_target_set ex_phishing_two) = 2%nat
  /\ TAGS_phishing_autoclosed (settings (ex_env true false)) <> ""
  /\ TAGS_phishing_autoclosed (settings (ex_env true false))
     ∈ db_tag (ex_world ex_phishing_two)
  /\ exists d w',
       defendant ex_phishing_two = Some d
       /\ timeout (ex_env true false) 2 7 (ex_world ex_phishing_two)
          = (Ok tt, w')
       /\ db_ticket w' !! ticket_id ex_phishing_two
          = Some (with_status "Closed"
                    (with_resolution
                       (Some (CODENAMES_fixed_customer
                                (settings (ex_env true false))))
                       ex_phishing_two))
       /\ outbox w'
          = outbox (ex_world ex_phishing_two)
            ++ closing_mails (ex_env true false) ex_phishing_two false d
                 (ex_world ex_phishing_two)
       /\ TAGS_phishing_autoclosed (settings (ex_env true false))
          ∈ ticket_tags (ticket_id ex_phishing_two) w'.
Proof.
  assert (H1 : db_ticket (ex_world ex_phishing_two) !! 7
               = Some ex_phishing_two) by reflexivity.
  assert (H2 : conformant ex_phishing_two (ex_world ex_phishing_two))
    by by_evaluation.
  assert (H3 : get_action_for_timeout (ex_env true false) ex_phishing_two
               = Some ex_action) by reflexivity.
  assert (H4 : lower (category_name (category ex_phishing_two)) = "phishing")
    by reflexivity.
  assert (H5 : is_all_down_for_ticket (ex_env true false) ex_phishing_two
               = true) by reflexivity.
  assert (H6 : size (ticket_target_set ex_phishing_two) = 2%nat)
    by (vm_compute; reflexivity).
  assert (H7 : TAGS_phishing_autoclosed (settings (ex_env true false)) <> "")
    by discriminate.
  assert (H8 : TAGS_phishing_autoclosed (settings (ex_env true false))
               ∈ db_tag (ex_world ex_phishing_two)) by by_evaluation.
  repeat (split; [assumption|]).
  exact (proj1 (proj2 (proj2 (proj2
           (timeout_all_down_closes (ex_env true false) 2 7 ex_phishing_two
              (ex_world ex_phishing_two) ex_action H1 H2 H3 H4 H5))))
           H7 H8).
Defined.

(** C10 (as stated) fails: ticket 7 is a phishing ticket that passes the
    gate, has a policy action and has all its items reported down, yet,
    the tag table holding no row for the phishing tag, [timeout] raises
    [ObjectDoesNotExist]; the ticket is still in [Alarm] with no resolution
    and no tag, and its two closing mails are in the outbox. *)
Lemma timeout_all_down_not_closed :
  db_ticket (ex_world_no_tags ex_phishing_two) !! 7 = Some ex_phishing_two
  /\ conformant ex_phishing_two (ex_world_no_tags ex_phishing_two)
  /\ get_action_for_timeout (ex_env true false) ex_phishing_two
     = Some ex_action
  /\ lower (category_name (category ex_phishing_two)) = "phishing"
  /\ is_all_down_for_ticket (ex_env true false) ex_phishing_two = true
  /\ fst (timeout (ex_env true false) 2 7 (ex_world_no_tags ex_phishing_two))
     = Raise ObjectDoesNotExist
  /\ status <$> db_ticket (snd (timeout (ex_env true false) 2 7
                                  (ex_world_no_tags ex_phishing_two))) !! 7
     = Some "Alarm"
  /\ resolution <$> db_ticket (snd (timeout (ex_env true false) 2 7
                                      (ex_world_no_tags ex_phishing_two))) !! 7
     = Some None
  /\ ticket_tags 7 (snd (timeout (ex_env true false) 2 7
                           (ex_world_no_tags ex_phishing_two))) = []
  /\ outbox (snd (timeout (ex_env true false) 2 7
                    (ex_world_no_tags ex_phishing_two)))
     = [mkEmail 7 ["abuse@isp.example"] "case_closed" None;
        mkEmail 7 ["customer@example.org"] "ticket_closed" (Some "EN")].
Proof.
  split; [reflexivity|]. split; [by_evaluation|].
  repeat (split; [reflexivity|]). reflexivity.
Qed.

(** On ticket 7 with two distinct addresses: closed when all items are
    down, moved to [ActionError] when they are not. *)
Example timeout_all_down_sample :
  status <$> db_ticket (snd (timeout (ex_env true false) 2 7
                               (ex_world ex_phishing_two))) !! 7
  = Some "Closed"
  /\ status <$> db_ticket (snd (timeout (ex_env false false) 2 7
                                  (ex_world ex_phishing_two))) !! 7
     = Some "ActionError".
Proof. split; reflexivity. Qed.

(** When the tag row is missing the lookup of the tag raises, after the
    mails were sent; the ticket stays as it was. *)
Example timeout_all_down_missing_tag :
  timeout (ex_env true false) 2 7
    (mkWorld {[ 7 := ex_phishing_two ]} ∅ ∅ [] [] [] [] ∅ ∅ ∅ [] [] [] [] [])
  = (Raise ObjectDoesNotExist,
     mkWorld {[ 7 := ex_phishing_two ]} ∅ ∅ [] [] [] [] ∅ ∅ ∅ []
       [(INFO, "All items are down for ticket 7, closing ticket")] []
       [mkEmail 7 [] "case_closed" None;
        mkEmail 7 ["customer@example.org"] "ticket_closed" (Some "EN")]
       []).
Proof. reflexivity. Qed.

(** ** Identifiers that do not resolve *)

Lemma cancel_rq_scheduler_jobs_not_found i status' w :
  db_ticket w !! i = None ->
  cancel_rq_scheduler_jobs i status' w = (Raise UnboundLocalError, w).
Proof.
  intros H. unfold cancel_rq_scheduler_jobs, bind at 1, try_except.
  rewrite (bind_raise _ _ _ _ _ (Ticket_objects_get_missing i w H)).
  reflexivity.
Qed.

Lemma close_emails_thread_not_found i w :
  db_ticket w !! i = None ->
  close_emails_thread i w = (Raise UnboundLocalError, w).
Proof.
  intros H. unfold close_emails_thread, bind at 1, try_except.
  rewrite (bind_raise _ _ _ _ _ (Ticket_objects_get_missing i w H)).
  reflexivity.
Qed.








(** ** Unpausing *)

Lemma timedelta_seconds_within_a_day a b :
  0 <= elapsed_seconds a b < 86400 ->
  timedelta_seconds a b = elapsed_seconds a b.
Proof.
  unfold timedelta_seconds, elapsed_seconds. intros H.
  now apply Z.mod_small.
Qed.

Lemma timedelta_seconds_drops_days a b :
  timedelta_seconds a b = elapsed_seconds a b - 86400 * timedelta_days a b.
Proof.
  unfold timedelta_seconds, timedelta_days, elapsed_seconds.
  rewrite Z.mod_eq by lia. reflexivity.
Qed.

Lemma timedelta_seconds_after_a_day a b :
  86400 <= elapsed_seconds a b ->
  timedelta_seconds a b < elapsed_seconds a b.
Proof.
  unfold timedelta_seconds, elapsed_seconds. intros H.
  pose proof (Z.mod_pos_bound ((a - b) / 1000000) 86400). lia.
Qed.

(** The loop body of [update_paused] on a ticket paused while it was
    waiting with a running snooze: what is added to [snoozeDuration] is the
    [seconds] component of the elapsed time. *)
Lemma update_paused_ticket_waiting env now t w ps pd ss D :
  pauseStart t = Some ps -> pauseDuration t = Some pd ->
  now > mktime ps + pd ->
  previousStatus t = WAITING ->
  snoozeStart t = Some ss -> snoozeDuration t = Some D -> D <> 0 ->
  update_paused_ticket env now t w
  = (Ok tt,
     set_db_ticket
       (<[ticket_id t :=
            with_pause None None
              (with_status WAITING
                 (with_snooze (Some ss)
                    (Some (D + timedelta_seconds
                                 (datetime_now env (ticket_id t)) ps)) t))]>
          (db_ticket w))
       (set_logger
          (logger w
           ++ [(DEBUG, "Updating status for ticket "
                       +:+ fmt_d (ticket_id t) +:+ " ")]) w)).
Proof.
  intros Hps Hpd Hnow Hprev Hss HD HD0.
  assert (Hgt : (now >? mktime ps + pd) = true) by (apply Z.gtb_lt; lia).
  assert (Htr : truthy_int (Some D) = true)
    by (destruct D; [congruence|reflexivity|reflexivity]).
  unfold update_paused_ticket, try_except, deadline.
  rewrite Hps, Hpd, Hprev, Hss, HD, Htr.
  rewrite !bool_decide_eq_true_2 by eauto.
  run_steps. rewrite Hgt. run_steps.
  cbn [ticket_id previousStatus with_snooze with_status andb].
  rewrite insert_insert_eq, Hprev. reflexivity.
Qed.

(** With less than a day of pause the snooze is extended by the elapsed
    time. *)
Lemma update_paused_ticket_within_a_day env now t w ps pd ss D :
  pauseStart t = Some ps -> pauseDuration t = Some pd ->
  now > mktime ps + pd ->
  previousStatus t = WAITING ->
  snoozeStart t = Some ss -> snoozeDuration t = Some D -> D <> 0 ->
  0 <= elapsed_seconds (datetime_now env (ticket_id t)) ps < 86400 ->
  exists w' t',
    update_paused_ticket env now t w = (Ok tt, w')
    /\ db_ticket w' !! ticket_id t = Some t'
    /\ status t' = WAITING
    /\ snoozeStart t' = Some ss
    /\ snoozeDuration t'
       = Some (D + elapsed_seconds (datetime_now env (ticket_id t)) ps).
Proof.
  intros Hps Hpd Hnow Hprev Hss HD HD0 Hday.
  eexists. eexists. split.
  { apply (update_paused_ticket_waiting env now t w ps pd ss D); assumption. }
  split; [apply lookup_insert_eq|].
  rewrite (timedelta_seconds_within_a_day _ _ Hday). repeat split.
Qed.

(** C2 at a pause of more than a day.  Ticket 9 was paused at 1700000000
    for 90000 seconds while waiting with a snooze of 3600 seconds; the
    sweep runs 90001 seconds after the pause began.  The status is restored
    and [snoozeStart] is kept, but [snoozeDuration] becomes 3600 + 3601 and
    not 3600 + 90001: the whole day of the elapsed time is lost. *)
Theorem update_paused_loses_whole_days :
  status ex_paused = PAUSED
  /\ previousStatus ex_paused = WAITING
  /\ snoozeStart ex_paused = Some (1699990000 * 1000000)
  /\ snoozeDuration ex_paused = Some 3600
  /\ pauseStart ex_paused = Some (1700000000 * 1000000)
  /\ time_now (ex_clock_env 1700090001)
     > mktime (1700000000 * 1000000) + 90000
  /\ elapsed_seconds (datetime_now (ex_clock_env 1700090001) 9)
       (1700000000 * 1000000) = 90001
  /\ fst (update_paused (ex_clock_env 1700090001) (ex_world ex_paused))
     = Ok tt
  /\ db_ticket (snd (update_paused (ex_clock_env 1700090001)
                       (ex_world ex_paused))) !! 9
     = Some (with_pause None None
               (with_status WAITING
                  (with_snooze (Some (1699990000 * 1000000)) (Some 7201)
                     ex_paused)))
  /\ 7201 <> 3600 + 90001.
Proof.
  repeat split; try (vm_compute; congruence).
Qed.

(** ** Auto-unassignment *)

Lemma sequence_test (flag : bool) (h : list string) :
  flag && (length h =? 3)%nat
  && forallb (fun i => bool_decide (STATUS_SEQUENCE !! i = h !! i)) (seq 0 3)
  = flag && bool_decide (h = [WAITING; ALARM; WAITING]).
Proof.
  rewrite <- andb_assoc. f_equal.
  destruct h as [|a [|b [|c [|d r]]]];
    try (symmetry; apply bool_decide_eq_false_2; discriminate).
  simpl. unfold STATUS_SEQUENCE. simpl.
  repeat case_bool_decide; simplify_eq; try reflexivity; congruence.
Qed.

Lemma role_flag_chain t u op r auth flag :
  treatedBy t = Some u -> operator u = Some op -> role op = Some r ->
  modelsAuthorizations r !! "ticket" = Some auth ->
  auth !! "unassignedOnMultipleAlarm" = Some flag ->
  role_flag t = Some flag.
Proof.
  intros Hu Hop Hr Ha Hf. unfold role_flag.
  rewrite Hu. simpl. rewrite Hop. simpl. rewrite Hr. simpl.
  rewrite Ha. simpl. exact Hf.
Qed.

Lemma check_auto_unassignation_due t w :
  auto_unassign_due t ->
  exists u,
    treatedBy t = Some u
    /\ _check_auto_unassignation t w
       = (Ok (with_escalated true (with_treatedBy None t)),
          set_logger
            (logger w
             ++ [(DEBUG, "Unassigning ticket " +:+ fmt_d (ticket_id t)
                         +:+ " because of operator role configuration")])
            (set_db_history (db_history w ++ unassign_audit t u) w)).
Proof.
  intros [Hh Hf]. unfold role_flag in Hf.
  destruct (treatedBy t) as [u|] eqn:Hu; [|discriminate]. simpl in Hf.
  destruct (operator u) as [op|] eqn:Hop; [|discriminate]. simpl in Hf.
  destruct (role op) as [r|] eqn:Hr; [|discriminate]. simpl in Hf.
  destruct (modelsAuthorizations r !! "ticket") as [auth|] eqn:Ha;
    [|discriminate]. simpl in Hf.
  exists u. split; [reflexivity|].
  unfold _check_auto_unassignation, try_except. cbv zeta.
  rewrite Hu. run_steps. rewrite Hop. run_steps. rewrite Hr. run_steps.
  rewrite Ha. run_steps. rewrite Hf. run_steps.
  rewrite (sequence_test true), Hh, bool_decide_eq_true_2 by reflexivity.
  cbn [andb]. unfold unassign_audit. run_steps.
  rewrite <- app_assoc. reflexivity.
Qed.

Lemma check_auto_unassignation_idle t w :
  ~ auto_unassign_due t -> _check_auto_unassignation t w = (Ok t, w).
Proof.
  intros Hn. unfold _check_auto_unassignation, try_except. cbv zeta.
  destruct (treatedBy t) as [u|] eqn:Hu; [|reflexivity]. run_steps.
  destruct (operator u) as [op|] eqn:Hop; [|reflexivity]. run_steps.
  destruct (role op) as [r|] eqn:Hr; [|reflexivity]. run_steps.
  destruct (modelsAuthorizations r !! "ticket") as [auth|] eqn:Ha;
    [|reflexivity]. run_steps.
  destruct (auth !! "unassignedOnMultipleAlarm") as [flag|] eqn:Hf;
    [|reflexivity]. run_steps.
  pose proof (role_flag_chain t u op r auth flag Hu Hop Hr Ha Hf) as Hflag.
  rewrite sequence_test.
  destruct flag; [|reflexivity]. cbn [andb].
  case_bool_decide as Hh; [|reflexivity].
  exfalso. apply Hn. split; assumption.
Qed.

Corollary check_auto_unassignation_lookup_failure t w :
  role_flag t = None -> _check_auto_unassignation t w = (Ok t, w).
Proof.
  intros H. apply check_auto_unassignation_idle. intros [_ Hf]. congruence.
Qed.

Lemma snooze_expired now t ss sd w :
  snoozeStart t = Some ss -> snoozeDuration t = Some sd ->
  now > mktime ss + sd ->
  deadline (snoozeStart t) (snoozeDuration t) w = (Ok (mktime ss + sd), w)
  /\ (now >? mktime ss + sd) = true.
Proof.
  intros -> -> H. split; [reflexivity|]. apply Z.gtb_lt. lia.
Qed.

Lemma update_waiting_ticket_due now t w ss sd u :
  snoozeStart t = Some ss -> snoozeDuration t = Some sd ->
  now > mktime ss + sd ->
  auto_unassign_due t -> treatedBy t = Some u ->
  update_waiting_ticket now t w
  = (Ok tt,
     set_db_ticket
       (<[ticket_id t :=
            with_snooze None None
              (with_status ALARM
                 (with_escalated true (with_treatedBy None t)))]>
          (db_ticket w))
       (set_logger
          (logger w
           ++ [(DEBUG, "Updating status for ticket "
                       +:+ fmt_d (ticket_id t) +:+ " ");
               (DEBUG, "Unassigning ticket " +:+ fmt_d (ticket_id t)
                       +:+ " because of operator role configuration")])
          (set_db_history (db_history w ++ unassign_audit t u) w))).
Proof.
  intros Hss Hsd Hnow Hdue Hu.
  destruct (snooze_expired now t ss sd w Hss Hsd Hnow) as [Hdl Hgt].
  destruct (check_auto_unassignation_due t
              (set_logger
                 (logger w
                  ++ [(DEBUG, "Updating status for ticket "
                              +:+ fmt_d (ticket_id t) +:+ " ")]) w) Hdue)
    as (u' & Hu' & Hrun).
  assert (u' = u) by congruence. subst u'.
  unfold update_waiting_ticket, try_except.
  rewrite (bind_ok _ _ _ _ _ Hdl), Hgt.
  unfold bind at 1, Logger_debug, Logger_log, modify.
  rewrite (bind_ok _ _ _ _ _ Hrun). run_steps.
  rewrite <- app_assoc. reflexivity.
Qed.

Lemma update_waiting_ticket_idle now t w ss sd :
  snoozeStart t = Some ss -> snoozeDuration t = Some sd ->
  now > mktime ss + sd ->
  ~ auto_unassign_due t ->
  update_waiting_ticket now t w
  = (Ok tt,
     set_db_ticket
       (<[ticket_id t := with_snooze None None (with_status ALARM t)]>
          (db_ticket w))
       (set_logger
          (logger w
           ++ [(DEBUG, "Updating status for ticket "
                       +:+ fmt_d (ticket_id t) +:+ " ")]) w)).
Proof.
  intros Hss Hsd Hnow Hidle.
  destruct (snooze_expired now t ss sd w Hss Hsd Hnow) as [Hdl Hgt].
  unfold update_waiting_ticket, try_except.
  rewrite (bind_ok _ _ _ _ _ Hdl), Hgt.
  unfold bind at 1, Logger_debug, Logger_log, modify.
  rewrite (bind_ok _ _ _ _ _ (check_auto_unassignation_idle t _ Hidle)).
  run_steps. reflexivity.
Qed.

(** C3. In the sweep of a waiting ticket whose snooze has expired, the
    ticket is unassigned ([treatedBy] cleared, [escalated] set, both written
    to the audit trail) exactly when its three most recent status changes,
    newest first, are [WaitingAnswer; Alarm; WaitingAnswer] and the flag
    [unassignedOnMultipleAlarm] of the operator's role is true.  With any
    other history, with the flag off, or when the operator, the role or a
    configuration key is missing, [_check_auto_unassignation] returns the
    ticket as it was and changes nothing, and [treatedBy] and [escalated]
    are saved as they were.  In both cases nothing is raised and the ticket
    is saved in [Alarm]. *)
Theorem auto_unassignment_on_alarm now t w ss sd :
  snoozeStart t = Some ss -> snoozeDuration t = Some sd ->
  now > mktime ss + sd ->
  exists w' t',
    update_waiting_ticket now t w = (Ok tt, w')
    /\ db_ticket w' !! ticket_id t = Some t'
    /\ status t' = ALARM
    /\ (auto_unassign_due t ->
        treatedBy t' = None /\ escalated t' = true
        /\ exists u, treatedBy t = Some u
                     /\ forall e, e ∈ unassign_audit t u -> e ∈ db_history w')
    /\ (~ auto_unassign_due t ->
        treatedBy t' = treatedBy t /\ escalated t' = escalated t
        /\ forall w0, _check_auto_unassignation t w0 = (Ok t, w0))
    /\ (role_flag t = None -> ~ auto_unassign_due t)
    /\ (treatedBy t' = None /\ escalated t' = true
        <-> auto_unassign_due t
            \/ (treatedBy t = None /\ escalated t = true)).
Proof.
  intros Hss Hsd Hnow.
  destruct (decide (auto_unassign_due t)) as [Hdue|Hidle].
  - destruct (check_auto_unassignation_due t w Hdue) as (u & Hu & _).
    eexists. eexists. split.
    { apply (update_waiting_ticket_due now t w ss sd u); assumption. }
    world_fields.
    split; [apply lookup_insert_eq|].
    split; [reflexivity|]. split; [|split; [|split]].
    + intros _. split; [reflexivity|]. split; [reflexivity|].
      exists u. split; [exact Hu|].
      intros e He. apply elem_of_app. now right.
    + intros Hn. now destruct Hn.
    + intros Hnone [_ Hf]. congruence.
    + split; [auto|]. intros _. split; reflexivity.
  - eexists. eexists. split.
    { apply (update_waiting_ticket_idle now t w ss sd); assumption. }
    world_fields.
    split; [apply lookup_insert_eq|].
    split; [reflexivity|]. split; [|split; [|split]].
    + intros Hd. now destruct Hidle.
    + intros _. split; [reflexivity|]. split; [reflexivity|].
      intros w0. now apply check_auto_unassignation_idle.
    + intros Hnone [_ Hf]. congruence.
    + cbn [treatedBy escalated with_snooze with_status]. tauto.
Qed.

Lemma auto_unassignment_on_alarm_witness :
  snoozeStart (ex_waiting true ex_alarm_history)
  = Some (1700000000 * 1000000)
  /\ snoozeDuration (ex_waiting true ex_alarm_history) = Some 600
  /\ 1700000700 > mktime (1700000000 * 1000000) + 600
  /\ auto_unassign_due (ex_waiting true ex_alarm_history)
  /\ ~ auto_unassign_due (ex_waiting false ex_alarm_history)
  /\ exists w' t',
       update_waiting_ticket 1700000700 (ex_waiting true ex_alarm_history)
         (ex_world (ex_waiting true ex_alarm_history)) = (Ok tt, w')
       /\ db_ticket w' !! ticket_id (ex_waiting true ex_alarm_history)
          = Some t'
       /\ status t' = ALARM
       /\ treatedBy t' = None
       /\ escalated t' = true.
Proof.
  assert (H1 : snoozeStart (ex_waiting true ex_alarm_history)
               = Some (1700000000 * 1000000)) by reflexivity.
  assert (H2 : snoozeDuration (ex_waiting true ex_alarm_history) = Some 600)
    by reflexivity.
  assert (H3 : 1700000700 > mktime (1700000000 * 1000000) + 600)
    by (vm_compute; reflexivity).
  assert (H4 : auto_unassign_due (ex_waiting true ex_alarm_history))
    by by_evaluation.
  assert (H5 : ~ auto_unassign_due (ex_waiting false ex_alarm_history))
    by by_evaluation.
  repeat (split; [assumption|]).
  destruct (auto_unassignment_on_alarm 1700000700
              (ex_waiting true ex_alarm_history)
              (ex_world (ex_waiting true ex_alarm_history))
              (1700000000 * 1000000) 600 H1 H2 H3)
    as (w' & t' & Hrun & Hrow & Hst & Hdue & _).
  exists w', t'. repeat (split; [assumption|]).
  destruct (Hdue H4) as (Ht & He & _). split; assumption.
Defined.

(** ** Cancellation of the jobs of a ticket *)

Lemma same_but_refl w : same_but_jobs_and_scheduler w w.
Proof. now destruct w. Qed.

Lemma same_but_trans w1 w2 w3 :
  same_but_jobs_and_scheduler w1 w2 -> same_but_jobs_and_scheduler w2 w3 ->
  same_but_jobs_and_scheduler w1 w3.
Proof.
  destruct w1, w2, w3. unfold same_but_jobs_and_scheduler,
    set_db_ticket_jobs, set_scheduler. simpl.
  intros H1 H2. injection H1 as <-. injection H2 as <-. congruence.
Qed.

Lemma same_but_fields w w' :
  same_but_jobs_and_scheduler w w' ->
  db_ticket w' = db_ticket w /\ db_ticket_tags w' = db_ticket_tags w
  /\ db_history w' = db_history w /\ logger w' = logger w
  /\ outbox w' = outbox w.
Proof.
  destruct w, w'. unfold same_but_jobs_and_scheduler, set_db_ticket_jobs,
    set_scheduler. simpl. intros H. injection H as <-. subst. auto.
Qed.

Lemma in_scheduler_false jid s :
  in_scheduler jid s = false <-> forall j, j ∈ s -> sj_id j <> jid.
Proof.
  unfold in_scheduler. rewrite bool_decide_eq_false, list_elem_of_fmap.
  split.
  - intros H j Hj Heq. apply H. eauto.
  - intros H (j & Heq & Hj). now apply (H j Hj).
Qed.

Lemma cancel_step i k job' jid w :
  (scheduler_cancel jid >> job_save i k job') w
  = (Ok tt,
     set_db_ticket_jobs
       (<[i := <[k := job']> (ticket_jobs i w)]> (db_ticket_jobs w))
       (set_scheduler (filter (fun j => sj_id j <> jid) (scheduler w)) w)).
Proof. reflexivity. Qed.

(** The first loop: every handle of the remaining jobs leaves the
    scheduler, the handles recorded on the ticket are kept, a job whose
    handle is not in the scheduler keeps its row, and nothing else
    changes. *)
Lemma cancel_ticket_jobs_run i s : forall jobs k w,
  drop k (ticket_jobs i w) = jobs ->
  exists w',
    cancel_ticket_jobs i s k jobs w = (Ok tt, w')
    /\ (forall j, j ∈ scheduler w'
                  <-> j ∈ scheduler w
                      /\ sj_id j ∉ (asynchronousJobId <$> jobs))
    /\ asynchronousJobId <$> ticket_jobs i w'
       = asynchronousJobId <$> ticket_jobs i w
    /\ (forall n job,
          ticket_jobs i w !! n = Some job ->
          in_scheduler (asynchronousJobId job) (scheduler w) = false ->
          ticket_jobs i w' !! n = Some job)
    /\ same_but_jobs_and_scheduler w w'.
Proof.
  induction jobs as [|job rest IH]; intros k w Hdrop.
  - exists w. split; [reflexivity|]. split; [|split; [|split]].
    + intros j. rewrite fmap_nil. set_solver.
    + reflexivity.
    + auto.
    + apply same_but_refl.
  - assert (Hk : ticket_jobs i w !! k = Some job).
    { rewrite <- (Nat.add_0_r k), <- lookup_drop, Hdrop. reflexivity. }
    assert (Hrest : drop (S k) (ticket_jobs i w) = rest).
    { rewrite (drop_S _ _ _ Hk) in Hdrop. now injection Hdrop. }
    cbn [cancel_ticket_jobs]. unfold bind at 1, gets.
    destruct (in_scheduler (asynchronousJobId job) (scheduler w)) eqn:Hp.
    + unfold bind at 1. rewrite cancel_step.
      match goal with
      | |- context [cancel_ticket_jobs i s (S k) rest ?next] =>
          set (w1 := next)
      end.
      assert (Hjobs1 : ticket_jobs i w1
                       = <[k := with_job_status ("cancelled by " +:+ s) job]>
                           (ticket_jobs i w)).
      { unfold w1, ticket_jobs at 1. simpl. now rewrite lookup_insert_eq. }
      destruct (IH (S k) w1) as (w' & Hrun & Hsched & Hids & Hskip & Hframe).
      { rewrite Hjobs1, drop_insert_lt by lia. exact Hrest. }
      exists w'. split; [exact Hrun|]. split; [|split; [|split]].
      * intros j. rewrite Hsched. unfold w1. world_fields.
        rewrite list_elem_of_filter, fmap_cons, not_elem_of_cons. tauto.
      * rewrite Hids, Hjobs1, list_fmap_insert. simpl.
        apply list_insert_id. rewrite list_lookup_fmap, Hk. reflexivity.
      * intros n job0 Hn Habs. apply Hskip.
        -- rewrite Hjobs1. rewrite list_lookup_insert_ne; [exact Hn|].
           intros <-. rewrite Hk in Hn. injection Hn as <-. congruence.
        -- apply in_scheduler_false. intros j Hj.
           apply list_elem_of_filter in Hj as [_ Hj].
           now apply (proj1 (in_scheduler_false _ _) Habs).
      * apply (same_but_trans w w1 w'); [|exact Hframe].
        unfold w1. now destruct w.
    + unfold bind at 1. cbv [ret].
      destruct (IH (S k) w Hrest) as (w' & Hrun & Hsched & Hids & Hskip & Hframe).
      exists w'. split; [exact Hrun|]. split; [|split; [|split]];
        try assumption.
      intros j. rewrite Hsched, fmap_cons, not_elem_of_cons.
      split; [|tauto]. intros [Hj Hn]. split; [exact Hj|]. split; [|exact Hn].
      now apply (proj1 (in_scheduler_false _ _) Hp).
Qed.

(** A job whose handle is not in the scheduler is skipped: with no handle
    of the ticket in the scheduler, the first loop does nothing. *)
Lemma cancel_ticket_jobs_skip i s : forall jobs k w,
  (forall job, job ∈ jobs ->
     in_scheduler (asynchronousJobId job) (scheduler w) = false) ->
  cancel_ticket_jobs i s k jobs w = (Ok tt, w).
Proof.
  induction jobs as [|job rest IH]; intros k w Habs; [reflexivity|].
  cbn [cancel_ticket_jobs]. unfold bind at 1, gets.
  rewrite (Habs job) by set_solver.
  unfold bind at 1. cbv [ret]. apply IH.
  intros job0 Hin. apply Habs. set_solver.
Qed.

Lemma scheduled_for_ticket_step t job w :
  (func_name job ∈ ASYNC_JOB_TO_CANCEL -> is_Some (kwargs job !! "ticket_id"))
  ->
  cancel_pending_job t job w
  = (Ok tt,
     if scheduled_for_ticket (ticket_id t) job
     then set_scheduler
            (filter (fun j => sj_id j <> sj_id job) (scheduler w)) w
     else w).
Proof.
  intros Hwf. unfold cancel_pending_job, scheduled_for_ticket.
  case_bool_decide as Hf; [|reflexivity].
  destruct (Hwf Hf) as [v Hv]. unfold bind, getitem. rewrite Hv.
  cbv [ret]. cbn [andb]. destruct (py_eq_int v (ticket_id t)); reflexivity.
Qed.

(** The second loop over a snapshot [l] of the pending jobs: the handles of
    the jobs of [l] scheduled for the ticket leave the scheduler, and
    nothing else changes. *)
Lemma cancel_pending_jobs_run t : forall l w,
  scheduler_wf l ->
  exists w',
    for_each l (cancel_pending_job t) w = (Ok tt, w')
    /\ (forall j, j ∈ scheduler w'
                  <-> j ∈ scheduler w
                      /\ sj_id j
                         ∉ (sj_id <$> filter
                              (fun x => scheduled_for_ticket (ticket_id t) x
                                        = true) l))
    /\ db_ticket_jobs w' = db_ticket_jobs w
    /\ same_but_jobs_and_scheduler w w'.
Proof.
  induction l as [|job rest IH]; intros w Hwf.
  - exists w. split; [reflexivity|]. split; [|split].
    + intros j. rewrite filter_nil, fmap_nil. set_solver.
    + reflexivity.
    + apply same_but_refl.
  - apply Forall_cons in Hwf as [Hjob Hrest].
    cbn [for_each]. unfold bind at 1.
    rewrite (scheduled_for_ticket_step t job w Hjob).
    destruct (scheduled_for_ticket (ticket_id t) job) eqn:Hm.
    + set (w1 := set_scheduler
                    (filter (fun j => sj_id j <> sj_id job) (scheduler w)) w).
      destruct (IH w1 Hrest) as (w' & Hrun & Hsched & Hjobs & Hframe).
      exists w'. split; [exact Hrun|]. split; [|split].
      * intros j. rewrite Hsched. unfold w1. world_fields.
        rewrite filter_cons_True by exact Hm.
        rewrite list_elem_of_filter, fmap_cons, not_elem_of_cons. tauto.
      * exact Hjobs.
      * apply (same_but_trans w w1 w'); [|exact Hframe].
        unfold w1. now destruct w.
    + destruct (IH w Hrest) as (w' & Hrun & Hsched & Hjobs & Hframe).
      exists w'. split; [exact Hrun|]. split; [|split]; try assumption.
      intros j. rewrite Hsched.
      rewrite filter_cons_False by (rewrite Hm; discriminate). reflexivity.
Qed.

Lemma cancel_pending_jobs_skip t : forall l w,
  scheduler_wf l ->
  (forall j, j ∈ l -> scheduled_for_ticket (ticket_id t) j = false) ->
  for_each l (cancel_pending_job t) w = (Ok tt, w).
Proof.
  induction l as [|job rest IH]; intros w Hwf Hno; [reflexivity|].
  apply Forall_cons in Hwf as [Hjob Hrest].
  cbn [for_each]. unfold bind at 1.
  rewrite (scheduled_for_ticket_step t job w Hjob).
  rewrite (Hno job) by set_solver.
  apply IH; [exact Hrest|]. intros j Hj. apply Hno. set_solver.
Qed.

Lemma ticket_jobs_same i w w' :
  db_ticket_jobs w' = db_ticket_jobs w -> ticket_jobs i w' = ticket_jobs i w.
Proof. unfold ticket_jobs. now intros ->. Qed.

(** C9. Cancelling the jobs of a ticket returns normally whatever handles
    the scheduler still holds; a job of the ticket whose handle is no longer
    in the scheduler is skipped and keeps its row; the ticket row and
    everything but the jobs relation and the scheduler are untouched, the
    handles recorded on the ticket are kept and no job appears in the
    scheduler; and a second cancellation, for whatever reason, changes
    nothing: it returns normally in the same world.  Pending jobs with a
    cancellable function name are taken to carry their [ticket_id]
    argument. *)
Theorem cancel_rq_scheduler_jobs_idempotent i status1 status2 t w :
  db_ticket w !! i = Some t ->
  scheduler_wf (scheduler w) ->
  exists w1,
    cancel_rq_scheduler_jobs i status1 w = (Ok tt, w1)
    /\ same_but_jobs_and_scheduler w w1
    /\ db_ticket w1 = db_ticket w
    /\ asynchronousJobId <$> ticket_jobs (ticket_id t) w1
       = asynchronousJobId <$> ticket_jobs (ticket_id t) w
    /\ (forall n job,
          ticket_jobs (ticket_id t) w !! n = Some job ->
          in_scheduler (asynchronousJobId job) (scheduler w) = false ->
          ticket_jobs (ticket_id t) w1 !! n = Some job)
    /\ (forall j, j ∈ scheduler w1 -> j ∈ scheduler w)
    /\ cancel_rq_scheduler_jobs i status2 w1 = (Ok tt, w1).
Proof.
  intros Hrow Hwf.
  destruct (cancel_ticket_jobs_run (ticket_id t) status1
              (ticket_jobs (ticket_id t) w) 0 w eq_refl)
    as (wa & Hrun1 & Hsched1 & Hids1 & Hskip1 & Hframe1).
  assert (Hwfa : scheduler_wf (scheduler wa)).
  { unfold scheduler_wf in *. rewrite Forall_forall in *.
    intros j Hj. apply Hwf. now apply Hsched1. }
  destruct (cancel_pending_jobs_run t (scheduler wa) wa Hwfa)
    as (w1 & Hrun2 & Hsched2 & Hjobs2 & Hframe2).
  pose proof (same_but_trans w wa w1 Hframe1 Hframe2) as Hframe.
  destruct (same_but_fields w w1 Hframe) as (Hdb & _).
  assert (Hj1 : ticket_jobs (ticket_id t) w1 = ticket_jobs (ticket_id t) wa)
    by (now apply ticket_jobs_same).
  exists w1. split; [|split; [|split; [|split; [|split; [|split]]]]].
  - unfold cancel_rq_scheduler_jobs.
    rewrite (bind_ok _ _ _ _ _ (loads_ticket i t w _ _ Hrow)).
    unfold bind at 1, gets. rewrite (bind_ok _ _ _ _ _ Hrun1).
    unfold bind at 1, gets. exact Hrun2.
  - exact Hframe.
  - exact Hdb.
  - now rewrite Hj1.
  - intros n job Hn Habs. rewrite Hj1. now apply Hskip1.
  - intros j Hj. apply Hsched1. now apply Hsched2.
  - assert (Hrow1 : db_ticket w1 !! i = Some t) by (now rewrite Hdb).
    assert (Hwf1 : scheduler_wf (scheduler w1)).
    { unfold scheduler_wf in *. rewrite Forall_forall in *.
      intros j Hj. apply Hwfa. now apply Hsched2. }
    unfold cancel_rq_scheduler_jobs.
    rewrite (bind_ok _ _ _ _ _ (loads_ticket i t w1 _ _ Hrow1)).
    assert (Hnone : cancel_ticket_jobs (ticket_id t) status2 0
                      (ticket_jobs (ticket_id t) w1) w1 = (Ok tt, w1)).
    { apply cancel_ticket_jobs_skip. intros job Hjob.
      apply in_scheduler_false. intros j Hj Heq.
      apply Hsched2 in Hj as [Hja _]. apply Hsched1 in Hja as [_ Hno].
      apply Hno. rewrite <- Hids1, <- Hj1, Heq.
      apply list_elem_of_fmap. exists job. split; [reflexivity|exact Hjob]. }
    unfold bind at 1, gets. rewrite (bind_ok _ _ _ _ _ Hnone).
    unfold bind at 1, gets.
    apply cancel_pending_jobs_skip; [exact Hwf1|].
    intros j Hj. destruct (scheduled_for_ticket (ticket_id t) j) eqn:Hm;
      [|reflexivity].
    exfalso. apply Hsched2 in Hj as [Hja Hno]. apply Hno.
    apply list_elem_of_fmap. exists j. split; [reflexivity|].
    apply list_elem_of_filter. split; assumption.
Qed.

Lemma cancel_rq_scheduler_jobs_idempotent_witness :
  db_ticket ex_cancel_world !! 7 = Some ex_phishing_one
  /\ scheduler_wf (scheduler ex_cancel_world)
  /\ exists w1,
       cancel_rq_scheduler_jobs 7 "answered" ex_cancel_world = (Ok tt, w1)
       /\ same_but_jobs_and_scheduler ex_cancel_world w1
       /\ db_ticket w1 = db_ticket ex_cancel_world
       /\ asynchronousJobId <$> ticket_jobs (ticket_id ex_phishing_one) w1
          = asynchronousJobId
              <$> ticket_jobs (ticket_id ex_phishing_one) ex_cancel_world
       /\ (forall n job,
             ticket_jobs (ticket_id ex_phishing_one) ex_cancel_world !! n
             = Some job ->
             in_scheduler (asynchronousJobId job) (scheduler ex_cancel_world)
             = false ->
             ticket_jobs (ticket_id ex_phishing_one) w1 !! n = Some job)
       /\ (forall j, j ∈ scheduler w1 -> j ∈ scheduler ex_cancel_world)
       /\ cancel_rq_scheduler_jobs 7 "closed" w1 = (Ok tt, w1).
Proof.
  assert (H1 : db_ticket ex_cancel_world !! 7 = Some ex_phishing_one)
    by reflexivity.
  assert (H2 : scheduler_wf (scheduler ex_cancel_world)) by by_evaluation.
  split; [exact H1|]. split; [exact H2|].
  exact (cancel_rq_scheduler_jobs_idempotent 7 "answered" "closed"
           ex_phishing_one ex_cancel_world H1 H2).
Defined.

(** On that world: the two pending jobs of ticket 7 leave the scheduler,
    the job whose handle was found is marked cancelled, and the job whose
    handle was gone is left as it was. *)
Example cancel_rq_scheduler_jobs_sample :
  fst (cancel_rq_scheduler_jobs 7 "answered" ex_cancel_world) = Ok tt
  /\ sj_id <$> scheduler
                 (snd (cancel_rq_scheduler_jobs 7 "answered" ex_cancel_world))
     = ["job-x"; "job-y"]
  /\ job_status
       <$> ticket_jobs 7
             (snd (cancel_rq_scheduler_jobs 7 "answered" ex_cancel_world))
     = [Some "cancelled by answered"; None].
Proof. repeat split. Qed.

(** A pending job with a cancellable name and no [ticket_id] argument makes
    the second loop fail on the lookup. *)
Example cancel_rq_scheduler_jobs_missing_kwarg :
  fst (cancel_rq_scheduler_jobs 7 "answered"
         (set_scheduler [mkSchedJob "job-z" "ticket.timeout" ∅ 0]
            ex_cancel_world))
  = Raise KeyError.
Proof. reflexivity. Qed.

(** ** The sweep of the waiting tickets *)

(** One turn of the loop on a row with a well-formed snooze: it returns
    normally and writes at most the row of its ticket. *)
Lemma update_waiting_ticket_row now t w :
  snooze_well_formed t ->
  exists w',
    update_waiting_ticket now t w = (Ok tt, w')
    /\ db_ticket w'
       = match waiting_row_after now t with
         | Some r => <[ticket_id t := r]> (db_ticket w)
         | None => db_ticket w
         end.
Proof.
  intros Hwf. unfold waiting_row_after.
  destruct (snoozeStart t) as [ss|] eqn:Hss.
  - destruct Hwf as [Hwf|[sd Hsd]]; [congruence|]. rewrite Hsd.
    destruct (now >? mktime ss + sd) eqn:Hgt.
    + assert (Hnow : now > mktime ss + sd) by (apply Z.gtb_lt in Hgt; lia).
      unfold alarm_row. destruct (decide (auto_unassign_due t)) as [Hdue|Hidle].
      * destruct (check_auto_unassignation_due t w Hdue) as (u & Hu & _).
        eexists. split.
        { apply (update_waiting_ticket_due now t w ss sd u); assumption. }
        reflexivity.
      * eexists. split.
        { apply (update_waiting_ticket_idle now t w ss sd); assumption. }
        reflexivity.
    + exists w. split; [|reflexivity].
      unfold update_waiting_ticket, try_except, deadline.
      rewrite Hss, Hsd. run_steps. now rewrite Hgt.
  - eexists. split.
    { unfold update_waiting_ticket, try_except, deadline. rewrite Hss.
      run_steps. reflexivity. }
    reflexivity.
Qed.

Lemma update_waiting_rows now : forall rows w,
  Forall snooze_well_formed rows ->
  NoDup (ticket_id <$> rows) ->
  exists w',
    for_each rows (update_waiting_ticket now) w = (Ok tt, w')
    /\ (forall t, t ∈ rows ->
          db_ticket w' !! ticket_id t
          = match waiting_row_after now t with
            | Some r => Some r
            | None => db_ticket w !! ticket_id t
            end)
    /\ (forall i, i ∉ (ticket_id <$> rows) ->
          db_ticket w' !! i = db_ticket w !! i).
Proof.
  induction rows as [|t rest IH]; intros w Hwf Hnd.
  - exists w. split; [reflexivity|]. split; [|reflexivity].
    intros t Ht. now apply elem_of_nil in Ht.
  - apply Forall_cons in Hwf as [Ht Hrest].
    rewrite fmap_cons in Hnd. apply NoDup_cons in Hnd as [Hfresh Hnd].
    destruct (update_waiting_ticket_row now t w Ht) as (w1 & Hrun1 & Hdb1).
    destruct (IH w1 Hrest Hnd) as (w' & Hrun & Hin & Hout).
    assert (Hother : forall i, i <> ticket_id t ->
                       db_ticket w1 !! i = db_ticket w !! i).
    { intros i Hi. rewrite Hdb1.
      destruct (waiting_row_after now t); [|reflexivity].
      now rewrite lookup_insert_ne. }
    exists w'. split; [|split].
    + cbn [for_each]. now rewrite (bind_ok _ _ _ _ _ Hrun1).
    + intros t' Ht'. apply elem_of_cons in Ht' as [->|Ht'].
      * rewrite (Hout _ Hfresh), Hdb1.
        destruct (waiting_row_after now t); [|reflexivity].
        apply lookup_insert_eq.
      * rewrite (Hin t' Ht').
        destruct (waiting_row_after now t'); [reflexivity|].
        apply Hother. intros Heq. apply Hfresh. rewrite <- Heq.
        apply list_elem_of_fmap. eauto.
    + intros i Hi. rewrite fmap_cons in Hi. apply not_elem_of_cons in Hi as [Hne Hi].
      rewrite (Hout i Hi). now apply Hother.
Qed.

Lemma elem_of_tickets_with_status s w t :
  t ∈ tickets_with_status s w
  <-> status t = s /\ exists i, db_ticket w !! i = Some t.
Proof.
  unfold tickets_with_status.
  rewrite list_elem_of_filter, list_elem_of_fmap. split.
  - intros [Hs ([i t'] & -> & Hin)]. split; [exact Hs|].
    exists i. now apply elem_of_map_to_list.
  - intros [Hs [i Hi]]. split; [exact Hs|].
    exists (i, t). split; [reflexivity|]. now apply elem_of_map_to_list.
Qed.

Lemma tickets_with_status_NoDup s w :
  keys_consistent w -> NoDup (ticket_id <$> tickets_with_status s w).
Proof.
  intros Hkeys. unfold tickets_with_status.
  apply (sublist_NoDup _ (ticket_id <$> (snd <$> map_to_list (db_ticket w)))).
  - assert (Heq : ticket_id <$> (snd <$> map_to_list (db_ticket w))
                  = fst <$> map_to_list (db_ticket w)).
    { rewrite <- list_fmap_compose. apply Forall_fmap_ext, Forall_forall.
      intros [i t] Hin. apply elem_of_map_to_list in Hin.
      exact (Hkeys i t Hin). }
    rewrite Heq. apply NoDup_fst_map_to_list.
  - apply fmap_sublist, sublist_filter.
Qed.

(** X13. The sweep of the waiting tickets, over a database whose rows are
    stored under their ids and whose waiting tickets have well-formed
    snoozes: it returns normally; every waiting ticket whose snooze has
    expired is saved as [alarm_row] describes (in [Alarm], snooze reset,
    unassigned when auto-unassignment is due), every other row is kept. *)
Lemma update_waiting_sweep env w :
  keys_consistent w ->
  Forall snooze_well_formed (tickets_with_status WAITING w) ->
  exists w',
    update_waiting env w = (Ok tt, w')
    /\ forall i t,
         db_ticket w !! i = Some t ->
         db_ticket w' !! i
         = Some (if bool_decide (status t = WAITING)
                 then default t (waiting_row_after (time_now env) t)
                 else t).
Proof.
  intros Hkeys Hwf.
  destruct (update_waiting_rows (time_now env) (tickets_with_status WAITING w)
              w Hwf (tickets_with_status_NoDup WAITING w Hkeys))
    as (w' & Hrun & Hin & Hout).
  exists w'. split.
  - unfold update_waiting, bind, gets. exact Hrun.
  - intros i t Hrow. pose proof (Hkeys i t Hrow) as Hid. subst i.
    case_bool_decide as Hs.
    + rewrite (Hin t).
      * destruct (waiting_row_after (time_now env) t); [reflexivity|].
        exact Hrow.
      * apply elem_of_tickets_with_status. eauto.
    + rewrite Hout; [exact Hrow|].
      intros Hi. apply list_elem_of_fmap in Hi as (t' & Heq & Ht').
      apply elem_of_tickets_with_status in Ht' as [Hs' [j Hj]].
      assert (Hid : j = ticket_id t)
        by (rewrite Heq; symmetry; exact (Hkeys j t' Hj)).
      subst j. rewrite Hrow in Hj. injection Hj as ->. contradiction.
Qed.

(** * Further properties of the worker *)

(** ** The other ways out of [timeout] *)

(** X1. When the policy has no action for a ticket that passed the gate,
    [timeout] returns normally after logging one error that names the
    ticket and the component type of its service; nothing else changes: the
    all-down check is not made, no status, mail, tag, comment or job is
    written. *)
Theorem timeout_without_policy_action env polls i t w :
  db_ticket w !! i = Some t ->
  conformant t w ->
  get_action_for_timeout env t = None ->
  exists svc,
    service t = Some svc
    /\ timeout env polls i w
       = (Ok tt,
          set_logger
            (logger w
             ++ [(ERROR, "Ticket " +:+ fmt_d i +:+ " service "
                         +:+ componentType svc
                         +:+ ": action not found, exiting ...")]) w).
Proof.
  intros Hrow Hc Hact.
  rewrite (timeout_passes_gate env polls i t w Hrow Hc).
  destruct Hc as (_ & [svc Hsvc] & _).
  exists svc. split; [exact Hsvc|].
  unfold timeout_after_gate. rewrite Hact, Hsvc. reflexivity.
Qed.

Lemma timeout_without_policy_action_witness :
  db_ticket (ex_world ex_phishing_one) !! 7 = Some ex_phishing_one
  /\ conformant ex_phishing_one (ex_world ex_phishing_one)
  /\ get_action_for_timeout ex_env_no_policy ex_phishing_one = None
  /\ timeout ex_env_no_policy 2 7 (ex_world ex_phishing_one)
     = (Ok tt,
        set_logger
          [(ERROR, "Ticket 7 service HOSTING: action not found, exiting ...")]
          (ex_world ex_phishing_one)).
Proof.
  assert (H1 : db_ticket (ex_world ex_phishing_one) !! 7
               = Some ex_phishing_one) by reflexivity.
  assert (H2 : conformant ex_phishing_one (ex_world ex_phishing_one))
    by by_evaluation.
  assert (H3 : get_action_for_timeout ex_env_no_policy ex_phishing_one = None)
    by reflexivity.
  repeat (split; [assumption|]).
  destruct (timeout_without_policy_action ex_env_no_policy 2 7
              ex_phishing_one (ex_world ex_phishing_one) H1 H2 H3)
    as (svc & Hsvc & Hrun).
  rewrite Hrun. injection Hsvc as <-. reflexivity.
Defined.

(** [_apply_timeout_action] when the job is never seen finished within the
    polls allowed: everything it writes was written before the wait. *)
Lemma apply_timeout_action_blocked env polls t addr action w :
  (forall n, is_finished env n = false) ->
  _apply_timeout_action env polls t addr action w
  = (Blocked, world_after_dispatch env t addr action w).
Proof.
  intros Hnever. unfold _apply_timeout_action. run_steps.
  rewrite (wait_finished_blocked env polls 0) by (intros; apply Hnever).
  unfold world_after_dispatch. run_steps.
  rewrite <- app_assoc. reflexivity.
Qed.

(** X2. The wait for the dispatched job has no bound of its own: when the
    job is never reported finished, [timeout] has not returned after any
    number of polls.  The ticket then stays as the dispatch left it: action
    recorded, one job scheduled and attached, status unchanged, nothing
    closed. *)
Theorem timeout_waits_for_job env polls i t w action addr :
  db_ticket w !! i = Some t ->
  conformant t w ->
  get_action_for_timeout env t = Some action ->
  ~ (lower (category_name (category t)) = "phishing"
     /\ is_all_down_for_ticket env t = true) ->
  ticket_target_set t = {[addr]} ->
  addr <> "" ->
  (forall n, is_finished env n = false) ->
  timeout env polls i w
  = (Blocked, world_after_dispatch env t addr action w)
  /\ db_ticket (world_after_dispatch env t addr action w) !! ticket_id t
     = Some (with_action (Some action) t)
  /\ outbox (world_after_dispatch env t addr action w) = outbox w.
Proof.
  intros Hrow Hc Hact Hshort Hset Hne Hnever.
  split; [|split].
  - rewrite (timeout_passes_gate env polls i t w Hrow Hc).
    unfold timeout_after_gate. rewrite Hact, (no_shortcut_test env t Hshort).
    destruct (unique_target_found t w addr Hset Hne) as [Hget Htruthy].
    rewrite (bind_ok _ _ _ _ _ Hget), Htruthy.
    unfold bind at 1.
    now rewrite (apply_timeout_action_blocked env polls t addr action w Hnever).
  - unfold world_after_dispatch. world_fields. apply lookup_insert_eq.
  - reflexivity.
Qed.

Lemma timeout_waits_for_job_witness :
  db_ticket (ex_world ex_phishing_one) !! 7 = Some ex_phishing_one
  /\ conformant ex_phishing_one (ex_world ex_phishing_one)
  /\ get_action_for_timeout ex_env_never_finished ex_phishing_one
     = Some ex_action
  /\ ~ (lower (category_name (category ex_phishing_one)) = "phishing"
        /\ is_all_down_for_ticket ex_env_never_finished ex_phishing_one = true)
  /\ ticket_target_set ex_phishing_one = {["1.2.3.4"]}
  /\ "1.2.3.4" <> ""
  /\ (forall n, is_finished ex_env_never_finished n = false)
  /\ fst (timeout ex_env_never_finished 1000 7 (ex_world ex_phishing_one))
     = Blocked.
Proof.
  assert (H1 : db_ticket (ex_world ex_phishing_one) !! 7
               = Some ex_phishing_one) by reflexivity.
  assert (H2 : conformant ex_phishing_one (ex_world ex_phishing_one))
    by by_evaluation.
  assert (H3 : get_action_for_timeout ex_env_never_finished ex_phishing_one
               = Some ex_action) by reflexivity.
  assert (H4 : ~ (lower (category_name (category ex_phishing_one))
                  = "phishing"
                  /\ is_all_down_for_ticket ex_env_never_finished
                       ex_phishing_one = true)) by by_evaluation.
  assert (H5 : ticket_target_set ex_phishing_one = {["1.2.3.4"]})
    by by_evaluation.
  assert (H6 : "1.2.3.4" <> "") by discriminate.
  assert (H7 : forall n, is_finished ex_env_never_finished n = false)
    by reflexivity.
  repeat (split; [assumption|]).
  rewrite (proj1 (timeout_waits_for_job ex_env_never_finished 1000 7
                    ex_phishing_one (ex_world ex_phishing_one) ex_action
                    "1.2.3.4" H1 H2 H3 H4 H5 H6 H7)).
  reflexivity.
Defined.

(** The gate on a ticket that fails the last test only. *)
Lemma gate_rejects_existing_jobs t w :
  is_Some (defendant t) -> is_Some (service t) ->
  lower (status t) ∉ ["closed"; "answered"] ->
  lower (category_name (category t)) ∈ ["phishing"; "copyright"; "illegal"] ->
  treatedBy t = None ->
  ticket_jobs (ticket_id t) w <> [] ->
  _check_timeout_ticket_conformance t w
  = (Ok false,
     set_logger
       (logger w
        ++ [(ERROR, "Ticket " +:+ fmt_d (ticket_id t)
                    +:+ " has existing jobs, exiting ...")]) w).
Proof.
  intros Hd Hs Hst Hc Ht Hj.
  unfold _check_timeout_ticket_conformance.
  rewrite !bool_decide_eq_true_2 by assumption. simpl.
  rewrite (bool_decide_eq_false_2 _ Hst).
  rewrite (bool_decide_eq_true_2 _ Hc). simpl.
  rewrite Ht. simpl.
  unfold bind, ticket_jobs_count, gets.
  destruct (ticket_jobs (ticket_id t) w) as [|j js]; [congruence|].
  reflexivity.
Qed.

(** X3. [timeout] does not dispatch twice.  After a run whose action
    failed, a second run on the same ticket id, with any number of polls,
    stops at the gate: the job attached by the first run makes the ticket
    non-conformant, one error is logged and nothing else changes. *)
Theorem timeout_not_repeated env polls polls' i t w action addr n :
  db_ticket w !! i = Some t ->
  conformant t w ->
  get_action_for_timeout env t = Some action ->
  ~ (lower (category_name (category t)) = "phishing"
     /\ is_all_down_for_ticket env t = true) ->
  ticket_target_set t = {[addr]} ->
  addr <> "" ->
  (n <= polls)%nat ->
  is_finished env n = true ->
  job_result env = false ->
  exists w1,
    timeout env polls i w = (Ok tt, w1)
    /\ timeout env polls' i w1
       = (Ok tt,
          set_logger
            (logger w1
             ++ [(ERROR, "Ticket " +:+ fmt_d (ticket_id t)
                         +:+ " has existing jobs, exiting ...")]) w1).
Proof.
  intros Hrow Hc Hact Hshort Hset Hne Hn Hfin Hres.
  eexists. split.
  { apply (timeout_action_failure_world env polls i t w action addr n);
      assumption. }
  match goal with |- timeout _ _ _ ?W = _ => set (w1 := W) end.
  destruct Hc as (Hd & Hs & Hst & Hcat & Ht & Hjobs).
  assert (Hj1 : ticket_jobs (ticket_id t) w1 <> []).
  { unfold w1, world_after_dispatch, ticket_jobs. world_fields.
    rewrite lookup_insert_eq. simpl. intros H.
    apply app_eq_nil in H as [_ H]. discriminate. }
  assert (Hrow1 : exists t1,
             db_ticket w1 !! i = Some t1
             /\ (t1 = t \/ t1 = with_action (Some action) t)).
  { unfold w1, world_after_dispatch. world_fields.
    destruct (decide (ticket_id t = i)) as [<-|Hi].
    - rewrite lookup_insert_eq. eauto.
    - rewrite lookup_insert_ne by exact Hi. eauto. }
  destruct Hrow1 as (t1 & Hrow1 & Ht1).
  assert (Hgate : _check_timeout_ticket_conformance t1 w1
                  = (Ok false,
                     set_logger
                       (logger w1
                        ++ [(ERROR, "Ticket " +:+ fmt_d (ticket_id t)
                                    +:+ " has existing jobs, exiting ...")])
                       w1)).
  { destruct Ht1 as [->| ->].
    - now apply gate_rejects_existing_jobs.
    - now apply (gate_rejects_existing_jobs (with_action (Some action) t)). }
  unfold timeout.
  rewrite (bind_ok _ _ _ _ _ (loads_ticket i t1 w1 _ _ Hrow1)).
  now rewrite (bind_ok _ _ _ _ _ Hgate).
Qed.

Lemma timeout_not_repeated_witness :
  db_ticket (ex_world ex_phishing_one) !! 7 = Some ex_phishing_one
  /\ conformant ex_phishing_one (ex_world ex_phishing_one)
  /\ get_action_for_timeout (ex_env false false) ex_phishing_one
     = Some ex_action
  /\ ~ (lower (category_name (category ex_phishing_one)) = "phishing"
        /\ is_all_down_for_ticket (ex_env false false) ex_phishing_one = true)
  /\ ticket_target_set ex_phishing_one = {["1.2.3.4"]}
  /\ "1.2.3.4" <> ""
  /\ (2 <= 2)%nat
  /\ is_finished (ex_env false false) 2 = true
  /\ job_result (ex_env false false) = false
  /\ exists w1,
       timeout (ex_env false false) 2 7 (ex_world ex_phishing_one)
       = (Ok tt, w1)
       /\ timeout (ex_env false false) 5 7 w1
          = (Ok tt,
             set_logger
               (logger w1
                ++ [(ERROR, "Ticket " +:+ fmt_d (ticket_id ex_phishing_one)
                            +:+ " has existing jobs, exiting ...")]) w1).
Proof.
  assert (H1 : db_ticket (ex_world ex_phishing_one) !! 7
               = Some ex_phishing_one) by reflexivity.
  assert (H2 : conformant ex_phishing_one (ex_world ex_phishing_one))
    by by_evaluation.
  assert (H3 : get_action_for_timeout (ex_env false false) ex_phishing_one
               = Some ex_action) by reflexivity.
  assert (H4 : ~ (lower (category_name (category ex_phishing_one))
                  = "phishing"
                  /\ is_all_down_for_ticket (ex_env false false)
                       ex_phishing_one = true)) by by_evaluation.
  assert (H5 : ticket_target_set ex_phishing_one = {["1.2.3.4"]})
    by by_evaluation.
  assert (H6 : "1.2.3.4" <> "") by discriminate.
  assert (H7 : (2 <= 2)%nat) by lia.
  assert (H8 : is_finished (ex_env false false) 2 = true) by reflexivity.
  assert (H9 : job_result (ex_env false false) = false) by reflexivity.
  repeat (split; [assumption|]).
  exact (timeout_not_repeated (ex_env false false) 2 5 7 ex_phishing_one
           (ex_world ex_phishing_one) ex_action "1.2.3.4" 2
           H1 H2 H3 H4 H5 H6 H7 H8 H9).
Defined.

(** X4. When the dispatched job succeeds, [timeout] closes the ticket on the
    remediation path, provided the autoclose tag of the category, if it has
    one, is in the tag table: the row is saved as [Closed] with reason
    [fixed] and the action recorded, the outbox gains the "case closed"
    mail to the contacted providers and the "service blocked" mail to the
    defendant, in that order, and the tags of the ticket are the former
    ones plus the autoclose tag. *)
Theorem timeout_action_success_closes env polls i t w action addr n :
  db_ticket w !! i = Some t ->
  conformant t w ->
  get_action_for_timeout env t = Some action ->
  ~ (lower (category_name (category t)) = "phishing"
     /\ is_all_down_for_ticket env t = true) ->
  ticket_target_set t = {[addr]} ->
  addr <> "" ->
  (n <= polls)%nat ->
  is_finished env n = true ->
  job_result env = true ->
  TAGS_phishing_autoclosed (settings env) <> "" ->
  TAGS_copyright_autoclosed (settings env) <> "" ->
  (forall name, autoclose_tag (settings env) t = Some name ->
                name ∈ db_tag w) ->
  exists d w',
    defendant t = Some d
    /\ timeout env polls i w = (Ok tt, w')
    /\ db_ticket w' !! ticket_id t
       = Some (with_status "Closed"
                 (with_resolution (Some (CODENAMES_fixed (settings env)))
                    (with_action (Some action) t)))
    /\ outbox w' = outbox w ++ closing_mails env t true d w
    /\ (forall x,
          x ∈ ticket_tags (ticket_id t) w'
          <-> x ∈ ticket_tags (ticket_id t) w
              \/ autoclose_tag (settings env) t = Some x).
Proof.
  intros Hrow Hc Hact Hshort Hset Hne Hn Hfin Hres Hp Hcp Htag.
  rewrite (timeout_action_success env polls i t w action addr n)
    by assumption.
  destruct Hc as ([d Hd] & _).
  set (ta := with_action (Some action) t).
  match goal with
  | |- context [_close_ticket env ta _ true ?W] => set (ws := W)
  end.
  set (w2 := set_outbox (outbox ws ++ closing_mails env ta true d ws) ws).
  assert (Hname : truthy_str (timeout_tag_name env ta)
                  = autoclose_tag (settings env) t)
    by exact (add_timeout_tag_name env ta Hp Hcp).
  assert (Hrun : exists w3, _add_timeout_tag env ta w2 = (Ok tt, w3)).
  { destruct (autoclose_tag (settings env) t) as [name|] eqn:Hauto.
    - eexists. apply (add_timeout_tag_some env ta w2 name Hname).
      exact (Htag name eq_refl).
    - eexists. apply (add_timeout_tag_none env ta w2 Hname). }
  destruct Hrun as (w3 & Hrun).
  destruct (add_timeout_tag_frame env ta w2 w3 Hrun) as (Hout & _).
  pose proof (add_timeout_tag_tags env ta w2 w3 Hrun) as Htags.
  destruct (close_ticket_frame ta (CODENAMES_fixed (settings env)) w3)
    as (Ftags & Fout & _).
  exists d, (snd (close_ticket ta (CODENAMES_fixed (settings env)) w3)).
  split; [exact Hd|]. split.
  { apply (close_ticket_run env ta _ true ws d w3 Hd Hrun). }
  split; [apply (close_ticket_row ta)|].
  split.
  - rewrite Fout, Hout. unfold w2, ws, world_after_dispatch. world_fields.
    reflexivity.
  - intros x. unfold ticket_tags at 1. rewrite Ftags.
    change (x ∈ ticket_tags (ticket_id ta) w3
            <-> x ∈ ticket_tags (ticket_id t) w
                \/ autoclose_tag (settings env) t = Some x).
    rewrite (Htags x), Hname. reflexivity.
Qed.

Lemma timeout_action_success_closes_witness :
  db_ticket (ex_world ex_phishing_one) !! 7 = Some ex_phishing_one
  /\ conformant ex_phishing_one (ex_world ex_phishing_one)
  /\ get_action_for_timeout (ex_env false true) ex_phishing_one
     = Some ex_action
  /\ ~ (lower (category_name (category ex_phishing_one)) = "phishing"
        /\ is_all_down_for_ticket (ex_env false true) ex_phishing_one = true)
  /\ ticket_target_set ex_phishing_one = {["1.2.3.4"]}
  /\ "1.2.3.4" <> ""
  /\ (2 <= 2)%nat
  /\ is_finished (ex_env false true) 2 = true
  /\ job_result (ex_env false true) = true
  /\ TAGS_phishing_autoclosed (settings (ex_env false true)) <> ""
  /\ TAGS_copyright_autoclosed (settings (ex_env false true)) <> ""
  /\ (forall name,
        autoclose_tag (settings (ex_env false true)) ex_phishing_one
        = Some name ->
        name ∈ db_tag (ex_world ex_phishing_one))
  /\ fst (timeout (ex_env false true) 2 7 (ex_world ex_phishing_one)) = Ok tt
  /\ status <$> db_ticket (snd (timeout (ex_env false true) 2 7
                                  (ex_world ex_phishing_one))) !! 7
     = Some "Closed".
Proof.
  assert (H1 : db_ticket (ex_world ex_phishing_one) !! 7
               = Some ex_phishing_one) by reflexivity.
  assert (H2 : conformant ex_phishing_one (ex_world ex_phishing_one))
    by by_evaluation.
  assert (H3 : get_action_for_timeout (ex_env false true) ex_phishing_one
               = Some ex_action) by reflexivity.
  assert (H4 : ~ (lower (category_name (category ex_phishing_one))
                  = "phishing"
                  /\ is_all_down_for_ticket (ex_env false true)
                       ex_phishing_one = true)) by by_evaluation.
  assert (H5 : ticket_target_set ex_phishing_one = {["1.2.3.4"]})
    by by_evaluation.
  assert (H6 : "1.2.3.4" <> "") by discriminate.
  assert (H7 : (2 <= 2)%nat) by lia.
  assert (H8 : is_finished (ex_env false true) 2 = true) by reflexivity.
  assert (H9 : job_result (ex_env false true) = true) by reflexivity.
  assert (H10 : TAGS_phishing_autoclosed (settings (ex_env false true)) <> "")
    by discriminate.
  assert (H11 : TAGS_copyright_autoclosed (settings (ex_env false true)) <> "")
    by discriminate.
  assert (H12 : forall name,
             autoclose_tag (settings (ex_env false true)) ex_phishing_one
             = Some name ->
             name ∈ db_tag (ex_world ex_phishing_one)).
  { intros name [= <-]. by_evaluation. }
  repeat (split; [assumption|]).
  destruct (timeout_action_success_closes (ex_env false true) 2 7
              ex_phishing_one (ex_world ex_phishing_one) ex_action "1.2.3.4" 2
              H1 H2 H3 H4 H5 H6 H7 H8 H9 H10 H11 H12)
    as (d & w' & _ & Hrun & Hrow & _).
  rewrite Hrun. split; [reflexivity|]. cbn [snd].
  change 7 with (ticket_id ex_phishing_one). rewrite Hrow. reflexivity.
Defined.

(** ** [_close_ticket] is not atomic *)

(** X5. The mails of [_close_ticket] leave before the tag is looked up.
    When the category has an autoclose tag and the tag table has no row of
    that name, [_close_ticket] raises [ObjectDoesNotExist]; both closing
    mails are then already in the outbox, and nothing else was written: the
    ticket is not closed, not tagged, and the audit trail is as it was. *)
Theorem close_ticket_missing_tag env t reason service_blocked w d name :
  TAGS_phishing_autoclosed (settings env) <> "" ->
  TAGS_copyright_autoclosed (settings env) <> "" ->
  defendant t = Some d ->
  autoclose_tag (settings env) t = Some name ->
  name ∉ db_tag w ->
  _close_ticket env t reason service_blocked w
  = (Raise ObjectDoesNotExist,
     set_outbox (outbox w ++ closing_mails env t service_blocked d w) w).
Proof.
  intros Hp Hc Hd Hauto Hmiss.
  rewrite (close_ticket_mails env t reason service_blocked w d Hd).
  apply bind_raise.
  apply (add_timeout_tag_missing env t _ name).
  - now rewrite (add_timeout_tag_name env t Hp Hc).
  - exact Hmiss.
Qed.

Lemma close_ticket_missing_tag_witness :
  TAGS_phishing_autoclosed (settings (ex_env true true)) <> ""
  /\ TAGS_copyright_autoclosed (settings (ex_env true true)) <> ""
  /\ defendant ex_phishing_one = Some ex_defendant
  /\ autoclose_tag (settings (ex_env true true)) ex_phishing_one
     = Some "phishing:autoclosed"
  /\ ("phishing:autoclosed" ∉ db_tag (ex_world_no_tags ex_phishing_one))
  /\ fst (_close_ticket (ex_env true true) ex_phishing_one "fixed" true
            (ex_world_no_tags ex_phishing_one))
     = Raise ObjectDoesNotExist
  /\ length (outbox (snd (_close_ticket (ex_env true true) ex_phishing_one
                            "fixed" true (ex_world_no_tags ex_phishing_one))))
     = 2%nat.
Proof.
  assert (H1 : TAGS_phishing_autoclosed (settings (ex_env true true)) <> "")
    by discriminate.
  assert (H2 : TAGS_copyright_autoclosed (settings (ex_env true true)) <> "")
    by discriminate.
  assert (H3 : defendant ex_phishing_one = Some ex_defendant) by reflexivity.
  assert (H4 : autoclose_tag (settings (ex_env true true)) ex_phishing_one
               = Some "phishing:autoclosed") by reflexivity.
  assert (H5 : "phishing:autoclosed"
               ∉ db_tag (ex_world_no_tags ex_phishing_one)) by by_evaluation.
  repeat (split; [assumption|]).
  rewrite (close_ticket_missing_tag (ex_env true true) ex_phishing_one
             "fixed" true (ex_world_no_tags ex_phishing_one) ex_defendant
             "phishing:autoclosed" H1 H2 H3 H4 H5).
  split; reflexivity.
Defined.

(** X6. On a ticket without a defendant [_close_ticket] raises
    [AttributeError] when it reads the defendant's address; the "case
    closed" mail to the contacted providers has already been sent, and
    nothing else was written. *)
Theorem close_ticket_without_defendant env t reason service_blocked w :
  defendant t = None ->
  _close_ticket env t reason service_blocked w
  = (Raise AttributeError,
     set_outbox (outbox w ++ [provider_mail env t w]) w).
Proof.
  intros Hd. unfold _close_ticket, provider_mail. run_steps.
  now rewrite Hd.
Qed.

Lemma close_ticket_without_defendant_witness :
  defendant ex_no_defendant = None
  /\ _close_ticket (ex_env true true) ex_no_defendant "fixed" true
       (ex_world ex_no_defendant)
     = (Raise AttributeError,
        set_outbox [mkEmail 7 ["abuse@isp.example"] "case_closed" None]
          (ex_world ex_no_defendant)).
Proof.
  assert (H1 : defendant ex_no_defendant = None) by reflexivity.
  split; [exact H1|].
  rewrite (close_ticket_without_defendant (ex_env true true) ex_no_defendant
             "fixed" true (ex_world ex_no_defendant) H1).
  reflexivity.
Defined.

(** ** What a cancellation does to the scheduler and to the job rows *)

Lemma NoDup_fmap_eq {A B} (f : A -> B) (l : list A) x y :
  NoDup (f <$> l) -> x ∈ l -> y ∈ l -> f x = f y -> x = y.
Proof.
  induction l as [|a l IH]; intros Hnd Hx Hy Hf.
  - now apply elem_of_nil in Hx.
  - rewrite fmap_cons in Hnd. apply NoDup_cons in Hnd as [Ha Hnd].
    apply elem_of_cons in Hx as [->|Hx]; apply elem_of_cons in Hy as [->|Hy].
    + reflexivity.
    + exfalso. apply Ha. rewrite Hf. apply list_elem_of_fmap. eauto.
    + exfalso. apply Ha. rewrite <- Hf. apply list_elem_of_fmap. eauto.
    + now apply IH.
Qed.

Lemma in_scheduler_filter_ne h jid s :
  h <> jid ->
  in_scheduler h (filter (fun j => sj_id j <> jid) s) = in_scheduler h s.
Proof.
  intros Hne. unfold in_scheduler. apply bool_decide_ext.
  rewrite !list_elem_of_fmap. split.
  - intros (j & -> & Hj). apply list_elem_of_filter in Hj as [_ Hj]. eauto.
  - intros (j & -> & Hj). exists j. split; [reflexivity|].
    apply list_elem_of_filter. split; [exact Hne|exact Hj].
Qed.

(** The first loop, row by row: with distinct handles on the jobs still to
    visit, each of them is marked exactly when its handle was pending at the
    start; the rows already visited and the jobs of the other tickets are
    left alone. *)
Lemma cancel_ticket_jobs_rows i s : forall jobs k w,
  drop k (ticket_jobs i w) = jobs ->
  NoDup (asynchronousJobId <$> jobs) ->
  exists w',
    cancel_ticket_jobs i s k jobs w = (Ok tt, w')
    /\ ticket_jobs i w'
       = take k (ticket_jobs i w) ++ (cancelled_row s (scheduler w) <$> jobs)
    /\ (forall i', i' <> i -> ticket_jobs i' w' = ticket_jobs i' w).
Proof.
  induction jobs as [|job rest IH]; intros k w Hdrop Hnd.
  - exists w. split; [reflexivity|]. split; [|reflexivity].
    rewrite fmap_nil, app_nil_r.
    rewrite <- (take_drop k (ticket_jobs i w)) at 1.
    now rewrite Hdrop, app_nil_r.
  - assert (Hk : ticket_jobs i w !! k = Some job).
    { rewrite <- (Nat.add_0_r k), <- lookup_drop, Hdrop. reflexivity. }
    assert (Hrest : drop (S k) (ticket_jobs i w) = rest).
    { rewrite (drop_S _ _ _ Hk) in Hdrop. now injection Hdrop. }
    rewrite fmap_cons in Hnd. apply NoDup_cons in Hnd as [Hfresh Hnd].
    cbn [cancel_ticket_jobs]. unfold bind at 1, gets.
    destruct (in_scheduler (asynchronousJobId job) (scheduler w)) eqn:Hp.
    + unfold bind at 1. rewrite cancel_step.
      match goal with
      | |- context [cancel_ticket_jobs i s (S k) rest ?next] =>
          set (w1 := next)
      end.
      assert (Hjobs1 : ticket_jobs i w1
                       = <[k := with_job_status ("cancelled by " +:+ s) job]>
                           (ticket_jobs i w)).
      { unfold w1, ticket_jobs at 1. simpl. now rewrite lookup_insert_eq. }
      assert (Hother1 : forall i', i' <> i ->
                          ticket_jobs i' w1 = ticket_jobs i' w).
      { intros i' Hi'. unfold w1, ticket_jobs. simpl.
        now rewrite lookup_insert_ne by congruence. }
      destruct (IH (S k) w1) as (w' & Hrun & Hrows & Hother).
      { rewrite Hjobs1, drop_insert_lt by lia. exact Hrest. }
      { exact Hnd. }
      exists w'. split; [exact Hrun|]. split.
      * rewrite Hrows, Hjobs1.
        assert (Hlen : (k < length (ticket_jobs i w))%nat)
          by (apply lookup_lt_is_Some; eauto).
        rewrite (take_S_r _ k (with_job_status ("cancelled by " +:+ s) job))
          by (now apply list_lookup_insert_eq).
        rewrite take_insert_ge by lia.
        rewrite <- app_assoc. f_equal. rewrite fmap_cons. cbn [app].
        f_equal.
        -- unfold cancelled_row. now rewrite Hp.
        -- apply Forall_fmap_ext, Forall_forall. intros job' Hin.
           unfold cancelled_row, w1. world_fields.
           rewrite in_scheduler_filter_ne; [reflexivity|].
           intros Heq. apply Hfresh. rewrite <- Heq.
           apply list_elem_of_fmap. eauto.
      * intros i' Hi'. rewrite (Hother i' Hi'). now apply Hother1.
    + unfold bind at 1. cbv [ret].
      destruct (IH (S k) w Hrest Hnd) as (w' & Hrun & Hrows & Hother).
      exists w'. split; [exact Hrun|]. split; [|exact Hother].
      rewrite Hrows, (take_S_r _ k job) by exact Hk.
      rewrite <- app_assoc. f_equal. rewrite fmap_cons. cbn [app].
      f_equal. unfold cancelled_row. now rewrite Hp.
Qed.

(** X7. With unique handles in the scheduler, a cancellation removes from
    it all the pending jobs of the ticket and no other: a job stays pending
    exactly when its handle is not one of the ticket's jobs and it is not a
    cancellable job scheduled for that ticket id.  Jobs of the same kind
    scheduled for other tickets, and jobs of other kinds, are never
    cancelled. *)
Theorem cancel_rq_scheduler_jobs_scope i status' t w :
  db_ticket w !! i = Some t ->
  scheduler_wf (scheduler w) ->
  NoDup (sj_id <$> scheduler w) ->
  exists w1,
    cancel_rq_scheduler_jobs i status' w = (Ok tt, w1)
    /\ forall j,
         j ∈ scheduler w1
         <-> j ∈ scheduler w
             /\ (sj_id j
                 ∉ (asynchronousJobId <$> ticket_jobs (ticket_id t) w))
             /\ ~ (func_name j ∈ ASYNC_JOB_TO_CANCEL
                   /\ exists v, kwargs j !! "ticket_id" = Some v
                                /\ py_eq_int v (ticket_id t) = true).
Proof.
  intros Hrow Hwf Hnd.
  destruct (cancel_ticket_jobs_run (ticket_id t) status'
              (ticket_jobs (ticket_id t) w) 0 w eq_refl)
    as (wa & Hrun1 & Hsched1 & _).
  assert (Hwfa : scheduler_wf (scheduler wa)).
  { unfold scheduler_wf in *. rewrite Forall_forall in *.
    intros j Hj. apply Hwf. now apply Hsched1. }
  destruct (cancel_pending_jobs_run t (scheduler wa) wa Hwfa)
    as (w1 & Hrun2 & Hsched2 & _).
  exists w1. split.
  - unfold cancel_rq_scheduler_jobs.
    rewrite (bind_ok _ _ _ _ _ (loads_ticket i t w _ _ Hrow)).
    unfold bind at 1, gets. rewrite (bind_ok _ _ _ _ _ Hrun1).
    unfold bind at 1, gets. exact Hrun2.
  - assert (Hmatch : forall j,
               scheduled_for_ticket (ticket_id t) j = true
               <-> func_name j ∈ ASYNC_JOB_TO_CANCEL
                   /\ exists v, kwargs j !! "ticket_id" = Some v
                                /\ py_eq_int v (ticket_id t) = true).
    { intros j. unfold scheduled_for_ticket.
      rewrite andb_true_iff, bool_decide_eq_true.
      destruct (kwargs j !! "ticket_id") as [v|]; split.
      - intros [Hf Hv]. eauto.
      - intros [Hf (v' & [= <-] & Hv)]. auto.
      - intros [_ ?]. discriminate.
      - intros [_ (v' & ? & _)]. discriminate. }
    intros j. rewrite Hsched2, Hsched1, <- Hmatch. split.
    + intros [[Hj Hno] Hnm]. split; [exact Hj|]. split; [exact Hno|].
      intros Hm. apply Hnm. apply list_elem_of_fmap. exists j.
      split; [reflexivity|]. apply list_elem_of_filter. split; [exact Hm|].
      apply Hsched1. split; assumption.
    + intros (Hj & Hno & Hnm). split; [split; assumption|].
      intros Hin. apply list_elem_of_fmap in Hin as (j' & Heq & Hj').
      apply list_elem_of_filter in Hj' as [Hm' Hj'].
      apply Hsched1 in Hj' as [Hj' _].
      assert (j = j') by (apply (NoDup_fmap_eq sj_id (scheduler w)); auto).
      subst j'. contradiction.
Qed.

Lemma cancel_rq_scheduler_jobs_scope_witness :
  db_ticket ex_cancel_world !! 7 = Some ex_phishing_one
  /\ scheduler_wf (scheduler ex_cancel_world)
  /\ NoDup (sj_id <$> scheduler ex_cancel_world)
  /\ exists w1,
       cancel_rq_scheduler_jobs 7 "answered" ex_cancel_world = (Ok tt, w1)
       /\ sj_id <$> scheduler w1 = ["job-x"; "job-y"]
       /\ forall j,
            j ∈ scheduler w1
            <-> j ∈ scheduler ex_cancel_world
                /\ (sj_id j
                    ∉ (asynchronousJobId
                         <$> ticket_jobs (ticket_id ex_phishing_one)
                               ex_cancel_world))
                /\ ~ (func_name j ∈ ASYNC_JOB_TO_CANCEL
                      /\ exists v,
                           kwargs j !! "ticket_id" = Some v
                           /\ py_eq_int v (ticket_id ex_phishing_one) = true).
Proof.
  assert (H1 : db_ticket ex_cancel_world !! 7 = Some ex_phishing_one)
    by reflexivity.
  assert (H2 : scheduler_wf (scheduler ex_cancel_world)) by by_evaluation.
  assert (H3 : NoDup (sj_id <$> scheduler ex_cancel_world)) by by_evaluation.
  repeat (split; [assumption|]).
  destruct (cancel_rq_scheduler_jobs_scope 7 "answered" ex_phishing_one
              ex_cancel_world H1 H2 H3) as (w1 & Hrun & Hscope).
  exists w1. split; [exact Hrun|]. split; [|exact Hscope].
  assert (Hw1 : w1 = snd (cancel_rq_scheduler_jobs 7 "answered"
                            ex_cancel_world)) by (now rewrite Hrun).
  rewrite Hw1. reflexivity.
Defined.

(** X8. With distinct handles on the jobs of the ticket, a cancellation
    marks exactly the jobs whose handle was pending when it started: their
    status becomes "cancelled by" followed by the reason given, the other
    jobs of the ticket keep their row, the jobs stay in the same number and
    order, and the jobs of every other ticket are untouched. *)
Theorem cancel_rq_scheduler_jobs_marks i status' t w :
  db_ticket w !! i = Some t ->
  scheduler_wf (scheduler w) ->
  NoDup (asynchronousJobId <$> ticket_jobs (ticket_id t) w) ->
  exists w1,
    cancel_rq_scheduler_jobs i status' w = (Ok tt, w1)
    /\ ticket_jobs (ticket_id t) w1
       = cancelled_row status' (scheduler w) <$> ticket_jobs (ticket_id t) w
    /\ (forall i', i' <> ticket_id t -> ticket_jobs i' w1 = ticket_jobs i' w).
Proof.
  intros Hrow Hwf Hnd.
  destruct (cancel_ticket_jobs_rows (ticket_id t) status'
              (ticket_jobs (ticket_id t) w) 0 w eq_refl Hnd)
    as (wa & Hrun1 & Hrows & Hother).
  destruct (cancel_ticket_jobs_run (ticket_id t) status'
              (ticket_jobs (ticket_id t) w) 0 w eq_refl)
    as (wa' & Hrun1' & Hsched1 & _).
  assert (wa' = wa) by congruence. subst wa'.
  assert (Hwfa : scheduler_wf (scheduler wa)).
  { unfold scheduler_wf in *. rewrite Forall_forall in *.
    intros j Hj. apply Hwf. now apply Hsched1. }
  destruct (cancel_pending_jobs_run t (scheduler wa) wa Hwfa)
    as (w1 & Hrun2 & _ & Hjobs2 & _).
  exists w1. split; [|split].
  - unfold cancel_rq_scheduler_jobs.
    rewrite (bind_ok _ _ _ _ _ (loads_ticket i t w _ _ Hrow)).
    unfold bind at 1, gets. rewrite (bind_ok _ _ _ _ _ Hrun1).
    unfold bind at 1, gets. exact Hrun2.
  - rewrite (ticket_jobs_same _ wa w1 Hjobs2), Hrows. reflexivity.
  - intros i' Hi'. rewrite (ticket_jobs_same _ wa w1 Hjobs2).
    now apply Hother.
Qed.

Lemma cancel_rq_scheduler_jobs_marks_witness :
  db_ticket ex_cancel_world !! 7 = Some ex_phishing_one
  /\ scheduler_wf (scheduler ex_cancel_world)
  /\ NoDup (asynchronousJobId
              <$> ticket_jobs (ticket_id ex_phishing_one) ex_cancel_world)
  /\ exists w1,
       cancel_rq_scheduler_jobs 7 "answered" ex_cancel_world = (Ok tt, w1)
       /\ job_status <$> ticket_jobs 7 w1
          = [Some "cancelled by answered"; None].
Proof.
  assert (H1 : db_ticket ex_cancel_world !! 7 = Some ex_phishing_one)
    by reflexivity.
  assert (H2 : scheduler_wf (scheduler ex_cancel_world)) by by_evaluation.
  assert (H3 : NoDup (asynchronousJobId
                        <$> ticket_jobs (ticket_id ex_phishing_one)
                              ex_cancel_world)) by by_evaluation.
  repeat (split; [assumption|]).
  destruct (cancel_rq_scheduler_jobs_marks 7 "answered" ex_phishing_one
              ex_cancel_world H1 H2 H3) as (w1 & Hrun & Hrows & _).
  exists w1. split; [exact Hrun|].
  change 7 with (ticket_id ex_phishing_one). rewrite Hrows. reflexivity.
Defined.

(** The second loop fails on the first cancellable job without a
    [ticket_id] argument, if an earlier one has not failed before. *)
Lemma cancel_pending_jobs_key_error t : forall l w j,
  j ∈ l -> func_name j ∈ ASYNC_JOB_TO_CANCEL ->
  kwargs j !! "ticket_id" = None ->
  fst (for_each l (cancel_pending_job t) w) = Raise KeyError.
Proof.
  induction l as [|job rest IH]; intros w j Hin Hf Hk.
  - now apply elem_of_nil in Hin.
  - cbn [for_each]. unfold bind at 1.
    assert (Hstep : (exists w', cancel_pending_job t job w = (Ok tt, w')
                                /\ job <> j)
                    \/ cancel_pending_job t job w = (Raise KeyError, w)).
    { unfold cancel_pending_job.
      case_bool_decide as Hfj.
      - unfold bind, getitem.
        destruct (kwargs job !! "ticket_id") as [v|] eqn:Hv.
        + left. cbv [ret].
          destruct (py_eq_int v (ticket_id t)); eexists;
            (split; [reflexivity|congruence]).
        + now right.
      - left. eexists. split; [reflexivity|]. congruence. }
    destruct Hstep as [(w' & -> & Hne)| ->]; [|reflexivity].
    apply (IH w' j); [|exact Hf|exact Hk].
    apply elem_of_cons in Hin as [->|Hin]; [congruence|exact Hin].
Qed.

(** X9. A pending job with a cancellable function name and no [ticket_id]
    keyword argument breaks the cancellation for every ticket: unless its
    handle is one of the jobs of the ticket (and is cancelled by the first
    loop), the lookup [job.kwargs['ticket_id']] of the second loop raises
    [KeyError], which nothing catches. *)
Theorem cancel_rq_scheduler_jobs_missing_ticket_id i status' t w j :
  db_ticket w !! i = Some t ->
  j ∈ scheduler w ->
  func_name j ∈ ASYNC_JOB_TO_CANCEL ->
  kwargs j !! "ticket_id" = None ->
  sj_id j ∉ (asynchronousJobId <$> ticket_jobs (ticket_id t) w) ->
  fst (cancel_rq_scheduler_jobs i status' w) = Raise KeyError.
Proof.
  intros Hrow Hj Hf Hk Hno.
  destruct (cancel_ticket_jobs_run (ticket_id t) status'
              (ticket_jobs (ticket_id t) w) 0 w eq_refl)
    as (wa & Hrun1 & Hsched1 & _).
  unfold cancel_rq_scheduler_jobs.
  rewrite (bind_ok _ _ _ _ _ (loads_ticket i t w _ _ Hrow)).
  unfold bind at 1, gets. rewrite (bind_ok _ _ _ _ _ Hrun1).
  unfold bind at 1, gets.
  apply (cancel_pending_jobs_key_error t (scheduler wa) wa j);
    [|exact Hf|exact Hk].
  apply Hsched1. split; assumption.
Qed.

Lemma cancel_rq_scheduler_jobs_missing_ticket_id_witness :
  db_ticket ex_cancel_world_bad_job !! 7 = Some ex_phishing_one
  /\ mkSchedJob "job-z" "ticket.timeout" ∅ 0
     ∈ scheduler ex_cancel_world_bad_job
  /\ func_name (mkSchedJob "job-z" "ticket.timeout" ∅ 0)
     ∈ ASYNC_JOB_TO_CANCEL
  /\ kwargs (mkSchedJob "job-z" "ticket.timeout" ∅ 0) !! "ticket_id" = None
  /\ (sj_id (mkSchedJob "job-z" "ticket.timeout" ∅ 0)
      ∉ (asynchronousJobId
           <$> ticket_jobs (ticket_id ex_phishing_one)
                 ex_cancel_world_bad_job))
  /\ fst (cancel_rq_scheduler_jobs 7 "answered" ex_cancel_world_bad_job)
     = Raise KeyError.
Proof.
  assert (H1 : db_ticket ex_cancel_world_bad_job !! 7 = Some ex_phishing_one)
    by reflexivity.
  assert (H2 : mkSchedJob "job-z" "ticket.timeout" ∅ 0
               ∈ scheduler ex_cancel_world_bad_job)
    by (cbn; repeat constructor).
  assert (H3 : func_name (mkSchedJob "job-z" "ticket.timeout" ∅ 0)
               ∈ ASYNC_JOB_TO_CANCEL) by by_evaluation.
  assert (H4 : kwargs (mkSchedJob "job-z" "ticket.timeout" ∅ 0)
               !! "ticket_id" = None) by reflexivity.
  assert (H5 : sj_id (mkSchedJob "job-z" "ticket.timeout" ∅ 0)
               ∉ (asynchronousJobId
                    <$> ticket_jobs (ticket_id ex_phishing_one)
                          ex_cancel_world_bad_job)) by by_evaluation.
  repeat (split; [assumption|]).
  exact (cancel_rq_scheduler_jobs_missing_ticket_id 7 "answered"
           ex_phishing_one ex_cancel_world_bad_job _ H1 H2 H3 H4 H5).
Defined.

(** ** Delaying the jobs of a ticket *)

(** The dict built from the pending jobs, with unique handles: a handle
    maps to the job that carries it. *)
Lemma pending_jobs_lookup : forall (l : list SchedJob) (m0 : gmap string SchedJob),
  NoDup (sj_id <$> l) ->
  (forall j, j ∈ l -> m0 !! sj_id j = None) ->
  forall h p,
    foldl (fun m j => <[sj_id j := j]> m) m0 l !! h = Some p
    <-> m0 !! h = Some p \/ (p ∈ l /\ sj_id p = h).
Proof.
  induction l as [|a l IH]; intros m0 Hnd Hfresh h p.
  - simpl. split; [auto|]. intros [H|[H _]]; [exact H|].
    now apply elem_of_nil in H.
  - rewrite fmap_cons in Hnd. apply NoDup_cons in Hnd as [Ha Hnd].
    cbn [foldl]. rewrite IH; [|exact Hnd|].
    + destruct (decide (sj_id a = h)) as [<-|Hne].
      * rewrite lookup_insert_eq. split.
        -- intros [[= <-]|[Hp Hid]].
           ++ right. split; [apply elem_of_cons; auto|reflexivity].
           ++ right. split; [apply elem_of_cons; auto|exact Hid].
        -- intros [Hm|[Hp Hid]].
           ++ rewrite (Hfresh a) in Hm by (apply elem_of_cons; auto).
              discriminate.
           ++ apply elem_of_cons in Hp as [->|Hp]; [now left|].
              right. split; assumption.
      * rewrite lookup_insert_ne by exact Hne. split.
        -- intros [Hm|[Hp Hid]]; [now left|].
           right. split; [apply elem_of_cons; auto|exact Hid].
        -- intros [Hm|[Hp Hid]]; [now left|].
           apply elem_of_cons in Hp as [->|Hp]; [congruence|].
           right. split; assumption.
    + intros j Hj. rewrite lookup_insert_ne.
      * apply Hfresh. apply elem_of_cons. auto.
      * intros Heq. apply Ha. rewrite Heq. apply list_elem_of_fmap. eauto.
Qed.

Lemma delayed_job_id env handles delay back j :
  sj_id (delayed_job env handles delay back j) = sj_id j.
Proof. unfold delayed_job. now destruct (_ && _). Qed.

Lemma delayed_job_ids env handles delay back (s : list SchedJob) :
  sj_id <$> (delayed_job env handles delay back <$> s) = sj_id <$> s.
Proof.
  rewrite <- list_fmap_compose. apply Forall_fmap_ext, Forall_forall.
  intros j _. apply delayed_job_id.
Qed.

Lemma set_scheduler_twice x y w :
  set_scheduler x (set_scheduler y w) = set_scheduler x w.
Proof. reflexivity. Qed.

Lemma scheduler_set_scheduler x w : scheduler (set_scheduler x w) = x.
Proof. reflexivity. Qed.



(** The loop of [delay_jobs] over the jobs of the ticket, [done] being the
    handles already visited: the scheduler goes from the pending jobs
    delayed for [done] to the pending jobs delayed for all the handles. *)
Lemma delay_jobs_loop env delay back s0 (P : gmap string SchedJob) :
  NoDup (sj_id <$> s0) ->
  (forall h p, P !! h = Some p
               <-> p ∈ s0 /\ sj_id p = h
                   /\ scheduled_time p <= delay_horizon env) ->
  forall jobs done w,
    scheduler w = delayed_job env done delay back <$> s0 ->
    for_each jobs
      (fun job =>
         match P !! asynchronousJobId job with
         | Some pending =>
             let current_date := scheduled_time pending in
             let new_date :=
               if back then current_date - delay else current_date + delay in
             change_execution_time (sj_id pending) new_date
         | None => ret tt
         end) w
    = (Ok tt,
       set_scheduler
         (delayed_job env (done ++ (asynchronousJobId <$> jobs)) delay back
            <$> s0) w).
Proof.
  intros Hnd HP. induction jobs as [|job rest IH]; intros done w Hw.
  - cbn [for_each]. rewrite fmap_nil, app_nil_r, <- Hw. now destruct w.
  - cbn [for_each]. unfold bind at 1.
    rewrite fmap_cons.
    replace (done ++ asynchronousJobId job :: (asynchronousJobId <$> rest))
      with ((done ++ [asynchronousJobId job]) ++ (asynchronousJobId <$> rest))
      by (now rewrite <- app_assoc).
    set (h := asynchronousJobId job).
    destruct (P !! h) as [p|] eqn:Hp.
    + apply HP in Hp as (Hin & Hid & Hwin).
      unfold change_execution_time.
      assert (Hpres : in_scheduler (sj_id p) (scheduler w) = true).
      { unfold in_scheduler. apply bool_decide_eq_true_2.
        rewrite Hw, delayed_job_ids. apply list_elem_of_fmap. eauto. }
      rewrite Hpres.
      rewrite (IH (done ++ [h])).
      * now rewrite set_scheduler_twice.
      * rewrite scheduler_set_scheduler, Hw, <- list_fmap_compose.
        apply Forall_fmap_ext, Forall_forall. intros j Hj. cbn [compose].
        rewrite delayed_job_id.
        destruct (decide (sj_id j = sj_id p)) as [Heq|Hne].
        -- assert (j = p) by (now apply (NoDup_fmap_eq sj_id s0)). subst j.
           rewrite (bool_decide_eq_true_2 _ Heq).
           assert (Hr : delayed_job env (done ++ [h]) delay back p
                        = mkSchedJob (sj_id p) (func_name p) (kwargs p)
                            (if back then scheduled_time p - delay
                             else scheduled_time p + delay)).
           { unfold delayed_job.
             rewrite (bool_decide_eq_true_2 (sj_id p ∈ done ++ [h]))
               by (rewrite elem_of_app, list_elem_of_singleton; auto).
             now rewrite (bool_decide_eq_true_2 _ Hwin). }
           rewrite Hr. unfold delayed_job.
           destruct (_ && _); reflexivity.
        -- rewrite (bool_decide_eq_false_2 _ Hne).
           unfold delayed_job.
           assert (Hmem : sj_id j ∈ done ++ [h] <-> sj_id j ∈ done).
           { rewrite elem_of_app, list_elem_of_singleton. split; [|auto].
             intros [?|?]; [assumption|congruence]. }
           now rewrite (bool_decide_ext _ _ Hmem).
    + cbv [ret]. apply IH. rewrite Hw.
      apply Forall_fmap_ext, Forall_forall. intros j Hj.
      unfold delayed_job.
      destruct (decide (sj_id j = h)) as [Heq|Hne].
      * assert (Hout : ~ scheduled_time j <= delay_horizon env).
        { intros Hwin. assert (Hsome : P !! h = Some j) by (now apply HP).
          congruence. }
        rewrite (bool_decide_eq_false_2 _ Hout), !andb_false_r. reflexivity.
      * assert (Hmem : sj_id j ∈ done ++ [h] <-> sj_id j ∈ done).
        { rewrite elem_of_app, list_elem_of_singleton. split; [|auto].
          intros [?|?]; [assumption|congruence]. }
        now rewrite (bool_decide_ext _ _ Hmem).
Qed.

Lemma delayed_job_no_handle env delay back (s : list SchedJob) :
  delayed_job env [] delay back <$> s = s.
Proof.
  rewrite <- (list_fmap_id s) at 2.
  apply Forall_fmap_ext, Forall_forall. intros j _.
  unfold delayed_job. rewrite bool_decide_eq_false_2; [reflexivity|].
  apply not_elem_of_nil.
Qed.

(** [delay_jobs] once the ticket is known. *)
Lemma delay_jobs_run env ref t delay back w :
  delay <> 0 ->
  ref = ByInstance t \/ (exists i, ref = ById i /\ db_ticket w !! i = Some t) ->
  NoDup (sj_id <$> scheduler w) ->
  delay_jobs env ref (Some delay) back w
  = (Ok tt,
     set_scheduler
       (delayed_job env (asynchronousJobId <$> ticket_jobs (ticket_id t) w)
          delay back <$> scheduler w) w).
Proof.
  intros Hd Href Hnd.
  assert (Hfound :
    match ref with
    | ByInstance t0 => ret (Some t0)
    | ById i =>
        try_except
          (let* t0 := Ticket_objects_get i in ret (Some t0))
          [AttributeError; ObjectDoesNotExist; TypeError; ValueError]
          (fun _ =>
             Logger_error ("Ticket " +:+ fmt_d i
                           +:+ " cannot be found in DB. Skipping...") >>
             ret None)
    end w = (Ok (Some t), w)).
  { destruct Href as [->|(i & -> & Hrow)]; [reflexivity|].
    now apply loads_ticket. }
  assert (HP : forall h p,
             foldl (fun m j => <[sj_id j := j]> m) (∅ : gmap string SchedJob)
               (filter (fun j => scheduled_time j <= delay_horizon env)
                  (scheduler w)) !! h = Some p
             <-> p ∈ scheduler w /\ sj_id p = h
                 /\ scheduled_time p <= delay_horizon env).
  { intros h p. rewrite pending_jobs_lookup.
    - rewrite lookup_empty, list_elem_of_filter. split.
      + intros [?|[[? ?] ?]]; [discriminate|auto].
      + intros (? & ? & ?). right. auto.
    - apply (sublist_NoDup _ (sj_id <$> scheduler w)); [exact Hnd|].
      apply fmap_sublist, sublist_filter.
    - intros j _. apply lookup_empty. }
  pose proof (delay_jobs_loop env delay back (scheduler w) _ Hnd HP
                (ticket_jobs (ticket_id t) w) [] w
                (eq_sym (delayed_job_no_handle env delay back (scheduler w))))
    as Hloop.
  unfold delay_jobs.
  destruct delay as [|d|d]; [congruence| |].
  - rewrite (bind_ok _ _ _ _ _ Hfound).
    unfold bind at 1, gets. unfold bind at 1, gets. exact Hloop.
  - rewrite (bind_ok _ _ _ _ _ Hfound).
    unfold bind at 1, gets. unfold bind at 1, gets. exact Hloop.
Qed.

(** X10. [delay_jobs] on a ticket that exists, with a delay that is not
    zero and unique handles in the scheduler, returns normally (the
    rescheduling never hits a missing handle) and changes execution times
    only: a pending job whose handle is recorded on the ticket and which is
    due within seven days is moved by the delay, once, earlier when [back]
    is set and later otherwise; every other pending job, the handles, the
    functions and their arguments, and the rest of the world are kept.  The
    ticket is given as an instance or by its id. *)
Theorem delay_jobs_effect env i t delay back w :
  delay <> 0 ->
  db_ticket w !! i = Some t ->
  NoDup (sj_id <$> scheduler w) ->
  delay_jobs env (ById i) (Some delay) back w
  = (Ok tt,
     set_scheduler
       (delayed_job env (asynchronousJobId <$> ticket_jobs (ticket_id t) w)
          delay back <$> scheduler w) w)
  /\ delay_jobs env (ByInstance t) (Some delay) back w
     = delay_jobs env (ById i) (Some delay) back w.
Proof.
  intros Hd Hrow Hnd.
  rewrite (delay_jobs_run env (ById i) t delay back w),
    (delay_jobs_run env (ByInstance t) t delay back w); eauto.
Qed.

Lemma delay_jobs_effect_witness :
  3600 * 1000000 <> 0
  /\ db_ticket ex_delay_world !! 7 = Some ex_phishing_one
  /\ NoDup (sj_id <$> scheduler ex_delay_world)
  /\ (scheduled_time
        <$> scheduler
              (snd (delay_jobs (ex_env false true) (ById 7)
                      (Some (3600 * 1000000)) false ex_delay_world)))
     = [1700007200 * 1000000; 1700003600 * 1000000].
Proof.
  assert (H1 : 3600 * 1000000 <> 0) by discriminate.
  assert (H2 : db_ticket ex_delay_world !! 7 = Some ex_phishing_one)
    by reflexivity.
  assert (H3 : NoDup (sj_id <$> scheduler ex_delay_world)) by by_evaluation.
  repeat (split; [assumption|]).
  rewrite (proj1 (delay_jobs_effect (ex_env false true) 7 ex_phishing_one
                    (3600 * 1000000) false ex_delay_world H1 H2 H3)).
  vm_compute. reflexivity.
Defined.





(** ** The sweeps as a whole *)

Lemma ex_world_keys_consistent t : keys_consistent (ex_world t).
Proof.
  intros i t' H.
  change (({[ticket_id t := t]} : gmap Z Ticket) !! i = Some t') in H.
  apply lookup_singleton_Some in H as [<- <-]. reflexivity.
Qed.

Lemma ex_world_rows (P : Ticket -> Prop) s t :
  P t -> Forall P (tickets_with_status s (ex_world t)).
Proof.
  intros HP. apply Forall_forall. intros t' Hin.
  apply elem_of_tickets_with_status in Hin as [_ [i Hi]].
  change (({[ticket_id t := t]} : gmap Z Ticket) !! i = Some t') in Hi.
  apply lookup_singleton_Some in Hi as [_ <-]. exact HP.
Qed.

Lemma update_waiting_sweep_witness :
  keys_consistent (ex_world (ex_waiting true ex_alarm_history))
  /\ Forall snooze_well_formed
       (tickets_with_status WAITING
          (ex_world (ex_waiting true ex_alarm_history)))
  /\ exists w',
       update_waiting (ex_clock_env 1700000700)
         (ex_world (ex_waiting true ex_alarm_history)) = (Ok tt, w')
       /\ status <$> db_ticket w' !! 11 = Some ALARM.
Proof.
  assert (H1 : keys_consistent (ex_world (ex_waiting true ex_alarm_history)))
    by apply ex_world_keys_consistent.
  assert (H2 : Forall snooze_well_formed
                 (tickets_with_status WAITING
                    (ex_world (ex_waiting true ex_alarm_history)))).
  { apply ex_world_rows. right. eexists. reflexivity. }
  repeat (split; [assumption|]).
  destruct (update_waiting_sweep (ex_clock_env 1700000700)
              (ex_world (ex_waiting true ex_alarm_history)) H1 H2)
    as (w' & Hrun & Hrows).
  exists w'. split; [exact Hrun|].
  rewrite (Hrows 11 (ex_waiting true ex_alarm_history) eq_refl).
  reflexivity.
Defined.

(** A loop whose body either returns or raises [e], over rows one of which
    makes the body raise [e], raises [e]. *)
Lemma for_each_raises {A} (body : A -> M unit) (e : Exn) (bad : A -> Prop) :
  (forall x w, (exists w', body x w = (Ok tt, w'))
               \/ (exists w', body x w = (Raise e, w'))) ->
  (forall x w, bad x -> exists w', body x w = (Raise e, w')) ->
  forall l w, (exists x, x ∈ l /\ bad x) ->
    fst (for_each l body w) = Raise e.
Proof.
  intros Hout Hbad. induction l as [|a l IH]; intros w (x & Hin & Hx).
  - now apply elem_of_nil in Hin.
  - cbn [for_each]. unfold bind at 1.
    apply elem_of_cons in Hin as [->|Hin].
    + destruct (Hbad a w Hx) as (w' & ->). reflexivity.
    + destruct (Hout a w) as [(w' & ->)|(w' & ->)]; [|reflexivity].
      apply IH. eauto.
Qed.

Lemma update_waiting_ticket_half_set now t w ss :
  snoozeStart t = Some ss -> snoozeDuration t = None ->
  update_waiting_ticket now t w = (Raise TypeError, w).
Proof.
  intros Hss Hsd. unfold update_waiting_ticket, try_except, deadline.
  rewrite Hss, Hsd. reflexivity.
Qed.

Lemma update_waiting_ticket_outcome now t w :
  (exists w', update_waiting_ticket now t w = (Ok tt, w'))
  \/ (exists w', update_waiting_ticket now t w = (Raise TypeError, w')).
Proof.
  destruct (decide (snooze_well_formed t)) as [Hwf|Hwf].
  - left. destruct (update_waiting_ticket_row now t w Hwf) as (w' & H & _).
    eauto.
  - right. exists w. unfold snooze_well_formed in Hwf.
    destruct (snoozeStart t) as [ss|] eqn:Hss; [|tauto].
    destruct (snoozeDuration t) as [sd|] eqn:Hsd.
    + exfalso. apply Hwf. right. eauto.
    + now apply (update_waiting_ticket_half_set now t w ss).
Qed.

(** X14. One waiting ticket whose snooze has a start and no duration stops
    the whole sweep of the waiting tickets: the sum of the deadline raises
    [TypeError], which the handler of the loop, written for
    [AttributeError] and [ValueError], does not catch. *)
Theorem update_waiting_missing_duration env w i t ss :
  db_ticket w !! i = Some t ->
  status t = WAITING ->
  snoozeStart t = Some ss ->
  snoozeDuration t = None ->
  fst (update_waiting env w) = Raise TypeError.
Proof.
  intros Hrow Hst Hss Hsd. unfold update_waiting, bind, gets.
  apply (for_each_raises _ TypeError
           (fun t => exists ss, snoozeStart t = Some ss
                                /\ snoozeDuration t = None)).
  - intros x w0. apply update_waiting_ticket_outcome.
  - intros x w0 (ss0 & H1 & H2). exists w0.
    now apply (update_waiting_ticket_half_set _ x w0 ss0).
  - exists t. split; [|eauto].
    apply elem_of_tickets_with_status. eauto.
Qed.

Lemma update_waiting_missing_duration_witness :
  db_ticket (ex_world ex_waiting_no_duration) !! 11
  = Some ex_waiting_no_duration
  /\ status ex_waiting_no_duration = WAITING
  /\ snoozeStart ex_waiting_no_duration = Some (1700000000 * 1000000)
  /\ snoozeDuration ex_waiting_no_duration = None
  /\ update_waiting (ex_clock_env 1700000700)
       (ex_world ex_waiting_no_duration)
     = (Raise TypeError, ex_world ex_waiting_no_duration).
Proof.
  assert (H1 : db_ticket (ex_world ex_waiting_no_duration) !! 11
               = Some ex_waiting_no_duration) by reflexivity.
  assert (H2 : status ex_waiting_no_duration = WAITING) by reflexivity.
  assert (H3 : snoozeStart ex_waiting_no_duration
               = Some (1700000000 * 1000000)) by reflexivity.
  assert (H4 : snoozeDuration ex_waiting_no_duration = None) by reflexivity.
  repeat (split; [assumption|]).
  pose proof (update_waiting_missing_duration (ex_clock_env 1700000700)
                (ex_world ex_waiting_no_duration) 11 ex_waiting_no_duration
                _ H1 H2 H3 H4) as Hfst.
  destruct (update_waiting (ex_clock_env 1700000700)
              (ex_world ex_waiting_no_duration)) as [r w'] eqn:Hrun.
  cbn [fst] in Hfst. subst r. f_equal.
  apply (f_equal snd) in Hrun. cbn [snd] in Hrun. rewrite <- Hrun.
  reflexivity.
Defined.

(** *** The sweep of the paused tickets *)

(** One turn of the loop of [update_paused] on a row with a well-formed
    pause: it returns normally and writes at most the row of its ticket. *)
Lemma update_paused_ticket_row env now t w :
  pause_well_formed t ->
  exists w',
    update_paused_ticket env now t w = (Ok tt, w')
    /\ db_ticket w'
       = match paused_row_after env now t with
         | Some r => <[ticket_id t := r]> (db_ticket w)
         | None => db_ticket w
         end.
Proof.
  intros Hwf. unfold paused_row_after.
  destruct (pauseStart t) as [ps|] eqn:Hps.
  - destruct Hwf as [Hwf|[pd Hpd]]; [congruence|]. rewrite Hpd.
    destruct (now >? mktime ps + pd) eqn:Hgt.
    + unfold unpaused_row.
      unfold update_paused_ticket, try_except, deadline.
      rewrite Hps, Hpd. run_steps. rewrite Hgt. run_steps.
      destruct (snoozeDuration t) as [d|] eqn:Hd.
      * destruct (bool_decide (previousStatus t = WAITING)
                  && truthy_int (Some d)
                  && bool_decide (is_Some (snoozeStart t))) eqn:Hc.
        -- run_steps. eexists. split; [reflexivity|]. world_fields.
           cbn [ticket_id previousStatus with_snooze with_status].
           now rewrite insert_insert_eq.
        -- run_steps. eexists. split; [reflexivity|]. world_fields.
           cbn [ticket_id previousStatus with_snooze with_status].
           now rewrite insert_insert_eq.
      * rewrite andb_false_r. cbn [andb]. run_steps.
        eexists. split; [reflexivity|]. world_fields.
        cbn [ticket_id previousStatus with_snooze with_status].
        now rewrite insert_insert_eq.
    + exists w. split; [|reflexivity].
      unfold update_paused_ticket, try_except, deadline.
      rewrite Hps, Hpd. run_steps. now rewrite Hgt.
  - eexists. split.
    { unfold update_paused_ticket, try_except, deadline. rewrite Hps.
      run_steps. reflexivity. }
    reflexivity.
Qed.

(** A loop over rows of distinct ids, each turn of which writes at most the
    row of its ticket. *)
Lemma sweep_rows (body : Ticket -> M unit) (after : Ticket -> option Ticket)
    (good : Ticket -> Prop) :
  (forall t w, good t ->
     exists w',
       body t w = (Ok tt, w')
       /\ db_ticket w'
          = match after t with
            | Some r => <[ticket_id t := r]> (db_ticket w)
            | None => db_ticket w
            end) ->
  forall rows w,
    Forall good rows ->
    NoDup (ticket_id <$> rows) ->
    exists w',
      for_each rows body w = (Ok tt, w')
      /\ (forall t, t ∈ rows ->
            db_ticket w' !! ticket_id t
            = match after t with
              | Some r => Some r
              | None => db_ticket w !! ticket_id t
              end)
      /\ (forall i, i ∉ (ticket_id <$> rows) ->
            db_ticket w' !! i = db_ticket w !! i).
Proof.
  intros Hbody.
  induction rows as [|t rest IH]; intros w Hwf Hnd.
  - exists w. split; [reflexivity|]. split; [|reflexivity].
    intros t Ht. now apply elem_of_nil in Ht.
  - apply Forall_cons in Hwf as [Ht Hrest].
    rewrite fmap_cons in Hnd. apply NoDup_cons in Hnd as [Hfresh Hnd].
    destruct (Hbody t w Ht) as (w1 & Hrun1 & Hdb1).
    destruct (IH w1 Hrest Hnd) as (w' & Hrun & Hin & Hout).
    assert (Hother : forall i, i <> ticket_id t ->
                       db_ticket w1 !! i = db_ticket w !! i).
    { intros i Hi. rewrite Hdb1.
      destruct (after t); [|reflexivity].
      now rewrite lookup_insert_ne. }
    exists w'. split; [|split].
    + cbn [for_each]. now rewrite (bind_ok _ _ _ _ _ Hrun1).
    + intros t' Ht'. apply elem_of_cons in Ht' as [->|Ht'].
      * rewrite (Hout _ Hfresh), Hdb1.
        destruct (after t); [|reflexivity].
        apply lookup_insert_eq.
      * rewrite (Hin t' Ht').
        destruct (after t'); [reflexivity|].
        apply Hother. intros Heq. apply Hfresh. rewrite <- Heq.
        apply list_elem_of_fmap. eauto.
    + intros i Hi. rewrite fmap_cons in Hi.
      apply not_elem_of_cons in Hi as [Hne Hi].
      rewrite (Hout i Hi). now apply Hother.
Qed.

(** X15. The sweep of the paused tickets, over a database whose rows are
    stored under their ids and whose paused tickets have a duration when
    they have a start: it returns normally; a paused ticket whose pause is
    over is saved with its previous status restored and its pause fields
    cleared, its snooze extended when it was waiting with a running snooze;
    a paused ticket whose pause is not over, or has no start, and every
    ticket that is not paused keep their row. *)
Theorem update_paused_sweep env w :
  keys_consistent w ->
  Forall pause_well_formed (tickets_with_status PAUSED w) ->
  exists w',
    update_paused env w = (Ok tt, w')
    /\ (forall i t,
          db_ticket w !! i = Some t ->
          db_ticket w' !! i
          = Some (if bool_decide (status t = PAUSED)
                  then default t (paused_row_after env (time_now env) t)
                  else t))
    /\ (forall i t ps pd,
          db_ticket w !! i = Some t -> status t = PAUSED ->
          pauseStart t = Some ps -> pauseDuration t = Some pd ->
          time_now env > mktime ps + pd ->
          exists t',
            db_ticket w' !! i = Some t'
            /\ status t' = previousStatus t
            /\ pauseStart t' = None /\ pauseDuration t' = None
            /\ snoozeStart t' = snoozeStart t).
Proof.
  intros Hkeys Hwf.
  destruct (sweep_rows (update_paused_ticket env (time_now env))
              (paused_row_after env (time_now env)) pause_well_formed
              (update_paused_ticket_row env (time_now env))
              (tickets_with_status PAUSED w) w Hwf
              (tickets_with_status_NoDup PAUSED w Hkeys))
    as (w' & Hrun & Hin & Hout).
  assert (Hall : forall i t,
             db_ticket w !! i = Some t ->
             db_ticket w' !! i
             = Some (if bool_decide (status t = PAUSED)
                     then default t (paused_row_after env (time_now env) t)
                     else t)).
  { intros i t Hrow. pose proof (Hkeys i t Hrow) as Hid. subst i.
    case_bool_decide as Hst.
    - assert (Ht : t ∈ tickets_with_status PAUSED w)
        by (apply elem_of_tickets_with_status; eauto).
      rewrite (Hin t Ht).
      destruct (paused_row_after env (time_now env) t); [reflexivity|].
      exact Hrow.
    - rewrite Hout; [exact Hrow|].
      intros Hmem. apply list_elem_of_fmap in Hmem as (t' & Hid & Ht').
      apply elem_of_tickets_with_status in Ht' as [Hst' [j Hj]].
      pose proof (Hkeys j t' Hj) as Hj'.
      assert (j = ticket_id t) by congruence. subst j.
      assert (t' = t) by congruence. subst t'. contradiction. }
  exists w'. split; [|split].
  - unfold update_paused, bind, gets. exact Hrun.
  - exact Hall.
  - intros i t ps pd Hrow Hst Hps Hpd Hnow.
    rewrite (Hall i t Hrow), (bool_decide_eq_true_2 _ Hst).
    unfold paused_row_after. rewrite Hps, Hpd.
    assert (Hgt : (time_now env >? mktime ps + pd) = true)
      by (apply Z.gtb_lt; lia).
    rewrite Hgt. cbn [default]. eexists. split; [reflexivity|].
    unfold unpaused_row.
    destruct (snoozeDuration t) as [d|]; [|repeat split].
    destruct (_ && _); repeat split.
Qed.

Lemma update_paused_sweep_witness :
  keys_consistent (ex_world ex_paused)
  /\ Forall pause_well_formed (tickets_with_status PAUSED (ex_world ex_paused))
  /\ exists w',
       update_paused (ex_clock_env 1700090001) (ex_world ex_paused)
       = (Ok tt, w')
       /\ status <$> db_ticket w' !! 9 = Some WAITING
       /\ pauseStart <$> db_ticket w' !! 9 = Some None.
Proof.
  assert (H1 : keys_consistent (ex_world ex_paused))
    by apply ex_world_keys_consistent.
  assert (H2 : Forall pause_well_formed
                 (tickets_with_status PAUSED (ex_world ex_paused))).
  { apply ex_world_rows. right. eexists. reflexivity. }
  repeat (split; [assumption|]).
  destruct (update_paused_sweep (ex_clock_env 1700090001)
              (ex_world ex_paused) H1 H2) as (w' & Hrun & Hrows & _).
  exists w'. split; [exact Hrun|].
  rewrite (Hrows 9 ex_paused eq_refl). split; reflexivity.
Defined.

(** X16. What the unpausing adds to the snooze of a ticket that was waiting
    is never a day or more: it is the time elapsed since the pause began,
    in whole seconds, reduced modulo 86400.  It equals the elapsed time
    exactly when the pause lasted less than a day, and falls short of it by
    the whole days otherwise. *)
Theorem update_paused_extension_bounded env now t w ps pd ss D :
  pauseStart t = Some ps -> pauseDuration t = Some pd ->
  now > mktime ps + pd ->
  previousStatus t = WAITING ->
  snoozeStart t = Some ss -> snoozeDuration t = Some D -> D <> 0 ->
  exists w' t' x,
    update_paused_ticket env now t w = (Ok tt, w')
    /\ db_ticket w' !! ticket_id t = Some t'
    /\ snoozeDuration t' = Some (D + x)
    /\ 0 <= x < 86400
    /\ x = elapsed_seconds (datetime_now env (ticket_id t)) ps mod 86400
    /\ (x = elapsed_seconds (datetime_now env (ticket_id t)) ps
        <-> 0 <= elapsed_seconds (datetime_now env (ticket_id t)) ps < 86400).
Proof.
  intros Hps Hpd Hnow Hprev Hss HD HD0.
  eexists. eexists.
  exists (timedelta_seconds (datetime_now env (ticket_id t)) ps).
  split.
  { apply (update_paused_ticket_waiting env now t w ps pd ss D); assumption. }
  split; [apply lookup_insert_eq|]. split; [reflexivity|].
  unfold timedelta_seconds, elapsed_seconds.
  pose proof (Z.mod_pos_bound ((datetime_now env (ticket_id t) - ps) / 1000000)
                86400 ltac:(lia)) as Hb.
  split; [exact Hb|]. split; [reflexivity|]. split.
  - intros Heq. rewrite <- Heq. exact Hb.
  - intros Hsmall. now apply Z.mod_small.
Qed.

Lemma update_paused_extension_bounded_witness :
  pauseStart ex_paused = Some (1700000000 * 1000000)
  /\ pauseDuration ex_paused = Some 90000
  /\ 1700090001 > mktime (1700000000 * 1000000) + 90000
  /\ previousStatus ex_paused = WAITING
  /\ snoozeStart ex_paused = Some (1699990000 * 1000000)
  /\ snoozeDuration ex_paused = Some 3600
  /\ 3600 <> 0
  /\ exists w' t' x,
       update_paused_ticket (ex_clock_env 1700090001) 1700090001 ex_paused
         (ex_world ex_paused) = (Ok tt, w')
       /\ db_ticket w' !! ticket_id ex_paused = Some t'
       /\ snoozeDuration t' = Some (3600 + x)
       /\ 0 <= x < 86400.
Proof.
  assert (H1 : pauseStart ex_paused = Some (1700000000 * 1000000))
    by reflexivity.
  assert (H2 : pauseDuration ex_paused = Some 90000) by reflexivity.
  assert (H3 : 1700090001 > mktime (1700000000 * 1000000) + 90000)
    by (vm_compute; reflexivity).
  assert (H4 : previousStatus ex_paused = WAITING) by reflexivity.
  assert (H5 : snoozeStart ex_paused = Some (1699990000 * 1000000))
    by reflexivity.
  assert (H6 : snoozeDuration ex_paused = Some 3600) by reflexivity.
  assert (H7 : 3600 <> 0) by discriminate.
  repeat (split; [assumption|]).
  destruct (update_paused_extension_bounded (ex_clock_env 1700090001)
              1700090001 ex_paused (ex_world ex_paused) _ _ _ _
              H1 H2 H3 H4 H5 H6 H7)
    as (w' & t' & x & Hrun & Hrow & Hd & Hx & _).
  exists w', t', x. repeat (split; [assumption|]). exact Hx.
Defined.

Lemma update_paused_ticket_half_set env now t w ps :
  pauseStart t = Some ps -> pauseDuration t = None ->
  update_paused_ticket env now t w = (Raise TypeError, w).
Proof.
  intros Hps Hpd. unfold update_paused_ticket, try_except, deadline.
  rewrite Hps, Hpd. reflexivity.
Qed.

Lemma update_paused_ticket_outcome env now t w :
  (exists w', update_paused_ticket env now t w = (Ok tt, w'))
  \/ (exists w', update_paused_ticket env now t w = (Raise TypeError, w')).
Proof.
  destruct (decide (pause_well_formed t)) as [Hwf|Hwf].
  - left. destruct (update_paused_ticket_row env now t w Hwf) as (w' & H & _).
    eauto.
  - right. exists w. unfold pause_well_formed in Hwf.
    destruct (pauseStart t) as [ps|] eqn:Hps; [|tauto].
    destruct (pauseDuration t) as [pd|] eqn:Hpd.
    + exfalso. apply Hwf. right. eauto.
    + now apply (update_paused_ticket_half_set env now t w ps).
Qed.

(** X17. One paused ticket whose pause has a start and no duration stops
    the whole sweep of the paused tickets with a [TypeError], which the
    handler of the loop does not catch. *)
Theorem update_paused_missing_duration env w i t ps :
  db_ticket w !! i = Some t ->
  status t = PAUSED ->
  pauseStart t = Some ps ->
  pauseDuration t = None ->
  fst (update_paused env w) = Raise TypeError.
Proof.
  intros Hrow Hst Hps Hpd. unfold update_paused, bind, gets.
  apply (for_each_raises _ TypeError
           (fun t => exists ps, pauseStart t = Some ps
                                /\ pauseDuration t = None)).
  - intros x w0. apply update_paused_ticket_outcome.
  - intros x w0 (ps0 & H1 & H2). exists w0.
    now apply (update_paused_ticket_half_set env _ x w0 ps0).
  - exists t. split; [|eauto].
    apply elem_of_tickets_with_status. eauto.
Qed.

Lemma update_paused_missing_duration_witness :
  db_ticket (ex_world ex_paused_no_duration) !! 9
  = Some ex_paused_no_duration
  /\ status ex_paused_no_duration = PAUSED
  /\ pauseStart ex_paused_no_duration = Some (1700000000 * 1000000)
  /\ pauseDuration ex_paused_no_duration = None
  /\ fst (update_paused (ex_clock_env 1700090001)
            (ex_world ex_paused_no_duration))
     = Raise TypeError.
Proof.
  assert (H1 : db_ticket (ex_world ex_paused_no_duration) !! 9
               = Some ex_paused_no_duration) by reflexivity.
  assert (H2 : status ex_paused_no_duration = PAUSED) by reflexivity.
  assert (H3 : pauseStart ex_paused_no_duration
               = Some (1700000000 * 1000000)) by reflexivity.
  assert (H4 : pauseDuration ex_paused_no_duration = None) by reflexivity.
  repeat (split; [assumption|]).
  exact (update_paused_missing_duration (ex_clock_env 1700090001)
           (ex_world ex_paused_no_duration) 9 ex_paused_no_duration
           _ H1 H2 H3 H4).
Defined.

(** ** The presence sweep *)

Lemma update_alarm_lookup rows b p i :
  alarm (update_alarm rows b p) !! i
  = if bool_decide (i ∈ ticket_id <$> rows) then Some b else alarm p !! i.
Proof.
  unfold update_alarm. cbn [alarm].
  induction rows as [|t rows IH].
  - reflexivity.
  - cbn [foldr]. rewrite fmap_cons.
    destruct (decide (ticket_id t = i)) as [<-|Hne].
    + rewrite lookup_insert_eq, bool_decide_eq_true_2; [reflexivity|].
      apply elem_of_cons. auto.
    + rewrite lookup_insert_ne by exact Hne. rewrite IH.
      apply (f_equal (fun c : bool => if c then Some b else alarm p !! i)).
      apply bool_decide_ext. rewrite elem_of_cons. split; [auto|].
      intros [?|?]; [congruence|assumption].
Qed.

(** The rows one user's update selects, by id. *)
Lemma sun_rows_ids u w i :
  keys_consistent w ->
  i ∈ ticket_id <$> filter (fun t => sun_where t = true) (ticketUser u w)
  <-> exists t, db_ticket w !! i = Some t
                /\ user_id <$> treatedBy t = Some (user_id u)
                /\ sun_where t = true.
Proof.
  intros Hkeys. rewrite list_elem_of_fmap. unfold ticketUser. split.
  - intros (t & -> & Hin). apply list_elem_of_filter in Hin as [Hw Hin].
    apply list_elem_of_filter in Hin as [Hu Hin].
    apply list_elem_of_fmap in Hin as ([k t'] & -> & Hin).
    apply elem_of_map_to_list in Hin. cbn [snd] in *.
    rewrite (Hkeys k t' Hin). eauto.
  - intros (t & Hrow & Hu & Hw). exists t. split; [now rewrite (Hkeys i t Hrow)|].
    apply list_elem_of_filter. split; [exact Hw|].
    apply list_elem_of_filter. split; [exact Hu|].
    apply list_elem_of_fmap. exists (i, t). split; [reflexivity|].
    now apply elem_of_map_to_list.
Qed.

Lemma mktime_plus_a_day ll : mktime (ll + 24 * 3600 * 1000000) = mktime ll + 86400.
Proof.
  unfold mktime.
  replace (ll + 24 * 3600 * 1000000) with (ll + 86400 * 1000000) by lia.
  now rewrite Z.div_add by lia.
Qed.

(** One turn of the loop for a user with a recorded login. *)
Lemma follow_the_sun_user_run now u p w ll :
  last_login p !! user_id u = Some ll ->
  exists msg,
    follow_the_sun_user now u p w
    = (Ok (update_alarm
             (filter (fun t => sun_where t = true) (ticketUser u w))
             (now >? mktime ll + 86400) p),
       set_logger (logger w ++ [(DEBUG, msg)]) w).
Proof.
  intros Hll. unfold follow_the_sun_user. rewrite Hll.
  unfold bind at 1, operand, ret. rewrite mktime_plus_a_day.
  destruct (now >? mktime ll + 86400); eexists; reflexivity.
Qed.

(** The loop over users of distinct ids who all have a recorded login. *)
Lemma follow_the_sun_users_run now tk : forall l p w,
  db_ticket w = tk ->
  keys_consistent w ->
  NoDup (user_id <$> l) ->
  (forall u, u ∈ l -> is_Some (last_login p !! user_id u)) ->
  exists w' p',
    follow_the_sun_users now l p w = (Ok p', w')
    /\ set_logger (logger w) w' = w
    /\ last_login p' = last_login p
    /\ (forall i t u ll,
          tk !! i = Some t -> u ∈ l ->
          user_id <$> treatedBy t = Some (user_id u) ->
          sun_where t = true ->
          last_login p !! user_id u = Some ll ->
          alarm p' !! i = Some (now >? mktime ll + 86400))
    /\ (forall i,
          (forall t u, tk !! i = Some t -> u ∈ l ->
             user_id <$> treatedBy t = Some (user_id u) ->
             sun_where t = true -> False) ->
          alarm p' !! i = alarm p !! i).
Proof.
  induction l as [|u l IH]; intros p w Htk Hkeys Hnd Hll.
  - exists w, p. split; [reflexivity|]. split; [now destruct w|].
    split; [reflexivity|]. split; [|reflexivity].
    intros i t u ll _ Hu. now apply elem_of_nil in Hu.
  - rewrite fmap_cons in Hnd. apply NoDup_cons in Hnd as [Hfresh Hnd].
    destruct (Hll u) as [ll Hu]; [apply elem_of_cons; auto|].
    destruct (follow_the_sun_user_run now u p w ll Hu) as (msg & Hrun1).
    set (rows := filter (fun t => sun_where t = true) (ticketUser u w)) in *.
    set (p1 := update_alarm rows (now >? mktime ll + 86400) p) in *.
    set (w1 := set_logger (logger w ++ [(DEBUG, msg)]) w) in *.
    assert (Hrows : forall i,
               i ∈ ticket_id <$> rows
               <-> exists t, tk !! i = Some t
                             /\ user_id <$> treatedBy t = Some (user_id u)
                             /\ sun_where t = true).
    { intros i. unfold rows. rewrite (sun_rows_ids u w i Hkeys), Htk.
      reflexivity. }
    destruct (IH p1 w1) as (w' & p' & Hrun & Hframe & Hlast & Hset & Hkeep).
    { exact Htk. }
    { exact Hkeys. }
    { exact Hnd. }
    { intros u' Hu'. apply Hll. apply elem_of_cons. auto. }
    exists w', p'. split; [|split; [|split; [|split]]].
    + cbn [follow_the_sun_users]. now rewrite (bind_ok _ _ _ _ _ Hrun1).
    + apply (f_equal (set_logger (logger w))) in Hframe. exact Hframe.
    + exact Hlast.
    + intros i t u' ll' Hrow Hin Hass Hwh Hll'.
      apply elem_of_cons in Hin as [->|Hin].
      * assert (ll' = ll) by congruence. subst ll'.
        rewrite Hkeep.
        -- unfold p1. rewrite update_alarm_lookup.
           rewrite bool_decide_eq_true_2; [reflexivity|].
           apply Hrows. eauto.
        -- intros t' u'' Hrow' Hin' Hass' _.
           assert (t' = t) by congruence. subst t'.
           apply Hfresh. apply list_elem_of_fmap. exists u''.
           split; [congruence|exact Hin'].
      * apply (Hset i t u' ll' Hrow Hin Hass Hwh). exact Hll'.
    + intros i Hnone. rewrite Hkeep.
      * unfold p1. rewrite update_alarm_lookup.
        rewrite bool_decide_eq_false_2; [reflexivity|].
        intros Hin. apply Hrows in Hin as (t & Hrow & Hass & Hwh).
        apply (Hnone t u Hrow); [apply elem_of_cons; auto|exact Hass|exact Hwh].
      * intros t u' Hrow Hin. apply (Hnone t u' Hrow).
        apply elem_of_cons. auto.
Qed.

Lemma sun_users_elem env w u :
  u ∈ filter (fun u => username u <> username (BOT_USER env))
        (snd <$> map_to_list (db_user w))
  <-> username u <> username (BOT_USER env)
      /\ exists k, db_user w !! k = Some u.
Proof.
  rewrite list_elem_of_filter, list_elem_of_fmap. split.
  - intros [Hn ([k u'] & -> & Hin)]. split; [exact Hn|].
    exists k. now apply elem_of_map_to_list.
  - intros [Hn [k Hk]]. split; [exact Hn|].
    exists (k, u). split; [reflexivity|]. now apply elem_of_map_to_list.
Qed.

Lemma sun_users_NoDup env w :
  users_consistent w ->
  NoDup (user_id <$> filter (fun u => username u <> username (BOT_USER env))
                       (snd <$> map_to_list (db_user w))).
Proof.
  intros Hkeys.
  apply (sublist_NoDup _ (user_id <$> (snd <$> map_to_list (db_user w)))).
  - assert (Heq : user_id <$> (snd <$> map_to_list (db_user w))
                  = fst <$> map_to_list (db_user w)).
    { rewrite <- list_fmap_compose. apply Forall_fmap_ext, Forall_forall.
      intros [k u] Hin. apply elem_of_map_to_list in Hin.
      exact (Hkeys k u Hin). }
    rewrite Heq. apply NoDup_fst_map_to_list.
  - apply fmap_sublist, sublist_filter.
Qed.

Lemma follow_the_sun_run env p w :
  keys_consistent w ->
  users_consistent w ->
  (forall k u, db_user w !! k = Some u ->
     username u <> username (BOT_USER env) ->
     is_Some (last_login p !! k)) ->
  exists w' p',
    follow_the_sun env p w = (Ok p', w')
    /\ set_logger (logger w) w' = w
    /\ last_login p' = last_login p
    /\ (forall i t,
          db_ticket w !! i = Some t ->
          alarm p' !! i
          = match sun_user env w t with
            | Some u =>
                (fun ll => time_now env >? mktime ll + 86400)
                  <$> last_login p !! user_id u
            | None => alarm p !! i
            end)
    /\ (forall i, db_ticket w !! i = None -> alarm p' !! i = alarm p !! i).
Proof.
  intros Hkeys Hukeys Hll.
  destruct (follow_the_sun_users_run (time_now env) (db_ticket w)
              (filter (fun u => username u <> username (BOT_USER env))
                 (snd <$> map_to_list (db_user w))) p w eq_refl Hkeys
              (sun_users_NoDup env w Hukeys))
    as (w' & p' & Hrun & Hframe & Hlast & Hset & Hkeep).
  { intros u Hu. apply sun_users_elem in Hu as [Hn [k Hk]].
    rewrite (Hukeys k u Hk). now apply (Hll k u). }
  exists w', p'. split; [|split; [|split; [|split]]].
  - unfold follow_the_sun, bind, gets. exact Hrun.
  - exact Hframe.
  - exact Hlast.
  - intros i t Hrow. unfold sun_user.
    destruct (treatedBy t) as [u0|] eqn:Hu0; cbn [mbind option_bind].
    + destruct (db_user w !! user_id u0) as [u|] eqn:Hu; cbn [mbind option_bind].
      * pose proof (Hukeys _ u Hu) as Hid.
        destruct (decide (username u <> username (BOT_USER env))) as [Hn|Hn].
        -- rewrite (bool_decide_eq_true_2 _ Hn). cbn [andb].
           destruct (sun_where t) eqn:Hwh.
           ++ destruct (Hll _ u Hu Hn) as [ll Hl]. rewrite Hid, Hl.
              cbn [fmap option_fmap option_map].
              apply (Hset i t u ll Hrow).
              ** apply sun_users_elem. eauto.
              ** rewrite Hu0. cbn. now rewrite Hid.
              ** exact Hwh.
              ** now rewrite Hid.
           ++ apply Hkeep. intros t' u' Hrow' _ _ Hwh'.
              assert (t' = t) by congruence. subst t'. congruence.
        -- rewrite (bool_decide_eq_false_2 _ Hn). cbn [andb].
           apply Hkeep. intros t' u' Hrow' Hin Hass _.
           assert (t' = t) by congruence. subst t'.
           apply sun_users_elem in Hin as [Hn' [k Hk]].
           rewrite Hu0 in Hass. cbn in Hass. injection Hass as Hass.
           pose proof (Hukeys k u' Hk) as Hid'.
           assert (u' = u) by congruence. subst u'. contradiction.
      * apply Hkeep. intros t' u' Hrow' Hin Hass _.
        assert (t' = t) by congruence. subst t'.
        apply sun_users_elem in Hin as [_ [k Hk]].
        rewrite Hu0 in Hass. cbn in Hass. injection Hass as Hass.
        pose proof (Hukeys k u' Hk) as Hid'. congruence.
    + apply Hkeep. intros t' u' Hrow' _ Hass _.
      assert (t' = t) by congruence. subst t'.
      rewrite Hu0 in Hass. discriminate.
  - intros i Hnone. apply Hkeep. intros t u Hrow. congruence.
Qed.

(** X18. [follow_the_sun], over a database whose rows are stored under
    their ids and in which every user but the bot has a recorded login,
    returns normally and writes nothing but the alarm flags and the log.
    The flag of a ticket is rewritten exactly when the ticket is assigned
    to a user whose row is not the bot's and its status is none of [Open],
    [Reopened], [Paused] and [Closed]; it is then set when the last login
    of that user is more than twenty-four hours old, and cleared
    otherwise.  Unassigned tickets, tickets in one of those four statuses,
    and tickets assigned to the bot or to a user without a row keep their
    flag. *)
Theorem follow_the_sun_effect env p w :
  keys_consistent w ->
  users_consistent w ->
  (forall k u, db_user w !! k = Some u ->
     username u <> username (BOT_USER env) ->
     is_Some (last_login p !! k)) ->
  exists w' p',
    follow_the_sun env p w = (Ok p', w')
    /\ set_logger (logger w) w' = w
    /\ last_login p' = last_login p
    /\ (forall i t,
          db_ticket w !! i = Some t ->
          alarm p' !! i
          = match sun_user env w t with
            | Some u =>
                (fun ll => time_now env >? mktime ll + 86400)
                  <$> last_login p !! user_id u
            | None => alarm p !! i
            end)
    /\ (forall i t,
          db_ticket w !! i = Some t ->
          treatedBy t = None
          \/ status t ∈ ["Open"; "Reopened"; "Paused"; "Closed"]
          \/ (exists u0,
                treatedBy t = Some u0
                /\ forall u, db_user w !! user_id u0 = Some u ->
                             username u = username (BOT_USER env)) ->
          alarm p' !! i = alarm p !! i).
Proof.
  intros Hkeys Hukeys Hll.
  destruct (follow_the_sun_run env p w Hkeys Hukeys Hll)
    as (w' & p' & Hrun & Hframe & Hlast & Hrows & _).
  exists w', p'. repeat (split; [assumption|]).
  intros i t Hrow Hcase. rewrite (Hrows i t Hrow).
  unfold sun_user.
  destruct (treatedBy t) as [u0|] eqn:Hu0; [|reflexivity].
  cbn [mbind option_bind].
  destruct (db_user w !! user_id u0) as [u|] eqn:Hu; [|reflexivity].
  cbn [mbind option_bind].
  destruct Hcase as [Hc|[Hc|(u1 & Hc & Hbot)]].
  - discriminate.
  - assert (Hwh : sun_where t = false).
    { unfold sun_where.
      repeat (apply elem_of_cons in Hc as [Hc|Hc];
              [rewrite (bool_decide_eq_true_2 _ Hc); cbn;
               now rewrite ?andb_false_r|]).
      now apply elem_of_nil in Hc. }
    now rewrite Hwh, andb_false_r.
  - injection Hc as <-.
    rewrite (bool_decide_eq_false_2 (username u <> _))
      by (intros Hn; apply Hn; now apply Hbot).
    reflexivity.
Qed.

Lemma ex_sun_world_keys : keys_consistent ex_sun_world.
Proof.
  change (map_Forall (fun i t => ticket_id t = i) (db_ticket ex_sun_world)).
  by_evaluation.
Qed.

Lemma ex_sun_world_users : users_consistent ex_sun_world.
Proof.
  change (map_Forall (fun k u => user_id u = k) (db_user ex_sun_world)).
  by_evaluation.
Qed.

Lemma ex_sun_world_logins k u :
  db_user ex_sun_world !! k = Some u ->
  username u <> username (BOT_USER (ex_clock_env 1700090000)) ->
  is_Some (last_login ex_presence !! k).
Proof.
  revert k u.
  change (map_Forall
            (fun k u =>
               username u <> username (BOT_USER (ex_clock_env 1700090000)) ->
               is_Some (last_login ex_presence !! k))
            (db_user ex_sun_world)).
  by_evaluation.
Qed.

Lemma follow_the_sun_effect_witness :
  keys_consistent ex_sun_world
  /\ users_consistent ex_sun_world
  /\ (forall k u, db_user ex_sun_world !! k = Some u ->
        username u <> username (BOT_USER (ex_clock_env 1700090000)) ->
        is_Some (last_login ex_presence !! k))
  /\ exists w' p',
       follow_the_sun (ex_clock_env 1700090000) ex_presence ex_sun_world
       = (Ok p', w')
       /\ alarm p' !! 11 = Some true
       /\ alarm p' !! 12 = Some true
       /\ alarm p' !! 13 = None.
Proof.
  assert (H1 : keys_consistent ex_sun_world) by apply ex_sun_world_keys.
  assert (H2 : users_consistent ex_sun_world) by apply ex_sun_world_users.
  assert (H3 : forall k u, db_user ex_sun_world !! k = Some u ->
             username u <> username (BOT_USER (ex_clock_env 1700090000)) ->
             is_Some (last_login ex_presence !! k))
    by apply ex_sun_world_logins.
  repeat (split; [assumption|]).
  destruct (follow_the_sun_effect (ex_clock_env 1700090000) ex_presence
              ex_sun_world H1 H2 H3)
    as (w' & p' & Hrun & _ & _ & Hrows & _).
  exists w', p'. split; [exact Hrun|].
  rewrite (Hrows 11 _ eq_refl), (Hrows 12 _ eq_refl), (Hrows 13 _ eq_refl).
  repeat split.
Defined.

(** X19. [follow_the_sun] is idempotent: run again at the same time on what
    a first run left, it returns normally with every alarm flag and every
    recorded login as the first run left them. *)
Theorem follow_the_sun_idempotent env p w :
  keys_consistent w ->
  users_consistent w ->
  (forall k u, db_user w !! k = Some u ->
     username u <> username (BOT_USER env) ->
     is_Some (last_login p !! k)) ->
  exists w1 p1 w2 p2,
    follow_the_sun env p w = (Ok p1, w1)
    /\ follow_the_sun env p1 w1 = (Ok p2, w2)
    /\ alarm p2 = alarm p1
    /\ last_login p2 = last_login p1.
Proof.
  intros Hkeys Hukeys Hll.
  destruct (follow_the_sun_run env p w Hkeys Hukeys Hll)
    as (w1 & p1 & Hrun1 & Hframe1 & Hlast1 & Hrows1 & Hnone1).
  assert (Hdb : db_ticket w1 = db_ticket w /\ db_user w1 = db_user w).
  { rewrite <- Hframe1. now destruct w1. }
  destruct Hdb as [Hdbt Hdbu].
  assert (Hkeys1 : keys_consistent w1).
  { intros i t. rewrite Hdbt. apply Hkeys. }
  assert (Hukeys1 : users_consistent w1).
  { intros k u. rewrite Hdbu. apply Hukeys. }
  assert (Hll1 : forall k u, db_user w1 !! k = Some u ->
             username u <> username (BOT_USER env) ->
             is_Some (last_login p1 !! k)).
  { intros k u. rewrite Hdbu, Hlast1. apply Hll. }
  destruct (follow_the_sun_run env p1 w1 Hkeys1 Hukeys1 Hll1)
    as (w2 & p2 & Hrun2 & _ & Hlast2 & Hrows2 & Hnone2).
  exists w1, p1, w2, p2. repeat (split; [assumption|]).
  split; [|exact Hlast2].
  apply map_eq. intros i.
  destruct (db_ticket w !! i) as [t|] eqn:Hrow.
  - rewrite (Hrows2 i t) by (now rewrite Hdbt).
    assert (Hsame : sun_user env w1 t = sun_user env w t).
    { unfold sun_user. now rewrite Hdbu. }
    rewrite Hsame, Hlast1. rewrite (Hrows1 i t Hrow).
    destruct (sun_user env w t); reflexivity.
  - apply Hnone2. now rewrite Hdbt.
Qed.

Lemma follow_the_sun_idempotent_witness :
  keys_consistent ex_sun_world
  /\ users_consistent ex_sun_world
  /\ (forall k u, db_user ex_sun_world !! k = Some u ->
        username u <> username (BOT_USER (ex_clock_env 1700090000)) ->
        is_Some (last_login ex_presence !! k))
  /\ exists w1 p1 w2 p2,
       follow_the_sun (ex_clock_env 1700090000) ex_presence ex_sun_world
       = (Ok p1, w1)
       /\ follow_the_sun (ex_clock_env 1700090000) p1 w1 = (Ok p2, w2)
       /\ alarm p2 = alarm p1
       /\ last_login p2 = last_login p1.
Proof.
  assert (H1 : keys_consistent ex_sun_world) by apply ex_sun_world_keys.
  assert (H2 : users_consistent ex_sun_world) by apply ex_sun_world_users.
  assert (H3 : forall k u, db_user ex_sun_world !! k = Some u ->
             username u <> username (BOT_USER (ex_clock_env 1700090000)) ->
             is_Some (last_login ex_presence !! k))
    by apply ex_sun_world_logins.
  repeat (split; [assumption|]).
  exact (follow_the_sun_idempotent (ex_clock_env 1700090000) ex_presence
           ex_sun_world H1 H2 H3).
Defined.

(** ** Validation of a PhishToCheck report *)

(** X20. The rule engine never sees the conditions [all_items_phishing] and
    [urls_down] when a PhishToCheck report is validated: whatever the stored
    rule holds, the outcome of [create_ticket_from_phishtocheck] depends on
    the engine only through what it does on configurations free of those
    two conditions. *)
Theorem create_ticket_from_phishtocheck_skips_conditions env env' r u w :
  (forall cfg rep,
     Forall (fun c => ~ skipped_condition c) (conditions_all cfg) ->
     run env cfg rep = run env' cfg rep) ->
  create_ticket_from_phishtocheck env r u w
  = create_ticket_from_phishtocheck env' r u w.
Proof.
  intros Hrun. unfold create_ticket_from_phishtocheck.
  unfold bind at 1 5.
  destruct (Report_objects_get r w) as [[rep|e|] w1]; try reflexivity.
  unfold bind at 1 4.
  destruct (User_objects_get u w1) as [[usr|e|] w2]; try reflexivity.
  unfold bind at 1 3.
  destruct (BusinessRules_objects_get "phishing_up" w2) as [[rule|e|] w3];
    try reflexivity.
  rewrite Hrun; [reflexivity|].
  cbn [conditions_all]. apply Forall_forall. intros c Hc.
  apply list_elem_of_filter in Hc as [Hc _]. unfold skipped_condition.
  intros [H|H]; apply Hc; rewrite H; set_solver.
Qed.

Lemma create_ticket_from_phishtocheck_skips_conditions_witness :
  (forall cfg rep,
     Forall (fun c => ~ skipped_condition c) (conditions_all cfg) ->
     run (ex_env false true) cfg rep = run ex_env_strict cfg rep)
  /\ run (ex_env false true)
       (mkRule [mkCond "urls_down" (VBool false)] []) (mkReport 1 None [])
     <> run ex_env_strict
          (mkRule [mkCond "urls_down" (VBool false)] []) (mkReport 1 None [])
  /\ create_ticket_from_phishtocheck ex_env_strict 1 0 ex_phish_world
     = (Ok tt,
        set_db_history
          [mkAudit (Some 7) "validate_phishtocheck"
             [("user", VUser ex_bot); ("report", VInt 1)]]
          ex_phish_world).
Proof.
  assert (H1 : forall cfg rep,
             Forall (fun c => ~ skipped_condition c) (conditions_all cfg) ->
             run (ex_env false true) cfg rep = run ex_env_strict cfg rep).
  { intros cfg rep Hall. cbn [run ex_env ex_env_strict].
    assert (Hb : forallb
                   (fun c => negb (bool_decide (cond_name c = "urls_down")))
                   (conditions_all cfg) = true).
    { apply forallb_forall. intros c Hc. apply negb_true_iff.
      apply bool_decide_eq_false_2. intros Hn.
      rewrite Forall_forall in Hall. apply (Hall c).
      - now apply list_elem_of_In.
      - now right. }
    now rewrite Hb. }
  split; [exact H1|]. split.
  - intros H. apply (f_equal (fun c => fst (c ex_phish_world))) in H.
    vm_compute in H. discriminate H.
  - rewrite <- (create_ticket_from_phishtocheck_skips_conditions
                  (ex_env false true) ex_env_strict 1 0 ex_phish_world H1).
    reflexivity.
Defined.

Lemma validation_config_conditions rule :
  filter (fun cond => cond_name cond ∉ ["all_items_phishing"; "urls_down"])
    (conditions_all rule)
  = conditions_all (validation_config rule).
Proof.
  unfold validation_config. cbn [conditions_all].
  apply list_filter_iff. intros c. unfold skipped_condition.
  rewrite !not_elem_of_cons. split.
  - intros (H1 & H2 & _) [H|H]; contradiction.
  - intros H. repeat split; [tauto|tauto|apply not_elem_of_nil].
Qed.

(** X24. The outcomes of [create_ticket_from_phishtocheck] once the report
    and the user are found.  Without a rule named [phishing_up] the lookup
    raises [ObjectDoesNotExist] and nothing is written.  Otherwise the
    engine runs on the rule without the two conditions left out; when it
    does not apply the rule, [AssertionError] is raised and the audit trail
    gets no entry of the validation; when it applies the rule, one
    [validate_phishtocheck] entry for the ticket of the report, naming the
    user and the report, is appended to the audit trail the engine left. *)
Theorem create_ticket_from_phishtocheck_outcomes env r u w rep usr :
  db_report w !! r = Some rep ->
  db_user w !! u = Some usr ->
  (db_businessrules w !! "phishing_up" = None ->
   create_ticket_from_phishtocheck env r u w = (Raise ObjectDoesNotExist, w))
  /\ (forall rule applied w1,
        db_businessrules w !! "phishing_up" = Some rule ->
        run env (validation_config rule) rep w = (Ok applied, w1) ->
        create_ticket_from_phishtocheck env r u w
        = if applied
          then (Ok tt,
                set_db_history
                  (db_history w1
                   ++ [mkAudit (report_ticket rep) "validate_phishtocheck"
                         [("user", VUser usr);
                          ("report", VInt (report_id rep))]]) w1)
          else (Raise AssertionError, w1)).
Proof.
  intros Hrep Husr.
  split.
  - intros Hnone. unfold create_ticket_from_phishtocheck.
    unfold bind at 1, Report_objects_get. rewrite Hrep.
    unfold bind at 1, User_objects_get. rewrite Husr.
    unfold bind at 1, BusinessRules_objects_get. now rewrite Hnone.
  - intros rule applied w1 Hrule Hrun.
    unfold create_ticket_from_phishtocheck.
    unfold bind at 1, Report_objects_get. rewrite Hrep.
    unfold bind at 1, User_objects_get. rewrite Husr.
    unfold bind at 1, BusinessRules_objects_get. rewrite Hrule.
    unfold bind at 1. rewrite validation_config_conditions.
    change (mkRule (conditions_all (validation_config rule))
              (rule_actions rule)) with (validation_config rule).
    rewrite Hrun. destruct applied; reflexivity.
Qed.

Lemma create_ticket_from_phishtocheck_outcomes_witness :
  db_report ex_phish_world !! 1 = Some (mkReport 1 (Some 7) one_ip)
  /\ db_user ex_phish_world !! 0 = Some ex_bot
  /\ create_ticket_from_phishtocheck (ex_env false true) 1 0 ex_phish_world
     = (Ok tt,
        set_db_history
          [mkAudit (Some 7) "validate_phishtocheck"
             [("user", VUser ex_bot); ("report", VInt 1)]]
          ex_phish_world).
Proof.
  assert (H1 : db_report ex_phish_world !! 1
               = Some (mkReport 1 (Some 7) one_ip)) by reflexivity.
  assert (H2 : db_user ex_phish_world !! 0 = Some ex_bot) by reflexivity.
  repeat (split; [assumption|]).
  destruct (create_ticket_from_phishtocheck_outcomes (ex_env false true) 1 0
              ex_phish_world _ _ H1 H2) as [_ Hsome].
  rewrite (Hsome _ true ex_phish_world eq_refl eq_refl). reflexivity.
Defined.

(** ** How the operations compose *)

(** X21. Pause time does not count against the snooze clock when the pause
    lasted less than a day.  A ticket paused while it was waiting with a
    snooze of [D] seconds started at [ss] comes out of [update_paused] in
    [WaitingAnswer]; the sweep of the waiting tickets then moves it to
    [Alarm] exactly when the time is past [ss + D + P], [P] being the
    seconds elapsed since the pause began, and leaves it alone, without a
    trace, until then. *)
Theorem unpaused_snooze_deadline env now t w ps pd ss D :
  pauseStart t = Some ps -> pauseDuration t = Some pd ->
  now > mktime ps + pd ->
  previousStatus t = WAITING ->
  snoozeStart t = Some ss -> snoozeDuration t = Some D -> D <> 0 ->
  0 <= elapsed_seconds (datetime_now env (ticket_id t)) ps < 86400 ->
  exists w1 t1,
    update_paused_ticket env now t w = (Ok tt, w1)
    /\ db_ticket w1 !! ticket_id t = Some t1
    /\ status t1 = WAITING
    /\ forall now' w2,
         (now' > mktime ss + D
                 + elapsed_seconds (datetime_now env (ticket_id t)) ps ->
          exists w3 t3,
            update_waiting_ticket now' t1 w2 = (Ok tt, w3)
            /\ db_ticket w3 !! ticket_id t = Some t3
            /\ status t3 = ALARM)
         /\ (now' <= mktime ss + D
                     + elapsed_seconds (datetime_now env (ticket_id t)) ps ->
             update_waiting_ticket now' t1 w2 = (Ok tt, w2)).
Proof.
  intros Hps Hpd Hnow Hprev Hss HD HD0 Hday.
  eexists. eexists. split.
  { apply (update_paused_ticket_waiting env now t w ps pd ss D); assumption. }
  split; [apply lookup_insert_eq|]. split; [reflexivity|].
  rewrite (timedelta_seconds_within_a_day _ _ Hday).
  set (P := elapsed_seconds (datetime_now env (ticket_id t)) ps).
  set (t1 := with_pause None None
               (with_status WAITING
                  (with_snooze (Some ss) (Some (D + P)) t))).
  intros now' w2. split.
  - intros Hlate.
    assert (Hwf : snooze_well_formed t1) by (right; eexists; reflexivity).
    destruct (update_waiting_ticket_row now' t1 w2 Hwf) as (w3 & Hrun & Hdb).
    assert (Hrow : waiting_row_after now' t1 = Some (alarm_row t1)).
    { unfold waiting_row_after. cbn [snoozeStart snoozeDuration t1 with_pause
        with_status with_snooze].
      assert (Hgt : (now' >? mktime ss + (D + P)) = true)
        by (apply Z.gtb_lt; lia).
      now rewrite Hgt. }
    rewrite Hrow in Hdb.
    exists w3, (alarm_row t1). split; [exact Hrun|]. split.
    + rewrite Hdb. apply (lookup_insert_eq (db_ticket w2) (ticket_id t1)).
    + reflexivity.
  - intros Hearly.
    assert (Hle : (now' >? mktime ss + (D + P)) = false)
      by (rewrite Z.gtb_ltb; apply Z.ltb_ge; lia).
    unfold update_waiting_ticket, try_except, deadline.
    cbn [snoozeStart snoozeDuration t1 with_pause with_status with_snooze].
    run_steps. now rewrite Hle.
Qed.

Lemma unpaused_snooze_deadline_witness :
  pauseStart ex_paused_short = Some (1700000000 * 1000000)
  /\ pauseDuration ex_paused_short = Some 1800
  /\ 1700001801 > mktime (1700000000 * 1000000) + 1800
  /\ previousStatus ex_paused_short = WAITING
  /\ snoozeStart ex_paused_short = Some (1699999000 * 1000000)
  /\ snoozeDuration ex_paused_short = Some 3600
  /\ 3600 <> 0
  /\ 0 <= elapsed_seconds (datetime_now (ex_clock_env 1700001801) 9)
            (1700000000 * 1000000) < 86400
  /\ exists w1 t1,
       update_paused_ticket (ex_clock_env 1700001801) 1700001801
         ex_paused_short (ex_world ex_paused_short) = (Ok tt, w1)
       /\ db_ticket w1 !! 9 = Some t1
       /\ update_waiting_ticket 1700004401 t1 w1 = (Ok tt, w1)
       /\ exists w3 t3,
            update_waiting_ticket 1700004402 t1 w1 = (Ok tt, w3)
            /\ db_ticket w3 !! 9 = Some t3
            /\ status t3 = ALARM.
Proof.
  assert (H1 : pauseStart ex_paused_short = Some (1700000000 * 1000000))
    by reflexivity.
  assert (H2 : pauseDuration ex_paused_short = Some 1800) by reflexivity.
  assert (H3 : 1700001801 > mktime (1700000000 * 1000000) + 1800)
    by (vm_compute; reflexivity).
  assert (H4 : previousStatus ex_paused_short = WAITING) by reflexivity.
  assert (H5 : snoozeStart ex_paused_short = Some (1699999000 * 1000000))
    by reflexivity.
  assert (H6 : snoozeDuration ex_paused_short = Some 3600) by reflexivity.
  assert (H7 : 3600 <> 0) by discriminate.
  assert (H8 : 0 <= elapsed_seconds (datetime_now (ex_clock_env 1700001801) 9)
                      (1700000000 * 1000000) < 86400)
    by (vm_compute; split; [discriminate|reflexivity]).
  repeat (split; [assumption|]).
  destruct (unpaused_snooze_deadline (ex_clock_env 1700001801) 1700001801
              ex_paused_short (ex_world ex_paused_short) _ _ _ _
              H1 H2 H3 H4 H5 H6 H7 H8)
    as (w1 & t1 & Hrun & Hrow & _ & Hnext).
  exists w1, t1. split; [exact Hrun|]. split; [exact Hrow|]. split.
  - apply (proj2 (Hnext 1700004401 w1)). vm_compute. discriminate.
  - apply (proj1 (Hnext 1700004402 w1)). vm_compute. reflexivity.
Defined.

(** A handle the dict of pending jobs maps is the handle of a pending
    job. *)
Lemma pending_jobs_lookup_elem : forall (l : list SchedJob)
    (m0 : gmap string SchedJob) h p,
  foldl (fun m j => <[sj_id j := j]> m) m0 l !! h = Some p ->
  m0 !! h = Some p \/ (p ∈ l /\ sj_id p = h).
Proof.
  induction l as [|a l IH]; intros m0 h p H.
  - now left.
  - cbn [foldl] in H. apply IH in H as [H|[Hp Hid]].
    + destruct (decide (sj_id a = h)) as [Heq|Hne].
      * rewrite <- Heq, lookup_insert_eq in H. injection H as <-.
        right. split; [apply elem_of_cons; auto|exact Heq].
      * rewrite lookup_insert_ne in H by exact Hne. now left.
    + right. split; [apply elem_of_cons; auto|exact Hid].
Qed.

(** With no handle of the ticket among the pending jobs, the loop of
    [delay_jobs] does nothing. *)
Lemma delay_jobs_loop_idle (delay : Z) (back : bool)
    (P : gmap string SchedJob) :
  forall jobs w,
    (forall job, job ∈ jobs -> P !! asynchronousJobId job = None) ->
    for_each jobs
      (fun job =>
         match P !! asynchronousJobId job with
         | Some pending =>
             let current_date := scheduled_time pending in
             let new_date :=
               if back then current_date - delay else current_date + delay in
             change_execution_time (sj_id pending) new_date
         | None => ret tt
         end) w
    = (Ok tt, w).
Proof.
  induction jobs as [|job rest IH]; intros w Hnone; [reflexivity|].
  cbn [for_each]. unfold bind at 1.
  rewrite (Hnone job) by (apply elem_of_cons; auto).
  cbv [ret]. apply IH. intros job' Hin. apply Hnone.
  apply elem_of_cons. auto.
Qed.

(** X22. Once the jobs of a ticket are cancelled there is nothing left to
    delay: [delay_jobs] on the ticket, for any non-zero delay and in either
    direction, returns normally and changes nothing; in particular it
    brings no cancelled job back. *)
Theorem cancel_then_delay env i status' t delay back w :
  db_ticket w !! i = Some t ->
  scheduler_wf (scheduler w) ->
  delay <> 0 ->
  exists w1,
    cancel_rq_scheduler_jobs i status' w = (Ok tt, w1)
    /\ delay_jobs env (ById i) (Some delay) back w1 = (Ok tt, w1).
Proof.
  intros Hrow Hwf Hd.
  destruct (cancel_ticket_jobs_run (ticket_id t) status'
              (ticket_jobs (ticket_id t) w) 0 w eq_refl)
    as (wa & Hrun1 & Hsched1 & Hids1 & _ & Hframe1).
  assert (Hwfa : scheduler_wf (scheduler wa)).
  { unfold scheduler_wf in *. rewrite Forall_forall in *.
    intros j Hj. apply Hwf. now apply Hsched1. }
  destruct (cancel_pending_jobs_run t (scheduler wa) wa Hwfa)
    as (w1 & Hrun2 & Hsched2 & Hjobs2 & Hframe2).
  pose proof (same_but_trans w wa w1 Hframe1 Hframe2) as Hframe.
  destruct (same_but_fields w w1 Hframe) as (Hdb & _).
  exists w1. split.
  - unfold cancel_rq_scheduler_jobs.
    rewrite (bind_ok _ _ _ _ _ (loads_ticket i t w _ _ Hrow)).
    unfold bind at 1, gets. rewrite (bind_ok _ _ _ _ _ Hrun1).
    unfold bind at 1, gets. exact Hrun2.
  - assert (Hrow1 : db_ticket w1 !! i = Some t) by (now rewrite Hdb).
    assert (Hidle : forall (P0 : list SchedJob) job,
               (forall p, p ∈ P0 -> p ∈ scheduler w1) ->
               job ∈ ticket_jobs (ticket_id t) w1 ->
               foldl (fun m j => <[sj_id j := j]> m)
                 (∅ : gmap string SchedJob) P0 !! asynchronousJobId job
               = None).
    { intros P0 job Hsub Hjob.
      destruct (foldl _ _ P0 !! asynchronousJobId job) as [p|] eqn:Hp;
        [|reflexivity].
      exfalso. apply pending_jobs_lookup_elem in Hp as [Hp|[Hp Hid]].
      - rewrite lookup_empty in Hp. discriminate.
      - apply Hsub, Hsched2 in Hp as [Hp _]. apply Hsched1 in Hp as [_ Hno].
        apply Hno. rewrite Hid, <- Hids1,
          <- (ticket_jobs_same (ticket_id t) wa w1 Hjobs2).
        apply list_elem_of_fmap. eauto. }
    unfold delay_jobs.
    destruct delay as [|d|d]; [congruence| |].
    + rewrite (bind_ok _ _ _ _ _ (loads_ticket i t w1 _ _ Hrow1)).
      unfold bind at 1, gets. unfold bind at 1, gets.
      apply delay_jobs_loop_idle. intros job Hjob.
      apply Hidle; [|exact Hjob].
      intros p Hp. now apply list_elem_of_filter in Hp as [_ Hp].
    + rewrite (bind_ok _ _ _ _ _ (loads_ticket i t w1 _ _ Hrow1)).
      unfold bind at 1, gets. unfold bind at 1, gets.
      apply delay_jobs_loop_idle. intros job Hjob.
      apply Hidle; [|exact Hjob].
      intros p Hp. now apply list_elem_of_filter in Hp as [_ Hp].
Qed.

Lemma cancel_then_delay_witness :
  db_ticket ex_cancel_world !! 7 = Some ex_phishing_one
  /\ scheduler_wf (scheduler ex_cancel_world)
  /\ 3600 * 1000000 <> 0
  /\ exists w1,
       cancel_rq_scheduler_jobs 7 "answered" ex_cancel_world = (Ok tt, w1)
       /\ delay_jobs (ex_env false true) (ById 7) (Some (3600 * 1000000))
            true w1 = (Ok tt, w1).
Proof.
  assert (H1 : db_ticket ex_cancel_world !! 7 = Some ex_phishing_one)
    by reflexivity.
  assert (H2 : scheduler_wf (scheduler ex_cancel_world)) by by_evaluation.
  assert (H3 : 3600 * 1000000 <> 0) by discriminate.
  repeat (split; [assumption|]).
  exact (cancel_then_delay (ex_env false true) 7 "answered" ex_phishing_one
           (3600 * 1000000) true ex_cancel_world H1 H2 H3).
Defined.

(** X23. The job [timeout] dispatches can be cancelled while [timeout]
    waits for it.  The job is scheduled with the id of its ticket, so the
    scheduler stays well formed for cancellations; and a cancellation for
    that ticket, run in the world in which [timeout] waits, returns
    normally, removes the handle of the job from the scheduler, brings in
    no job that was not pending before the dispatch, and marks the job row
    of the ticket as cancelled, with the reason. *)
Theorem dispatched_job_cancellable env polls i t w action addr status' :
  db_ticket w !! i = Some t ->
  conformant t w ->
  get_action_for_timeout env t = Some action ->
  ~ (lower (category_name (category t)) = "phishing"
     /\ is_all_down_for_ticket env t = true) ->
  ticket_target_set t = {[addr]} ->
  addr <> "" ->
  (forall n, is_finished env n = false) ->
  scheduler_wf (scheduler w) ->
  exists w1 w2,
    timeout env polls i w = (Blocked, w1)
    /\ scheduler_wf (scheduler w1)
    /\ cancel_rq_scheduler_jobs (ticket_id t) status' w1 = (Ok tt, w2)
    /\ (forall j, j ∈ scheduler w2 ->
          j ∈ scheduler w /\ sj_id j <> new_job_id env)
    /\ ticket_jobs (ticket_id t) w2
       = [with_job_status ("cancelled by " +:+ status')
            (created_service_action_job env t addr action
               (scheduled_apply_action env t addr action))].
Proof.
  intros Hrow Hc Hact Hshort Hset Hne Hnever Hwf.
  set (w1 := world_after_dispatch env t addr action w).
  set (job := created_service_action_job env t addr action
                (scheduled_apply_action env t addr action)).
  assert (Hjobs1 : ticket_jobs (ticket_id t) w1 = [job]).
  { destruct Hc as (_ & _ & _ & _ & _ & Hj).
    unfold w1, world_after_dispatch, ticket_jobs. world_fields.
    rewrite lookup_insert_eq.
    exact (f_equal (fun l => l ++ [job]) Hj). }
  assert (Hsch1 : scheduler w1
                  = scheduler w ++ [scheduled_apply_action env t addr action])
    by reflexivity.
  assert (Hwf1 : scheduler_wf (scheduler w1)).
  { unfold scheduler_wf. rewrite Hsch1. apply Forall_app. split; [exact Hwf|].
    apply Forall_singleton. intros _. eexists. reflexivity. }
  assert (Hrow1 : db_ticket w1 !! ticket_id t
                  = Some (with_action (Some action) t)).
  { unfold w1, world_after_dispatch. world_fields. apply lookup_insert_eq. }
  assert (Hnd : NoDup (asynchronousJobId
                         <$> ticket_jobs (ticket_id t) w1)).
  { rewrite Hjobs1. apply NoDup_singleton. }
  destruct (cancel_ticket_jobs_rows (ticket_id t) status'
              (ticket_jobs (ticket_id t) w1) 0 w1 eq_refl Hnd)
    as (wa & Hrun1 & Hrows & _).
  destruct (cancel_ticket_jobs_run (ticket_id t) status'
              (ticket_jobs (ticket_id t) w1) 0 w1 eq_refl)
    as (wa' & Hrun1' & Hsched1 & _).
  assert (wa' = wa) by congruence. subst wa'.
  assert (Hwfa : scheduler_wf (scheduler wa)).
  { unfold scheduler_wf in *. rewrite Forall_forall in *.
    intros j Hj. apply Hwf1. now apply Hsched1. }
  destruct (cancel_pending_jobs_run (with_action (Some action) t)
              (scheduler wa) wa Hwfa)
    as (w2 & Hrun2 & Hsched2 & Hjobs2 & _).
  exists w1, w2. split; [|split; [|split; [|split]]].
  - rewrite (timeout_passes_gate env polls i t w Hrow Hc).
    unfold timeout_after_gate. rewrite Hact, (no_shortcut_test env t Hshort).
    destruct (unique_target_found t w addr Hset Hne) as [Hget Htruthy].
    rewrite (bind_ok _ _ _ _ _ Hget), Htruthy.
    unfold bind at 1.
    now rewrite (apply_timeout_action_blocked env polls t addr action w Hnever).
  - exact Hwf1.
  - unfold cancel_rq_scheduler_jobs.
    rewrite (bind_ok _ _ _ _ _ (loads_ticket _ _ w1 _ _ Hrow1)).
    unfold bind at 1, gets. rewrite (bind_ok _ _ _ _ _ Hrun1).
    unfold bind at 1, gets. exact Hrun2.
  - intros j Hj. apply Hsched2 in Hj as [Hj _].
    apply Hsched1 in Hj as [Hj Hno].
    assert (Hid : sj_id j <> new_job_id env).
    { intros Heq. apply Hno. rewrite Hjobs1, Heq. cbn.
      apply list_elem_of_singleton. reflexivity. }
    split; [|exact Hid].
    rewrite Hsch1 in Hj. apply elem_of_app in Hj as [Hj|Hj]; [exact Hj|].
    apply list_elem_of_singleton in Hj. subst j. now destruct Hid.
  - rewrite (ticket_jobs_same (ticket_id t) wa w2 Hjobs2).
    change (ticket_id (with_action (Some action) t)) with (ticket_id t)
      in Hrows.
    rewrite Hrows, Hjobs1. cbn [take app fmap list_fmap].
    unfold cancelled_row.
    assert (Hin : in_scheduler (asynchronousJobId job) (scheduler w1) = true).
    { unfold in_scheduler. apply bool_decide_eq_true_2.
      rewrite Hsch1, fmap_app. apply elem_of_app. right.
      apply list_elem_of_singleton. reflexivity. }
    now rewrite Hin.
Qed.

Lemma dispatched_job_cancellable_witness :
  db_ticket (ex_world ex_phishing_one) !! 7 = Some ex_phishing_one
  /\ conformant ex_phishing_one (ex_world ex_phishing_one)
  /\ get_action_for_timeout ex_env_never_finished ex_phishing_one
     = Some ex_action
  /\ ~ (lower (category_name (category ex_phishing_one)) = "phishing"
        /\ is_all_down_for_ticket ex_env_never_finished ex_phishing_one = true)
  /\ ticket_target_set ex_phishing_one = {["1.2.3.4"]}
  /\ "1.2.3.4" <> ""
  /\ (forall n, is_finished ex_env_never_finished n = false)
  /\ scheduler_wf (scheduler (ex_world ex_phishing_one))
  /\ exists w1 w2,
       timeout ex_env_never_finished 10 7 (ex_world ex_phishing_one)
       = (Blocked, w1)
       /\ cancel_rq_scheduler_jobs 7 "closed" w1 = (Ok tt, w2)
       /\ scheduler w2 = []
       /\ job_status <$> ticket_jobs 7 w2 = [Some "cancelled by closed"].
Proof.
  assert (H1 : db_ticket (ex_world ex_phishing_one) !! 7
               = Some ex_phishing_one) by reflexivity.
  assert (H2 : conformant ex_phishing_one (ex_world ex_phishing_one))
    by by_evaluation.
  assert (H3 : get_action_for_timeout ex_env_never_finished ex_phishing_one
               = Some ex_action) by reflexivity.
  assert (H4 : ~ (lower (category_name (category ex_phishing_one))
                  = "phishing"
                  /\ is_all_down_for_ticket ex_env_never_finished
                       ex_phishing_one = true)) by by_evaluation.
  assert (H5 : ticket_target_set ex_phishing_one = {["1.2.3.4"]})
    by by_evaluation.
  assert (H6 : "1.2.3.4" <> "") by discriminate.
  assert (H7 : forall n, is_finished ex_env_never_finished n = false)
    by reflexivity.
  assert (H8 : scheduler_wf (scheduler (ex_world ex_phishing_one)))
    by by_evaluation.
  repeat (split; [assumption|]).
  destruct (dispatched_job_cancellable ex_env_never_finished 10 7
              ex_phishing_one (ex_world ex_phishing_one) ex_action "1.2.3.4"
              "closed" H1 H2 H3 H4 H5 H6 H7 H8)
    as (w1 & w2 & Hrun & _ & Hcancel & Hsched & Hrows).
  exists w1, w2. split; [exact Hrun|]. split; [exact Hcancel|]. split.
  - destruct (scheduler w2) as [|j rest] eqn:Hs; [reflexivity|].
    exfalso. destruct (Hsched j) as [Hj _]; [apply elem_of_cons; auto|].
    now apply elem_of_nil in Hj.
  - change 7 with (ticket_id ex_phishing_one). rewrite Hrows. reflexivity.
Defined.
